(** * Sheet-music upload validation and MEI conversion service

    A shallow embedding of the upload page's validator
    ([src/pages/Upload.tsx]) and of the two conversion back ends
    ([conversion-service/server.js] and the edge function that follows it in
    the same file), with the properties of the written specification that
    concern them. *)

From Stdlib Require Import NArith ZArith Ascii.
From stdpp Require Import base strings list gmap.

Local Open Scope string_scope.

(** ** JavaScript strings

    A string handled by a regular expression is a sequence of UTF-16 code
    units, kept as [list N].  File names, paths and file contents are byte
    strings ([string]); a literal with a letter outside ASCII holds its UTF-8
    bytes. *)

Module Js.

Definition units (s : string) : list N :=
  map Ascii.N_of_ascii (String.list_ascii_of_string s).

(** The double quote, written by its code. *)
Definition dq : string := String (Ascii.ascii_of_nat 34) EmptyString.
Definition nl : string := String (Ascii.ascii_of_nat 10) EmptyString.

Fixpoint lines (ls : list string) : string :=
  match ls with
  | [] => ""
  | [l] => l
  | l :: ls' => l +:+ nl +:+ lines ls'
  end.

(** [s.split(sep)] for a one-character separator: the pieces between the
    separators, at least one piece. *)
Fixpoint split_on (sep : ascii) (s : string) : list string :=
  match s with
  | EmptyString => [EmptyString]
  | String c s' =>
      if Ascii.eqb c sep then EmptyString :: split_on sep s'
      else match split_on sep s' with
           | p :: ps => String c p :: ps
           | [] => [String c EmptyString]
           end
  end.

(** [a.pop()] on a fresh array: its last element. *)
Definition pop (ps : list string) : option string := last ps.

Definition lower_ascii (c : ascii) : ascii :=
  let n := Ascii.N_of_ascii c in
  if ((65 <=? n) && (n <=? 90))%N then Ascii.ascii_of_N (n + 32) else c.

(** [s.toLowerCase()] on ASCII text ([is_ascii]).  On other text the ASCII
    letters are lowered and the other characters kept as they are: enough
    to compare the result with an ASCII word, since no other character
    lowers to a letter of the words compared here, but not to tell the
    lowered text itself. *)
Fixpoint toLowerCase (s : string) : string :=
  match s with
  | EmptyString => EmptyString
  | String c s' => String (lower_ascii c) (toLowerCase s')
  end.

Definition is_ascii (s : string) : bool :=
  forallb (fun c => (Ascii.N_of_ascii c <? 128)%N) (String.list_ascii_of_string s).

Fixpoint startsWith (p s : string) : bool :=
  match p, s with
  | EmptyString, _ => true
  | String a p', String b s' => Ascii.eqb a b && startsWith p' s'
  | String _ _, EmptyString => false
  end.

(** [s.lastIndexOf(c)]: [None] stands for -1. *)
Fixpoint lastIndexOf (c : ascii) (s : string) : option nat :=
  match s with
  | EmptyString => None
  | String a s' =>
      match lastIndexOf c s' with
      | Some i => Some (S i)
      | None => if Ascii.eqb a c then Some 0 else None
      end
  end.

Fixpoint take_chars (n : nat) (s : string) : string :=
  match n, s with
  | S n', String c s' => String c (take_chars n' s')
  | _, _ => EmptyString
  end.

(** [includes] on an array of strings. *)
Definition includes (xs : list string) (x : string) : bool :=
  existsb (String.eqb x) xs.

Fixpoint drop_chars (n : nat) (s : string) : string :=
  match n, s with
  | S n', String _ s' => drop_chars n' s'
  | _, _ => s
  end.

(** [s.substring(0, i)] where [i] is the answer of [lastIndexOf]: a
    negative end is taken as 0. *)
Definition substring_to (i : option nat) (s : string) : string :=
  match i with
  | Some n => take_chars n s
  | None => EmptyString
  end.

(** [s.includes(sub)] on strings. *)
Fixpoint includes_sub (sub s : string) : bool :=
  if startsWith sub s then true
  else match s with
       | EmptyString => false
       | String _ s' => includes_sub sub s'
       end.

(** [s.replace(pat, rep)] with a string pattern: the first occurrence. *)
Fixpoint replace (pat rep s : string) : string :=
  if startsWith pat s then rep +:+ drop_chars (String.length pat) s
  else match s with
       | EmptyString => EmptyString
       | String c s' => String c (replace pat rep s')
       end.

Definition endsWith (suffix s : string) : bool :=
  Nat.leb (String.length suffix) (String.length s)
  && String.eqb (drop_chars (String.length s - String.length suffix) s) suffix.

(** [x || d] on a string: the empty string is falsy. *)
Definition or_else (x d : string) : string :=
  if String.eqb x "" then d else x.

(** *** Numbers

    An integer as the nearest double holds it: itself below 2^53 in
    magnitude, beyond that the nearest integer of 53 significant bits, the
    even one at a tie.  The sum of two integers that are doubles is the
    exact sum rounded so.  (A sum beyond the largest double is [Infinity]
    in the code and at least 2^1024 in magnitude here.) *)
Definition round_double (s : Z) : Z :=
  let a := Z.abs s in
  if (a <? 2 ^ 53)%Z then s
  else
    let ulp := (2 ^ (Z.log2 a - 52))%Z in
    let q := (a / ulp)%Z in
    let r := (a mod ulp)%Z in
    let q' :=
      if (2 * r <? ulp)%Z then q
      else if (ulp <? 2 * r)%Z then (q + 1)%Z
      else if Z.even q then q else (q + 1)%Z in
    (Z.sgn s * (q' * ulp))%Z.

(** *** Strings of code units

    The text of a form field, as the detector's text, is a list of code
    units. *)

(** White space and line terminators, that [trim] removes and [\s]
    matches. *)
Definition whitespace : list (N * N) :=
  [(9, 13); (32, 32); (160, 160); (5760, 5760); (8192, 8202);
   (8232, 8233); (8239, 8239); (8287, 8287); (12288, 12288);
   (65279, 65279)]%N.

Definition is_whitespace (c : N) : bool :=
  existsb (fun r => (fst r <=? c) && (c <=? snd r))%N whitespace.

Fixpoint trimStart (s : list N) : list N :=
  match s with
  | c :: s' => if is_whitespace c then trimStart s' else s
  | [] => []
  end.

Definition trimEnd (s : list N) : list N := rev (trimStart (rev s)).

(** [s.trim()] *)
Definition trim (s : list N) : list N := trimEnd (trimStart s).

(** [s.split(sep)] for a separator of one code unit. *)
Fixpoint split_units (sep : N) (s : list N) : list (list N) :=
  match s with
  | [] => [[]]
  | c :: s' =>
      if (c =? sep)%N then [] :: split_units sep s'
      else match split_units sep s' with
           | p :: ps => (c :: p) :: ps
           | [] => [[c]]
           end
  end.

(** [a.join(sep)] *)
Fixpoint join_units (sep : list N) (xs : list (list N)) : list N :=
  match xs with
  | [] => []
  | [x] => x
  | x :: xs' => (x ++ sep ++ join_units sep xs')%list
  end.

End Js.

(** ** Regular expressions of the notation detector

    The fragment of the JavaScript syntax that [isMusicSheetOrTab] uses:
    literals, classes, sequence, alternation, greedy repetition and the word
    boundary.  There is no back reference and no look-around, so that
    [RegExp.prototype.test] answers whether some match exists. *)

Module Regex.

Inductive regex : Type :=
| Empty
| Lit (c : N)
| Cls (ranges : list (N * N))
| Seq (r1 r2 : regex)
| Alt (r1 r2 : regex)
| Star (r : regex)
| WordB.

Record pattern : Type := MkPattern {
  body : regex;
  flag_i : bool;
  flag_g : bool
}.

(** Canonicalisation of the [i] flag (without [u]): the upper-case letter,
    here on Latin-1; beyond it no code unit maps onto a letter that the
    patterns below contain. *)
Definition canon (c : N) : N :=
  if ((97 <=? c) && (c <=? 122))%N then (c - 32)%N
  else if ((224 <=? c) && (c <=? 254) && negb (c =? 247))%N then (c - 32)%N
  else c.

Definition chr_eq (ci : bool) (a b : N) : bool :=
  if ci then (canon a =? canon b)%N else (a =? b)%N.

Definition in_ranges (rs : list (N * N)) (x : N) : bool :=
  existsb (fun r => (fst r <=? x) && (x <=? snd r))%N rs.

Definition uncanon (c : N) : N :=
  if ((65 <=? c) && (c <=? 90))%N then (c + 32)%N
  else if ((192 <=? c) && (c <=? 222) && negb (c =? 215))%N then (c + 32)%N
  else c.

Definition in_cls (ci : bool) (rs : list (N * N)) (x : N) : bool :=
  in_ranges rs x || (ci && (in_ranges rs (canon x) || in_ranges rs (uncanon x))).

(** [\w] *)
Definition is_word (c : N) : bool :=
  in_ranges [(48, 57); (65, 90); (95, 95); (97, 122)]%N c.

Definition is_word_opt (c : option N) : bool :=
  match c with Some x => is_word x | None => false end.

(** Backtracking matcher in continuation-passing style.  [prev] is the code
    unit before the current position.  An iteration of [Star] that consumes
    nothing is dropped, as in the language, so the length of the input
    bounds the number of iterations.  The conditionals are the order in
    which the engine backtracks. *)
Fixpoint run (ci : bool) (r : regex) (prev : option N) (s : list N)
    (k : option N -> list N -> bool) {struct r} : bool :=
  match r with
  | Empty => k prev s
  | Lit c =>
      match s with
      | x :: s' => if chr_eq ci c x then k (Some x) s' else false
      | [] => false
      end
  | Cls rs =>
      match s with
      | x :: s' => if in_cls ci rs x then k (Some x) s' else false
      | [] => false
      end
  | Seq r1 r2 => run ci r1 prev s (fun p s' => run ci r2 p s' k)
  | Alt r1 r2 => if run ci r1 prev s k then true else run ci r2 prev s k
  | Star r1 =>
      (fix loop (n : nat) (p : option N) (t : list N) {struct n} : bool :=
         match n with
         | O => k p t
         | S n' =>
             if run ci r1 p t
                  (fun p' t' =>
                     if Nat.ltb (length t') (length t) then loop n' p' t'
                     else false)
             then true
             else k p t
         end) (length s) prev s
  | WordB =>
      if xorb (is_word_opt prev) (is_word_opt (head s)) then k prev s
      else false
  end.

(** A match starting at the current position or at a later one. *)
Fixpoint search (ci : bool) (r : regex) (prev : option N) (s : list N) : bool :=
  if run ci r prev s (fun _ _ => true) then true
  else match s with
       | [] => false
       | x :: s' => search ci r (Some x) s'
       end.

(** [p.test(text)] on a regular expression object whose [lastIndex] is 0. *)
Definition test (p : pattern) (text : list N) : bool :=
  search (flag_i p) (body p) None text.

(** *** Syntax helpers *)

Definition lit (s : string) : regex :=
  foldr (fun c r => Seq (Lit c) r) Empty (Js.units s).

Definition alts (rs : list regex) : regex :=
  match rs with
  | [] => Empty
  | r :: rs' => fold_left Alt rs' r
  end.

Definition opt (r : regex) : regex := Alt r Empty.
Definition plus (r : regex) : regex := Seq r (Star r).

Fixpoint at_least (n : nat) (r : regex) : regex :=
  match n with
  | O => Star r
  | S n' => Seq r (at_least n' r)
  end.

Definition seqs (rs : list regex) : regex := foldr Seq Empty rs.

Definition chars (s : string) : list (N * N) :=
  map (fun c => (c, c)) (Js.units s).

End Regex.

(** ** The notation detector of the upload page ([isMusicSheetOrTab]) *)

Module Detector.
Import Regex.

(** [[-xXhHpPsS\/\\()|=~btrPMpm]], the class of the seventh pattern; the
    class of the fifth has the digits too. *)
Definition tab_symbols : list (N * N) :=
  chars "-xXhHpPsS/\()|=~btrPMpm".

Definition tab_cell : list (N * N) := (48, 57)%N :: tab_symbols.

Definition A_to_G : regex := Cls [(65, 71)%N].
Definition accidental : regex := Cls (chars "#b").

(** [\s] *)
Definition space : regex :=
  Cls [(9, 13); (32, 32); (160, 160); (5760, 5760); (8192, 8202);
       (8232, 8233); (8239, 8239); (8287, 8287); (12288, 12288);
       (65279, 65279)]%N.

Definition words (ws : list string) : regex := alts (map lit ws).

(** [(maj7|m7|7|sus4|sus2|dim|aug|add9)?] *)
Definition quality : regex :=
  opt (words ["maj7"; "m7"; "7"; "sus4"; "sus2"; "dim"; "aug"; "add9"]).

(** [/\b(4\/4|3\/4|2\/4|6\/8|12\/8|alla breve|C)\b/i] *)
Definition p_time : pattern :=
  MkPattern
    (seqs [WordB;
           words ["4/4"; "3/4"; "2/4"; "6/8"; "12/8"; "alla breve"; "C"];
           WordB])
    true false.

(** [/\b(Allegro|Andante|Presto|Moderato|Largo|Vivace|Lento|Adagio|Grave|Rit\.?|Accel\.?|A tempo)\b/i] *)
Definition p_tempo : pattern :=
  MkPattern
    (seqs [WordB;
           alts (map lit ["Allegro"; "Andante"; "Presto"; "Moderato"; "Largo";
                          "Vivace"; "Lento"; "Adagio"; "Grave"]
                 ++ [Seq (lit "Rit") (opt (lit "."));
                     Seq (lit "Accel") (opt (lit "."));
                     lit "A tempo"]);
           WordB])
    true false.

(** [/\b(ppp|pp|p|mp|mf|f|ff|fff|sfz|cresc\.?|dim\.?|rit\.?|a tempo)\b/i] *)
Definition p_dynamics : pattern :=
  MkPattern
    (seqs [WordB;
           alts (map lit ["ppp"; "pp"; "p"; "mp"; "mf"; "f"; "ff"; "fff"; "sfz"]
                 ++ [Seq (lit "cresc") (opt (lit "."));
                     Seq (lit "dim") (opt (lit "."));
                     Seq (lit "rit") (opt (lit "."));
                     lit "a tempo"]);
           WordB])
    true false.

(** [/\b(Fermata|Slur|Tie|...|Measure|Note|Rest)\b/i] *)
Definition p_symbols : pattern :=
  MkPattern
    (seqs [WordB;
           words ["Fermata"; "Slur"; "Tie"; "Staccato"; "Legato"; "Accent";
                  "Marcato"; "Trill"; "Mordent"; "Appoggiatura"; "Grace note";
                  "Repeat"; "Fine"; "Da Capo"; "D.C."; "D.S."; "Coda"; "Segno";
                  "Staff"; "Clef"; "Key"; "Time"; "Bar"; "Measure"; "Note";
                  "Rest"];
           WordB])
    true false.

(** [/((e|B|G|D|A|E)\|[-0-9xXhHpPsS\/\\()|=~btrPMpm]+\n?){4,}/g] *)
Definition p_tab_lines : pattern :=
  MkPattern
    (at_least 4
       (seqs [words ["e"; "B"; "G"; "D"; "A"; "E"]; lit "|";
              plus (Cls tab_cell); opt (Lit 10)]))
    false true.

(** [/EADGBE/i] *)
Definition p_tuning : pattern := MkPattern (lit "EADGBE") true false.

(** [/[0-9]{1,2}[-xXhHpPsS\/\\()|=~btrPMpm]{2,}/g] *)
Definition p_frets : pattern :=
  MkPattern
    (seqs [Cls [(48, 57)%N]; opt (Cls [(48, 57)%N]);
           at_least 2 (Cls tab_symbols)])
    false true.

(** [/\b([A-G](#|b)?(m|maj|min|sus|dim|aug|add|m7|maj7|7|9|11|13)?(\/[A-G](#|b)?)?)\b/g] *)
Definition p_chord : pattern :=
  MkPattern
    (seqs [WordB; A_to_G; opt (words ["#"; "b"]);
           opt (words ["m"; "maj"; "min"; "sus"; "dim"; "aug"; "add"; "m7";
                       "maj7"; "7"; "9"; "11"; "13"]);
           opt (seqs [lit "/"; A_to_G; opt (words ["#"; "b"])]);
           WordB])
    false true.

(** [/\[([A-G][#b]?m?(maj7|m7|7|sus4|sus2|dim|aug|add9)?(\/[A-G][#b]?)?)\]/g] *)
Definition p_chord_bracket : pattern :=
  MkPattern
    (seqs [lit "["; A_to_G; opt accidental; opt (lit "m"); quality;
           opt (seqs [lit "/"; A_to_G; opt accidental]);
           lit "]"])
    false true.

(** [/([A-G][#b]?m?(maj7|m7|7|sus4|sus2|dim|aug|add9)?\s+){2,}/g] *)
Definition p_chord_sequence : pattern :=
  MkPattern
    (at_least 2
       (seqs [A_to_G; opt accidental; opt (lit "m"); quality; plus space]))
    false true.

(** [/\b(partitura|compasso|clave|notação|nota|pentagrama|compás|clave|notación|partition|mesure|clé|note|battuta|chiave|nota)\b/i];
    the accented letters are the code units 231, 227, 225, 243 and 233. *)
Definition p_vocabulary : pattern :=
  MkPattern
    (seqs [WordB;
           alts [lit "partitura"; lit "compasso"; lit "clave";
                 seqs [lit "nota"; Lit 231; Lit 227; lit "o"];
                 lit "nota"; lit "pentagrama";
                 seqs [lit "comp"; Lit 225; lit "s"];
                 lit "clave";
                 seqs [lit "notaci"; Lit 243; lit "n"];
                 lit "partition"; lit "mesure";
                 seqs [lit "cl"; Lit 233];
                 lit "note"; lit "battuta"; lit "chiave"; lit "nota"];
           WordB])
    true false.

Definition patterns : list pattern :=
  [p_time; p_tempo; p_dynamics; p_symbols;
   p_tab_lines; p_tuning; p_frets;
   p_chord; p_chord_bracket; p_chord_sequence;
   p_vocabulary].

(** The array of patterns is built anew at each call, so each [test] starts
    at [lastIndex] 0.  The loop counts the patterns that match. *)
Definition count_matches (text : list N) : nat :=
  fold_left (fun matches p => if test p text then S matches else matches)
    patterns 0.

Definition isMusicSheetOrTab (text : list N) : bool :=
  Nat.leb 2 (count_matches text).

(** *** The categories of the written specification

    The six families of patterns that the specification lists, with the
    patterns of the source that fall under each. *)
Inductive category : Type :=
| TimeSignatures
| TempoDynamics
| ArticulationVocabulary
| TablatureLines
| ChordSymbols
| MultilingualVocabulary.

Definition categories : list category :=
  [TimeSignatures; TempoDynamics; ArticulationVocabulary; TablatureLines;
   ChordSymbols; MultilingualVocabulary].

Definition patterns_of (c : category) : list pattern :=
  match c with
  | TimeSignatures => [p_time]
  | TempoDynamics => [p_tempo; p_dynamics]
  | ArticulationVocabulary => [p_symbols]
  | TablatureLines => [p_tab_lines; p_tuning; p_frets]
  | ChordSymbols => [p_chord; p_chord_bracket; p_chord_sequence]
  | MultilingualVocabulary => [p_vocabulary]
  end.

Definition category_matches (c : category) (text : list N) : bool :=
  existsb (fun p => test p text) (patterns_of c).

Definition matched_categories (text : list N) : list category :=
  List.filter (fun c => category_matches c text) categories.

End Detector.


(** ** The upload page ([Upload.tsx])

    The component state that decides whether a file is sent, the three pieces
    of code that write [isValidFile] (the size check of the preview effect,
    the viewer effect and the end of [handleFileChange]) and [handleSubmit].
    Optical character recognition and the score viewer are outside the
    repository: their outcomes are inputs. *)

Module Upload.

Record File : Type := MkFile {
  name : string;
  type : string;       (* MIME type given by the browser *)
  size : N             (* bytes *)
}.

Definition MAX_FILE_SIZE : N := 5 * 1024 * 1024.

Definition validFileTypes : list string := ["pdf"; "png"; "jpg"; "jpeg"; "svg"].

(** The [accept] attribute of the file input. *)
Definition accept : list string := [".pdf"; ".png"; ".jpg"; ".jpeg"; ".svg"].

(** What rendering and recognition give: the text, or an exception. *)
Inductive recognition : Type :=
| Recognised (text : list N)
| Thrown (message : string).

Record validation : Type := MkValidation {
  isScore : bool;
  error : string
}.

Definition unsupported_type : string := "Tipo de arquivo não suportado.".
Definition no_notation : string :=
  "Arquivo não contém notação musical válida (partitura, cifra ou tablatura).".

Definition classify (r : recognition) : validation :=
  match r with
  | Recognised text =>
      let isValid := Detector.isMusicSheetOrTab text in
      MkValidation isValid (if isValid then "" else no_notation)
  | Thrown message =>
      MkValidation false ("Erro ao analisar arquivo: " +:+ message)
  end.

(** [validateMusicFile]: [pdf_page] is the first page rendered and read,
    [image] the picture read directly. *)
Definition validateMusicFile (pdf_page image : File -> recognition)
    (file : File) : validation :=
  if String.eqb (type file) "application/pdf" then classify (pdf_page file)
  else if Js.startsWith "image/" (type file) then classify (image file)
  else MkValidation false unsupported_type.

(** The extension as the page computes it:
    [name.split('.').pop()?.toLowerCase()]. *)
Definition extension (n : string) : string :=
  Js.toLowerCase (default "" (Js.pop (Js.split_on "." n))).

Record State : Type := MkState {
  file : option File;              (* formData.file *)
  midiFile : option File;          (* formData.midiFile *)
  title : string;
  composer : string;
  instrument : string;
  isValidFile : option bool;
  validationMessage : string;
  errorText : string;              (* the [error] state *)
  isLoading : bool;
  osmdInstance : bool;             (* the viewer has been created *)
  success : bool
}.

Definition set_file (f : option File) (s : State) : State :=
  MkState f (midiFile s) (title s) (composer s) (instrument s) (isValidFile s)
    (validationMessage s) (errorText s) (isLoading s) (osmdInstance s) (success s).
Definition setIsValidFile (v : option bool) (s : State) : State :=
  MkState (file s) (midiFile s) (title s) (composer s) (instrument s) v
    (validationMessage s) (errorText s) (isLoading s) (osmdInstance s) (success s).
Definition setValidationMessage (m : string) (s : State) : State :=
  MkState (file s) (midiFile s) (title s) (composer s) (instrument s) (isValidFile s)
    m (errorText s) (isLoading s) (osmdInstance s) (success s).
Definition setError (m : string) (s : State) : State :=
  MkState (file s) (midiFile s) (title s) (composer s) (instrument s) (isValidFile s)
    (validationMessage s) m (isLoading s) (osmdInstance s) (success s).
Definition setIsLoading (b : bool) (s : State) : State :=
  MkState (file s) (midiFile s) (title s) (composer s) (instrument s) (isValidFile s)
    (validationMessage s) (errorText s) b (osmdInstance s) (success s).
Definition setSuccess (b : bool) (s : State) : State :=
  MkState (file s) (midiFile s) (title s) (composer s) (instrument s) (isValidFile s)
    (validationMessage s) (errorText s) (isLoading s) (osmdInstance s) b.

(** [handleFileChange] up to its [await]. *)
Definition handleFileChange_begin (selected : File) (s : State) : State :=
  setError ""
    (setIsValidFile None
       (setValidationMessage "Validando arquivo..."
          (setIsLoading true (set_file (Some selected) s)))).

(** [handleFileChange] after [validateMusicFile] has answered. *)
Definition handleFileChange_end (r : validation) (s : State) : State :=
  let s := setIsLoading false s in
  if isScore r then
    setIsValidFile (Some true)
      (setValidationMessage "Arquivo validado como partitura/cifra!" s)
  else
    setIsValidFile (Some false)
      (setValidationMessage
         (if String.eqb (error r) "" then
            "Arquivo não é uma partitura/cifra reconhecida."
          else error r) s).

(** The effect on [formData.file] that prepares the preview; the preview
    URL and the tab are left out. *)
Definition preview_effect (s : State) : State :=
  match file s with
  | Some f =>
      let s := setIsLoading true s in
      if (MAX_FILE_SIZE <? size f)%N then
        setIsLoading false
          (setValidationMessage "Arquivo muito grande. O limite é 5MB."
             (setIsValidFile (Some false)
                (setError "O arquivo excede o tamanho máximo permitido (5MB)." s)))
      else
        let s :=
          if String.eqb (type f) "application/pdf" then
            setIsLoading false
              (setValidationMessage "PDF aceito para upload."
                 (setIsValidFile (Some true) s))
          else s in
        s
  | None =>
      setIsLoading false (setValidationMessage "" (setIsValidFile None s))
  end.

(** The effect on [formData.file] and [osmdInstance]; for the formats that
    the viewer reads the verdict comes later ([viewer_loaded]). *)
Definition viewer_effect (s : State) : State :=
  match file s with
  | Some f =>
      if osmdInstance s then
        let fileExt := extension (name f) in
        if Js.includes ["xml"; "musicxml"; "mxl"; "svg"] fileExt then s
        else if String.eqb fileExt "pdf" then
          setValidationMessage
            "PDF aceito. Não é possível verificar a estrutura interna."
            (setIsValidFile (Some true) s)
        else
          setValidationMessage
            "Tipo de arquivo não suportado. Use MusicXML, SVG ou PDF."
            (setIsValidFile (Some false) s)
      else s
  | None => s
  end.

Definition viewer_loaded (ok : option string) (s : State) : State :=
  match ok with
  | None =>
      setValidationMessage "Partitura válida! Pronta para upload."
        (setIsValidFile (Some true) s)
  | Some message =>
      setValidationMessage
        "Formato de partitura inválido. Verifique se é um arquivo MusicXML válido."
        (setIsValidFile (Some false)
           (setError ("Erro ao renderizar a partitura: " +:+ message) s))
  end.

(** The effects of one commit run in the order of their declaration. *)
Definition run_effects (s : State) : State := viewer_effect (preview_effect s).

(** *** Submission *)

Record sheet_record : Type := MkSheet {
  sheet_title : string;
  sheet_composer : string;
  sheet_instrument : string;
  file_url : string;
  midi_url : option string;
  file_type : string;
  user_id : string
}.

(** What [handleSubmit] asks of the hosted back end. *)
Inductive request : Type :=
| StorageUpload (path : string) (f : File)
| InsertSheet (row : sheet_record).

Record backend : Type := MkBackend {
  upload_error : string -> option string;   (* by storage path *)
  insert_error : option string
}.

Definition fileType_of (fileExt : string) : string :=
  if String.eqb fileExt "pdf" then "pdf"
  else if Js.includes ["xml"; "musicxml"; "mxl"] fileExt then "musicxml"
  else if String.eqb fileExt "svg" then "svg"
  else "".

(** [handleSubmit]: the new state and the requests sent, in order.  [user]
    is the identifier of the signed-in user; [now] and [later] are the
    readings of the clock that prefix the stored names of the score and of
    the MIDI file.  The difficulty, the tags and the scales of the form go
    to the record as they are and are left out. *)
Definition handleSubmit (user : option string) (now later : string) (b : backend)
    (s : State) : State * list request :=
  match user with
  | None => (setError "Sessão expirada. Por favor, faça login novamente." s, [])
  | Some uid =>
      if String.eqb uid "" then
        (setError "Sessão expirada. Por favor, faça login novamente." s, [])
      else if String.eqb (title s) "" || String.eqb (composer s) ""
              || String.eqb (instrument s) "" then
        (setError "Por favor, preencha todos os campos obrigatórios." s, [])
      else
        match file s with
        | None =>
            (setError "Por favor, selecione um arquivo de partitura para upload." s, [])
        | Some f =>
            match isValidFile s with
            | Some false =>
                (setError
                   "O arquivo selecionado não é válido. Por favor, selecione outro arquivo." s,
                 [])
            | _ =>
                let s := setError "" s in
                let fileExt := extension (name f) in
                let filePath := uid +:+ "/" +:+ now +:+ "-" +:+ name f in
                let up := StorageUpload filePath f in
                match upload_error b filePath with
                | Some m => (setError ("Erro no upload: " +:+ m) s, [up])
                | None =>
                    let midiPath m := uid +:+ "/" +:+ later +:+ "-" +:+ name m in
                    let midi_requests :=
                      match midiFile s with
                      | Some m => [StorageUpload (midiPath m) m]
                      | None => []
                      end in
                    match midiFile s ≫= (fun m => upload_error b (midiPath m)) with
                    | Some e =>
                        (setError ("Erro no upload do MIDI: " +:+ e) s,
                         up :: midi_requests)
                    | None =>
                        let row :=
                          MkSheet (title s) (composer s) (instrument s) filePath
                            (midiPath <$> midiFile s) (fileType_of fileExt) uid in
                        let sent := (up :: midi_requests ++ [InsertSheet row])%list in
                        match insert_error b with
                        | Some e =>
                            (setError ("Erro ao salvar no banco: " +:+ e) s, sent)
                        | None =>
                            (setSuccess true
                               (MkState None None "" "" "" (isValidFile s)
                                  (validationMessage s) (errorText s) (isLoading s)
                                  (osmdInstance s) (success s)),
                             sent)
                        end
                    end
                end
            end
        end
  end.

(** *** A session: what happens, in order *)

Inductive event : Type :=
| Select (f : File)                 (* a file is chosen or dropped *)
| Commit                            (* the effects run after [formData.file] changed *)
| Validated (f : File)              (* [validateMusicFile] answers for [f] *)
| ViewerLoaded (ok : option string) (* the viewer answers *)
| Submit (user : option string) (now later : string).

Record world : Type := MkWorld {
  pdf_page : File -> recognition;
  image : File -> recognition;
  hosted : backend
}.

Definition step (w : world) (acc : State * list request) (e : event)
    : State * list request :=
  let (s, sent) := acc in
  match e with
  | Select f => (handleFileChange_begin f s, sent)
  | Commit => (run_effects s, sent)
  | Validated f =>
      (handleFileChange_end (validateMusicFile (pdf_page w) (image w) f) s, sent)
  | ViewerLoaded ok => (viewer_loaded ok s, sent)
  | Submit user now later =>
      let (s', rs) := handleSubmit user now later (hosted w) s in
      (s', (sent ++ rs)%list)
  end.

Definition session (w : world) (s : State) (es : list event)
    : State * list request :=
  fold_left (step w) es (s, []).

(** *** The other handlers of the page *)

(** [changePage(offset)] applied to the page shown: nothing happens while
    the number of pages is unknown (or zero).  The numbers are integers
    that are doubles, and [prevPageNumber + offset] is the sum of doubles;
    where that sum is [Infinity] in the code, [Math.max] and [Math.min]
    give 1 or [numPages] as [Z.max] and [Z.min] do here. *)
Definition changePage (numPages : option Z) (offset prevPageNumber : Z) : Z :=
  match numPages with
  | Some n =>
      if (n =? 0)%Z then prevPageNumber
      else Z.min (Z.max 1 (Js.round_double (prevPageNumber + offset))) n
  | None => prevPageNumber
  end.

Definition previousPage (numPages : option Z) : Z -> Z := changePage numPages (-1).
Definition nextPage (numPages : option Z) : Z -> Z := changePage numPages 1.

(** [handleTagsChange]: the tags read from the text of the field,
    [value.split(',').map(tag => tag.trim()).filter(Boolean)]. *)
Definition handleTagsChange (value : list N) : list (list N) :=
  List.filter (fun tag => negb (Nat.eqb (length tag) 0))
    (map Js.trim (Js.split_units 44 value)).

(** The text that the field shows: [formData.tags.join(', ')]. *)
Definition tags_value (tags : list (list N)) : list N :=
  Js.join_units [44; 32]%N tags.

(** One tick of [simulateProgress]: [prev >= 95 ? prev : prev + 5]. *)
Definition progress_tick (prev : Z) : Z :=
  if (95 <=? prev)%Z then prev else (prev + 5)%Z.

Inductive slot : Type := sheet | midi.

Definition set_midiFile (m : option File) (s : State) : State :=
  MkState (file s) m (title s) (composer s) (instrument s) (isValidFile s)
    (validationMessage s) (errorText s) (isLoading s) (osmdInstance s) (success s).

(** [removeFile(fileType)] *)
Definition removeFile (which : slot) (s : State) : State :=
  match which with
  | sheet => setValidationMessage "" (setIsValidFile None (set_file None s))
  | midi => set_midiFile None s
  end.

End Upload.

(** ** The hosted back end as the conversion code sees it

    The table [music_sheets], the bucket [music-sheets], the local temporary
    files and the console.  What the hosted services and the file system
    answer to each call of one run is given by an [Env]: the code under study
    decides nothing of it. *)

Module Backend.
Import Js.

Inductive Status : Type := pending | processing | completed | failed.

#[global] Instance Status_eq_dec : EqDecision Status.
Proof. solve_decision. Defined.

Definition terminal (s : Status) : bool :=
  match s with completed | failed => true | _ => false end.

Record Row : Type := MkRow {
  id : string;
  file_url : string;
  file_type : string;
  conversion_status : option Status;
  conversion_error : option string;
  mei_url : option string;
  mei_public_url : option string
}.

(** A thrown or returned error: whether it is an instance of [Error], and
    its [message] (empty when it has none). *)
Record JsError : Type := MkError {
  is_Error : bool;
  message : string
}.

Record World : Type := MkWorld {
  music_sheets : list Row;
  bucket : gmap string string;
  tmp : gmap string string;
  console : list string
}.

Record Env : Type := MkEnv {
  processing_answer : option JsError; (* update to processing *)
  download_answer : JsError + string; (* the bytes of the stored file *)
  mkdir_answer : option JsError;
  write_answer : string -> option JsError; (* by local path *)
  toISOString : string;               (* the clock when the MEI is built *)
  upload_answer : option JsError;
  publicUrl : option string;
  completed_answer : option JsError;  (* update to completed *)
  remove_answer : option JsError;     (* removal of the work directory *)
  failed_answer : option JsError;     (* update to failed, in [processFile] *)
  refailed_answer : option JsError    (* update to failed, in the caller *)
}.

(** The result of a conversion: [{mei_url, public_url}]. *)
Record converted : Type := MkConverted {
  res_mei_url : string;
  res_public_url : option string
}.

(** *** State and exceptions *)

Definition M (A : Type) : Type := World -> World * (JsError + A).

#[global] Instance M_ret : MRet M := fun A x w => (w, inr x).
#[global] Instance M_bind : MBind M := fun A B f m w =>
  match m w with
  | (w', inr x) => f x w'
  | (w', inl e) => (w', inl e)
  end.

Definition throw {A : Type} (e : JsError) : M A := fun w => (w, inl e).

Definition try_catch {A : Type} (m : M A) (handler : JsError -> M A) : M A :=
  fun w =>
    match m w with
    | (w', inl e) => handler e w'
    | r => r
    end.

Definition throw_if (answer : option JsError) : M unit :=
  match answer with
  | Some e => throw e
  | None => mret tt
  end.

Definition log (line : string) : M unit := fun w =>
  (MkWorld (music_sheets w) (bucket w) (tmp w) (console w ++ [line]), inr tt).

(** *** The table *)

Definition set_processing (r : Row) : Row :=
  MkRow (id r) (file_url r) (file_type r) (Some processing)
    (conversion_error r) (mei_url r) (mei_public_url r).

Definition set_completed (url : string) (public : option string) (r : Row) : Row :=
  MkRow (id r) (file_url r) (file_type r) (Some completed)
    (conversion_error r) (Some url) public.

Definition set_failed (msg : string) (r : Row) : Row :=
  MkRow (id r) (file_url r) (file_type r) (Some failed)
    (Some msg) (mei_url r) (mei_public_url r).

Definition update_rows (fileId : string) (f : Row -> Row) (rows : list Row) : list Row :=
  map (fun r => if String.eqb (id r) fileId then f r else r) rows.

(** [.update(...).eq('id', fileId)]: the answer is returned, not thrown; a
    refused update changes nothing. *)
Definition update_eq_id (fileId : string) (f : Row -> Row)
    (answer : option JsError) : M (option JsError) := fun w =>
  match answer with
  | Some e => (w, inr (Some e))
  | None =>
      (MkWorld (update_rows fileId f (music_sheets w)) (bucket w) (tmp w) (console w),
       inr None)
  end.

(** The statuses of the rows of a file. *)
Definition statuses (fileId : string) (w : World) : list (option Status) :=
  map conversion_status
    (List.filter (fun r => String.eqb (id r) fileId) (music_sheets w)).

(** *** The bucket and the local files *)

Definition storage_download (answer : JsError + string) : M string :=
  match answer with
  | inl e => throw (MkError true ("Erro ao baixar arquivo: " +:+ message e))
  | inr bytes => mret bytes
  end.

Definition storage_upload (path content : string) (answer : option JsError)
    : M (option JsError) := fun w =>
  match answer with
  | Some e => (w, inr (Some e))
  | None =>
      (MkWorld (music_sheets w) (<[path := content]> (bucket w)) (tmp w) (console w),
       inr None)
  end.

Definition writeFile (path content : string) (answer : option JsError) : M unit :=
  fun w =>
    match answer with
    | Some e => (w, inl e)
    | None =>
        (MkWorld (music_sheets w) (bucket w) (<[path := content]> (tmp w)) (console w),
         inr tt)
    end.

Definition readFile (path : string) : M string := fun w =>
  match tmp w !! path with
  | Some content => (w, inr content)
  | None => (w, inl (MkError true ("ENOENT: no such file or directory, open '" +:+ path +:+ "'")))
  end.

Definition under (dir path : string) : bool :=
  String.eqb path dir || startsWith (dir +:+ "/") path.

(** Recursive removal of a directory. *)
Definition remove (dir : string) (answer : option JsError) : M unit := fun w =>
  match answer with
  | Some e => (w, inl e)
  | None =>
      (MkWorld (music_sheets w) (bucket w)
         (filter (fun kv => ¬ under dir kv.1) (tmp w)) (console w),
       inr tt)
  end.

(** *** The MEI document that both services write *)

Definition mei_head : string :=
  lines
    ["<?xml version=" +:+ dq +:+ "1.0" +:+ dq +:+ " encoding=" +:+ dq +:+ "UTF-8" +:+ dq +:+ "?>";
     "<?xml-model href=" +:+ dq +:+ "https://music-encoding.org/schema/4.0.0/mei-all.rng" +:+ dq +:+ " type=" +:+ dq +:+ "application/xml" +:+ dq +:+ " schematypens=" +:+ dq +:+ "http://relaxng.org/ns/structure/1.0" +:+ dq +:+ "?>";
     "<mei xmlns=" +:+ dq +:+ "http://www.music-encoding.org/ns/mei" +:+ dq +:+ " meiversion=" +:+ dq +:+ "4.0.0" +:+ dq +:+ ">";
     "  <meiHead>";
     "    <fileDesc>";
     "      <titleStmt>";
     "        <title>Arquivo convertido de "].

Definition mei_mid : string :=
  lines
    ["</title>";
     "      </titleStmt>";
     "      <pubStmt>";
     "        <date isodate=" +:+ dq].

Definition mei_tail : string :=
  lines
    [dq +:+ "/>";
     "      </pubStmt>";
     "    </fileDesc>";
     "  </meiHead>";
     "  <music>";
     "    <body>";
     "      <mdiv>";
     "        <score>";
     "          <scoreDef>";
     "            <staffGrp>";
     "              <staffDef n=" +:+ dq +:+ "1" +:+ dq +:+ " lines=" +:+ dq +:+ "5" +:+ dq +:+ " clef.shape=" +:+ dq +:+ "G" +:+ dq +:+ " clef.line=" +:+ dq +:+ "2" +:+ dq +:+ "/>";
     "            </staffGrp>";
     "          </scoreDef>";
     "          <section>";
     "            <measure n=" +:+ dq +:+ "1" +:+ dq +:+ ">";
     "              <staff n=" +:+ dq +:+ "1" +:+ dq +:+ ">";
     "                <layer n=" +:+ dq +:+ "1" +:+ dq +:+ ">";
     "                  <note pname=" +:+ dq +:+ "c" +:+ dq +:+ " oct=" +:+ dq +:+ "4" +:+ dq +:+ " dur=" +:+ dq +:+ "1" +:+ dq +:+ "/>";
     "                </layer>";
     "              </staff>";
     "            </measure>";
     "          </section>";
     "        </score>";
     "      </mdiv>";
     "    </body>";
     "  </music>";
     "</mei>"].

Definition sampleXml_render : string :=
  lines
    ["<?xml version=" +:+ dq +:+ "1.0" +:+ dq +:+ " encoding=" +:+ dq +:+ "UTF-8" +:+ dq +:+ "?>";
     "<!DOCTYPE score-partwise PUBLIC " +:+ dq +:+ "-//Recordare//DTD MusicXML 3.1 Partwise//EN" +:+ dq +:+ " " +:+ dq +:+ "http://www.musicxml.org/dtds/partwise.dtd" +:+ dq +:+ ">";
     "<score-partwise version=" +:+ dq +:+ "3.1" +:+ dq +:+ ">";
     "  <part-list>";
     "    <score-part id=" +:+ dq +:+ "P1" +:+ dq +:+ ">";
     "      <part-name>Music</part-name>";
     "    </score-part>";
     "  </part-list>";
     "  <part id=" +:+ dq +:+ "P1" +:+ dq +:+ ">";
     "    <measure number=" +:+ dq +:+ "1" +:+ dq +:+ ">";
     "      <attributes>";
     "        <divisions>1</divisions>";
     "        <key><fifths>0</fifths></key>";
     "        <time><beats>4</beats><beat-type>4</beat-type></time>";
     "        <clef><sign>G</sign><line>2</line></clef>";
     "      </attributes>";
     "      <note>";
     "        <pitch><step>C</step><octave>4</octave></pitch>";
     "        <duration>4</duration>";
     "        <type>whole</type>";
     "      </note>";
     "    </measure>";
     "  </part>";
     "</score-partwise>"].

Definition sampleXml_edge : string :=
  lines
    ["<?xml version=" +:+ dq +:+ "1.0" +:+ dq +:+ " encoding=" +:+ dq +:+ "UTF-8" +:+ dq +:+ "?>";
     "<!DOCTYPE score-partwise PUBLIC " +:+ dq +:+ "-//Recordare//DTD MusicXML 3.1 Partwise//EN" +:+ dq +:+ " " +:+ dq +:+ "http://www.musicxml.org/dtds/partwise.dtd" +:+ dq +:+ ">";
     "<score-partwise version=" +:+ dq +:+ "3.1" +:+ dq +:+ ">";
     "  <part-list>";
     "    <score-part id=" +:+ dq +:+ "P1" +:+ dq +:+ ">";
     "      <part-name>Music</part-name>";
     "    </score-part>";
     "  </part-list>";
     "  <part id=" +:+ dq +:+ "P1" +:+ dq +:+ ">";
     "    <measure number=" +:+ dq +:+ "1" +:+ dq +:+ ">";
     "      <attributes>";
     "        <divisions>1</divisions>";
     "        <key>";
     "          <fifths>0</fifths>";
     "        </key>";
     "        <time>";
     "          <beats>4</beats>";
     "          <beat-type>4</beat-type>";
     "        </time>";
     "        <clef>";
     "          <sign>G</sign>";
     "          <line>2</line>";
     "        </clef>";
     "      </attributes>";
     "      <note>";
     "        <pitch>";
     "          <step>C</step>";
     "          <octave>4</octave>";
     "        </pitch>";
     "        <duration>4</duration>";
     "        <type>whole</type>";
     "      </note>";
     "    </measure>";
     "  </part>";
     "</score-partwise>"].

Definition meiTemplate (fileName isodate : string) : string :=
  mei_head +:+ fileName +:+ mei_mid +:+ isodate +:+ mei_tail.

(** [new Date().toISOString().substring(0, 10)] *)
Definition isodate (e : Env) : string := take_chars 10 (toISOString e).

(** *** Answers *)

#[local] Unset Elimination Schemes.
Inductive json : Type :=
| JNull
| JBool (b : bool)
| JString (s : string)
| JArray (items : list json)
| JObject (fields : list (string * json)).
#[local] Set Elimination Schemes.

Record Response : Type := MkResponse {
  status : nat;
  body : json
}.

Definition field (k : string) (j : json) : option json :=
  match j with
  | JObject fields => snd <$> List.find (fun kv => String.eqb (fst kv) k) fields
  | _ => None
  end.

Definition json_of_option (o : option string) : json :=
  match o with Some s => JString s | None => JNull end.

Definition json_of_converted (c : converted) : json :=
  JObject [("mei_url", JString (res_mei_url c));
           ("public_url", json_of_option (res_public_url c))].

(** The body of a request: a field that is absent is the empty string. *)
Record ConversionRequest : Type := MkRequest {
  fileId : string;
  filePath : string;
  fileType : string
}.

End Backend.

(** ** The web service ([conversion-service/server.js]) *)

Module Render.
Import Js Backend.

(** [path.basename(p)]: the last segment that is not empty. *)
Definition basename (p : string) : string :=
  default "" (last (List.filter (fun seg => negb (String.eqb seg "")) (split_on "/" p))).

(** [path.extname(name)] on a name without separator: from the last dot,
    unless that dot opens the name or the name is [..]. *)
Definition extname (name : string) : string :=
  match lastIndexOf "." name with
  | None | Some O => ""
  | Some i => if String.eqb name ".." then "" else drop_chars i name
  end.

(** [path.basename(name, suffix)] on a name without separator. *)
Definition basename_without (name suffix : string) : string :=
  if String.eqb suffix "" then name
  else if String.eqb suffix name then ""
  else if endsWith suffix name
       then take_chars (String.length name - String.length suffix) name
       else name.

Definition mkdir (answer : option JsError) : M unit := throw_if answer.

(** [processFile(fileId, filePath, fileType)] *)
Definition processFile (e : Env) (fileId filePath fileType : string) : M converted :=
  try_catch
    (let tempDir := "temp/" +:+ fileId in
     _ ← mkdir (mkdir_answer e);
     fileData ← storage_download (download_answer e);
     let fileName := basename filePath in
     let tempFilePath := tempDir +:+ "/" +:+ fileName in
     _ ← writeFile tempFilePath fileData (write_answer e tempFilePath);
     let fileExt := drop_chars 1 (toLowerCase (extname fileName)) in
     musicXmlPath ←
       (if String.eqb fileExt "pdf" then
          let musicXmlFileName := basename_without fileName ".pdf" +:+ ".musicxml" in
          let musicXmlPath := tempDir +:+ "/" +:+ musicXmlFileName in
          _ ← log ("Convertendo PDF para MusicXML: " +:+ tempFilePath +:+ " -> " +:+ musicXmlPath);
          _ ← writeFile musicXmlPath sampleXml_render (write_answer e musicXmlPath);
          mret musicXmlPath
        else if includes ["xml"; "musicxml"; "mxl"] fileExt then mret tempFilePath
        else throw (MkError true ("Formato não suportado: " +:+ fileExt)));
     let meiFileName := basename_without fileName (extname fileName) +:+ ".mei" in
     let meiPath := tempDir +:+ "/" +:+ meiFileName in
     _ ← log ("Convertendo MusicXML para MEI: " +:+ musicXmlPath +:+ " -> " +:+ meiPath);
     _ ← writeFile meiPath (meiTemplate fileName (isodate e)) (write_answer e meiPath);
     let userId := default "" (head (split_on "/" filePath)) in
     let meiStoragePath := userId +:+ "/" +:+ meiFileName in
     meiContent ← readFile meiPath;
     uploadError ← storage_upload meiStoragePath meiContent (upload_answer e);
     _ ← throw_if uploadError;
     let meiPublicUrl := publicUrl e in
     finalUpdateError ←
       update_eq_id fileId (set_completed meiStoragePath meiPublicUrl) (completed_answer e);
     _ ← throw_if finalUpdateError;
     _ ← remove tempDir (remove_answer e);
     mret (MkConverted meiStoragePath meiPublicUrl))
    (fun error =>
       _ ← log ("Erro no processamento do arquivo: " +:+ message error);
       _ ← update_eq_id fileId
             (set_failed (or_else (message error) "Erro desconhecido"))
             (failed_answer e);
       throw error).

(** [POST /convert] up to its answer. *)
Definition post_convert_respond (e : Env) (req : ConversionRequest)
    : World -> World * Response := fun w =>
  if String.eqb (fileId req) "" || String.eqb (filePath req) "" then
    (w, MkResponse 400 (JObject [("error", JString "Dados obrigatórios ausentes")]))
  else
    match update_eq_id (fileId req) set_processing (processing_answer e) w with
    | (w', inr None) =>
        (w', MkResponse 200
               (JObject [("success", JBool true);
                         ("message", JString "Processo de conversão iniciado com sucesso");
                         ("fileId", JString (fileId req));
                         ("status", JString "processing")]))
    | (w', inr (Some error)) | (w', inl error) =>
        (fst (log ("Erro ao iniciar conversão: " +:+ message error) w'),
         MkResponse 500
           (JObject [("success", JBool false);
                     ("error", JString (or_else (message error)
                                          "Erro desconhecido ao iniciar a conversão"))]))
    end.

(** The conversion that [POST /convert] leaves running, with its [then]
    and [catch]. *)
Definition post_convert_background (e : Env) (req : ConversionRequest)
    : World -> World := fun w =>
  match processFile e (fileId req) (filePath req) (fileType req) w with
  | (w', inr result) =>
      fst (log ("Conversão do arquivo " +:+ fileId req +:+ " concluída") w')
  | (w', inl error) =>
      let w1 := fst (log ("Erro na conversão do arquivo " +:+ fileId req +:+ ": "
                          +:+ message error) w') in
      match update_eq_id (fileId req)
              (set_failed (or_else (message error)
                             "Erro desconhecido durante a conversão"))
              (refailed_answer e) w1 with
      | (w2, _) =>
          fst (log ("Status de erro atualizado para o arquivo " +:+ fileId req) w2)
      end
  end.

Definition post_convert (e : Env) (req : ConversionRequest)
    : World -> World * Response := fun w =>
  let (w1, answer) := post_convert_respond e req w in
  if Nat.eqb (status answer) 200 then (post_convert_background e req w1, answer)
  else (w1, answer).

(** What the table answers to the query of [GET /status/:fileId]: the
    client throws, or returns an error or nothing. *)
Definition json_of_status (s : option Status) : json :=
  match s with
  | Some pending => JString "pending"
  | Some processing => JString "processing"
  | Some completed => JString "completed"
  | Some failed => JString "failed"
  | None => JNull
  end.

(** [GET /status/:fileId]: [.single()] answers an error unless exactly one
    record has the identifier. *)
Definition get_status (select_answer : JsError + option JsError) (fileId : string)
    (w : World) : Response :=
  if String.eqb fileId "" then
    MkResponse 400 (JObject [("error", JString "ID do arquivo é obrigatório")])
  else
    match select_answer with
    | inl thrown =>
        MkResponse 500 (JObject [("error", JString "Erro ao verificar status da conversão")])
    | inr (Some error) =>
        MkResponse 404 (JObject [("error", JString "Arquivo não encontrado")])
    | inr None =>
        match List.filter (fun r => String.eqb (id r) fileId) (music_sheets w) with
        | [data] =>
            MkResponse 200
              (JObject [("status", json_of_status (conversion_status data));
                        ("error",
                         match conversion_error data with
                         | Some m => if String.eqb m "" then JNull else JString m
                         | None => JNull
                         end)])
        | _ => MkResponse 404 (JObject [("error", JString "Arquivo não encontrado")])
        end
    end.

(** *** The routes under [/status/]

    A segment of letters, digits, hyphens and underscores is carried by a
    URL as it is: it has no character that the URL parser cuts ([?], [#]),
    splits ([/]), resolves ([.]) or escapes, and none that the router
    decodes ([%]). *)
Definition plain_char (c : ascii) : bool :=
  let n := Ascii.N_of_ascii c in
  ((48 <=? n) && (n <=? 57) || (65 <=? n) && (n <=? 90) || (97 <=? n) && (n <=? 122)
   || (n =? 45) || (n =? 95))%N.

Definition plain (segment : string) : bool :=
  forallb plain_char (String.list_ascii_of_string segment).

Inductive route : Type :=
| Health
| StatusOf (fileId : string)
| NoRoute.

(** The route that takes [GET /status/<segment>]: the routes are tried in
    the order of their declaration, [/status/health] first, without regard
    to case; a parameter is not empty.  [None]: the segment is not plain,
    and what the service receives for it is outside this model. *)
Definition route_status (segment : string) : option route :=
  if plain segment then
    Some (if String.eqb segment "" then NoRoute
          else if String.eqb (toLowerCase segment) "health" then Health
          else StatusOf segment)
  else None.

End Render.

(** ** The edge function (second part of [server.js]) *)

Module Edge.
Import Js Backend.

Definition error_text (error : JsError) : string :=
  if is_Error error then message error else "Erro desconhecido".

(** [filePath.split("/").pop() || "file"] *)
Definition fileName (filePath : string) : string :=
  or_else (default "" (pop (split_on "/" filePath))) "file".

(** [processFile(supabase, fileId, filePath, fileType)] *)
Definition processFile (e : Env) (fileId filePath fileType : string) : M converted :=
  _ ← log ("Iniciando conversão para MEI. ID: " +:+ fileId +:+ ", Caminho: "
           +:+ filePath +:+ ", Tipo: " +:+ fileType);
  updateError ← update_eq_id fileId set_processing (processing_answer e);
  _ ← match updateError with
      | Some err => _ ← log ("Erro ao atualizar status: " +:+ message err); throw err
      | None => mret tt
      end;
  try_catch
    (fileData ←
       match download_answer e with
       | inl err =>
           _ ← log ("Erro ao baixar arquivo: " +:+ message err);
           storage_download (download_answer e)
       | inr _ => storage_download (download_answer e)
       end;
     let tempDir := "/tmp/convert-" +:+ fileId in
     _ ← match mkdir_answer e with
         | Some err =>
             log ("Diretório temporário já existe ou erro ao criar: " +:+ message err)
         | None => mret tt
         end;
     let fileName := fileName filePath in
     let tempFilePath := tempDir +:+ "/" +:+ fileName in
     _ ← writeFile tempFilePath fileData (write_answer e tempFilePath);
     let fileExt := toLowerCase (or_else (default "" (pop (split_on "." fileName))) "") in
     musicXmlPath ←
       (if String.eqb fileExt "pdf" then
          _ ← log "Simulando conversão de PDF para MusicXML...";
          let musicXmlPath := replace ".pdf" ".musicxml" tempFilePath in
          _ ← writeFile musicXmlPath sampleXml_edge (write_answer e musicXmlPath);
          mret (Some musicXmlPath)
        else if includes ["xml"; "musicxml"; "mxl"] fileExt then mret (Some tempFilePath)
        else if String.eqb fileExt "svg" then
          _ ← log "Simulando conversão de SVG para MEI...";
          mret None
        else throw (MkError true ("Tipo de arquivo não suportado: " +:+ fileExt)));
     _ ← log "Simulando conversão para MEI...";
     let fileNameWithoutExt := substring_to (lastIndexOf "." fileName) fileName in
     let meiPath := tempDir +:+ "/" +:+ fileNameWithoutExt +:+ ".mei" in
     _ ← writeFile meiPath (meiTemplate fileName (isodate e)) (write_answer e meiPath);
     meiContent ← readFile meiPath;
     let userId := substring_to (lastIndexOf "/" filePath) filePath in
     let meiFileName := userId +:+ "/" +:+ fileNameWithoutExt +:+ ".mei" in
     uploadError ← storage_upload meiFileName meiContent (upload_answer e);
     _ ← match uploadError with
         | Some err =>
             _ ← log ("Erro ao fazer upload do MEI: " +:+ message err); throw err
         | None => mret tt
         end;
     let meiPublicUrl := publicUrl e in
     finalUpdateError ←
       update_eq_id fileId (set_completed meiFileName meiPublicUrl) (completed_answer e);
     _ ← match finalUpdateError with
         | Some err =>
             _ ← log ("Erro ao atualizar registro com URL do MEI: " +:+ message err);
             throw err
         | None => mret tt
         end;
     _ ← try_catch (remove tempDir (remove_answer e))
           (fun err => log ("Erro ao limpar diretório temporário: " +:+ message err));
     mret (MkConverted meiFileName meiPublicUrl))
    (fun error =>
       _ ← update_eq_id fileId (set_failed (error_text error)) (failed_answer e);
       throw error).

Record Request : Type := MkHttp {
  method : string;
  pathname : string;
  payload : JsError + ConversionRequest   (* [req.json()]: what it throws, or the body *)
}.

(** What surrounds the runs of one invocation: the environment variables,
    the answer to the query for pending files, and the [Env] of the run on
    each file. *)
Record Service : Type := MkService {
  configured : bool;
  query_answer : option JsError;
  run : string -> Env
}.

Definition pending_page (w : World) : list Row :=
  take 10 (List.filter
             (fun r => bool_decide (conversion_status r = Some pending))
             (music_sheets w)).

(** The loop over the pending files, each in its own [try]. *)
Fixpoint convert_each (sv : Service) (files : list Row) (w : World)
    : World * list json :=
  match files with
  | [] => (w, [])
  | file :: rest =>
      let (w1, item) :=
        match processFile (run sv (id file)) (id file) (file_url file) (file_type file) w with
        | (w', inr result) =>
            (w', JObject [("fileId", JString (id file));
                          ("success", JBool true);
                          ("result", json_of_converted result)])
        | (w', inl error) =>
            let w'' := fst (log ("Erro ao processar arquivo " +:+ id file +:+ ": "
                                 +:+ message error) w') in
            (fst (update_eq_id (id file) (set_failed (error_text error))
                    (refailed_answer (run sv (id file))) w''),
             JObject [("fileId", JString (id file));
                      ("success", JBool false);
                      ("error", JString (error_text error))])
        end in
      let (w2, items) := convert_each sv rest w1 in
      (w2, item :: items)
  end.

Definition internal_error (error : JsError) (w : World) : World * Response :=
  (fst (log ("Erro na Edge Function: " +:+ message error) w),
   MkResponse 500
     (JObject [("success", JBool false); ("error", JString (error_text error))])).

(** The handler given to [serve]. *)
Definition serve (sv : Service) (req : Request) : World -> World * Response := fun w =>
  if negb (String.eqb (method req) "POST") then
    (w, MkResponse 405 (JObject [("error", JString "Método não permitido")]))
  else if negb (configured sv) then
    internal_error (MkError true "Variáveis de ambiente do Supabase não configuradas") w
  else if includes_sub "/convert-all" (pathname req) then
    let w := fst (log "Iniciando processamento em lote de todos os arquivos pendentes" w) in
    match query_answer sv with
    | Some queryError =>
        internal_error
          (MkError true ("Erro ao buscar arquivos pendentes: " +:+ message queryError)) w
    | None =>
        match pending_page w with
        | [] =>
            (w, MkResponse 200
                  (JObject [("message", JString "Nenhum arquivo pendente para conversão")]))
        | pendingFiles =>
            let (w', results) := convert_each sv pendingFiles w in
            (w', MkResponse 200
                   (JObject [("message", JString "Processamento em lote concluído");
                             ("results", JArray results)]))
        end
    end
  else
    match payload req with
    | inl error => internal_error error w
    | inr requestData =>
        if String.eqb (fileId requestData) "" || String.eqb (filePath requestData) "" then
          (w, MkResponse 400 (JObject [("error", JString "Dados obrigatórios ausentes")]))
        else
          match processFile (run sv (fileId requestData)) (fileId requestData)
                  (filePath requestData) (fileType requestData) w with
          | (w', inr result) =>
              (w', MkResponse 200
                     (JObject [("success", JBool true);
                               ("message", JString "Conversão concluída com sucesso");
                               ("result", json_of_converted result)]))
          | (w', inl error) => internal_error error w'
          end
    end.

End Edge.

(** ** The client of the conversion service ([lib/conversionService.ts]) *)

Module Client.
Import Js Backend.

(** What [fetch] gives: a rejection, or a response with its status, its
    status text and what [response.json()] returns or throws. *)
Inductive fetched : Type :=
| Rejected (e : JsError)
| Answered (status : nat) (statusText : string) (body : JsError + json).

(** [response.ok] *)
Definition ok (status : nat) : bool := Nat.leb 200 status && Nat.leb status 299.

(** The text of a value in a template literal. *)
Fixpoint text_of (j : json) : string :=
  match j with
  | JNull => "null"
  | JBool true => "true"
  | JBool false => "false"
  | JString s => s
  | JArray items =>
      (fix texts (l : list json) : string :=
         match l with
         | [] => ""
         | [x] => match x with JNull => "" | _ => text_of x end
         | x :: l' => match x with JNull => "" | _ => text_of x end +:+ "," +:+ texts l'
         end) items
  | JObject _ => "[object Object]"
  end.

Definition truthy (j : json) : bool :=
  match j with
  | JNull | JBool false => false
  | JString s => negb (String.eqb s "")
  | _ => true
  end.

(** [errorData.error || response.statusText] in the message. *)
Definition error_or_statusText (errorData : json) (statusText : string) : string :=
  match field "error" errorData with
  | Some j => if truthy j then text_of j else statusText
  | None => statusText
  end.

(** The two calls have the same shape: the body of a response that is ok,
    an error with [prefix] and the text of the server otherwise; whatever
    is thrown on the way is thrown again (reading [error] in a body that is
    [null] throws a [TypeError]). *)
Definition call (prefix : string) (f : fetched) : JsError + json :=
  match f with
  | Rejected e => inl e
  | Answered status statusText body =>
      if ok status then body
      else match body with
           | inl e => inl e
           | inr JNull =>
               inl (MkError true "Cannot read properties of null (reading 'error')")
           | inr errorData =>
               inl (MkError true (prefix +:+ error_or_statusText errorData statusText))
           end
  end.

(** [startConversion(fileId, filePath, fileType)], given what the request
    to [/convert] fetches. *)
Definition startConversion : fetched -> JsError + json := call "Erro na conversão: ".


(** A response of the service as [fetch] sees it, the body being JSON. *)
Definition over_http (statusText : string) (r : Response) : fetched :=
  Answered (status r) statusText (inr (body r)).


End Client.

(** ** The written specification

    The notions that the specification uses and the code does not define,
    the claims as the specification words them, and the inputs on which they
    are tried. *)

Module Spec.
Import Js Backend.

(** *** Elements of a document

    The number of start tags [<tag ...>] or [<tag/>] in a text: the number
    of elements of that name in a document without comment nor CDATA
    section. *)
Definition delimiter (c : ascii) : bool :=
  existsb (Ascii.eqb c) [" "; ">"; "/"; "009"; "010"; "013"]%char.

Definition opens (tag s : string) : bool :=
  match s with
  | String c rest =>
      Ascii.eqb c "<"
      && startsWith tag rest
      && match drop_chars (String.length tag) rest with
         | String d _ => delimiter d
         | EmptyString => false
         end
  | EmptyString => false
  end.

Fixpoint count_elements (tag s : string) : nat :=
  match s with
  | EmptyString => 0
  | String c s' => (if opens tag s then 1 else 0) + count_elements tag s'
  end.

(** A text without the character that opens a tag. *)
Fixpoint no_markup (s : string) : bool :=
  match s with
  | EmptyString => true
  | String c s' => negb (Ascii.eqb c "<") && no_markup s'
  end.

(** *** Outcome of a conversion

    A run [produces] a document when it returns its result and the bucket
    then holds that document under the returned [mei_url]. *)
Definition produces (outcome : World * (JsError + converted)) (mei : string) : Prop :=
  exists r, snd outcome = inr r /\ bucket (fst outcome) !! res_mei_url r = Some mei.

(** A run [returns] when it ends with a result, in a world and with a
    result that satisfy [Q]. *)
Definition returns {A : Type} (m : M A) (w : World) (Q : A -> World -> Prop) : Prop :=
  exists a w', m w = (w', inr a) /\ Q a w'.

(** An environment in which the services answer without error up to the
    cleanup, the stored file being [bytes]. *)
Definition answers (bytes : string) (e : Env) : Prop :=
  processing_answer e = None
  /\ download_answer e = inr bytes
  /\ mkdir_answer e = None
  /\ (forall p, write_answer e p = None)
  /\ upload_answer e = None
  /\ completed_answer e = None.

(** The extensions that each service converts. *)
Definition render_converts (filePath : string) : bool :=
  let fileExt := drop_chars 1 (toLowerCase (Render.extname (Render.basename filePath))) in
  String.eqb fileExt "pdf" || includes ["xml"; "musicxml"; "mxl"] fileExt.

Definition edge_converts (filePath : string) : bool :=
  let fileExt :=
    toLowerCase (or_else (default "" (pop (split_on "." (Edge.fileName filePath)))) "") in
  String.eqb fileExt "pdf" || includes ["xml"; "musicxml"; "mxl"] fileExt
  || String.eqb fileExt "svg".

(** The same run with another answer to the removal of the directory. *)
Definition with_remove_answer (a : option JsError) (e : Env) : Env :=
  MkEnv (processing_answer e) (download_answer e) (mkdir_answer e)
    (write_answer e) (toISOString e) (upload_answer e) (publicUrl e)
    (completed_answer e) a (failed_answer e) (refailed_answer e).

(** Two outcomes that the callers and the users of the service cannot tell
    apart: same table, same bucket, same result or same error. *)
Definition same_outcome {A : Type} (o1 o2 : World * (JsError + A)) : Prop :=
  music_sheets (fst o1) = music_sheets (fst o2)
  /\ bucket (fst o1) = bucket (fst o2)
  /\ snd o1 = snd o2.

(** [m] keeps [P] whether it returns or throws. *)
Definition preserves {A : Type} (P : World -> Prop) (m : M A) : Prop :=
  forall w, P w -> P (fst (m w)).

(** A property of the table alone. *)
Definition table_only (P : World -> Prop) : Prop :=
  forall w w', music_sheets w' = music_sheets w -> P w -> P w'.

Definition other (fileId : string) (r : Row) : bool := negb (String.eqb (id r) fileId).

(** Since [w0] no record was created or deleted, and the records of the
    other files are as they were. *)
Definition untouched (fileId : string) (w0 w : World) : Prop :=
  map id (music_sheets w) = map id (music_sheets w0)
  /\ List.filter (other fileId) (music_sheets w)
     = List.filter (other fileId) (music_sheets w0).

Definition started (s : option Status) : Prop :=
  s = Some processing \/ s = Some completed \/ s = Some failed.

(** Moreover the records of the file are in progress or finished. *)
Definition tracked (fileId : string) (w0 w : World) : Prop :=
  untouched fileId w0 w /\ Forall started (statuses fileId w).

(** The item of the batch answer for a file: [file] was processed, in some
    state of the service, and the item tells how it ended. *)
Definition reported (sv : Edge.Service) (file : Row) (item : json) : Prop :=
  exists w,
    match snd (Edge.processFile (Edge.run sv (id file)) (id file) (file_url file)
                 (file_type file) w) with
    | inr result =>
        item = JObject [("fileId", JString (id file));
                        ("success", JBool true);
                        ("result", json_of_converted result)]
    | inl error =>
        item = JObject [("fileId", JString (id file));
                        ("success", JBool false);
                        ("error", JString (Edge.error_text error))]
    end.

(** The second run throws [err] where the first returns, and has then left
    the table and the bucket as the first has. *)
Definition throws_instead {A : Type} (err : JsError)
    (o1 o2 : World * (JsError + A)) : Prop :=
  forall r, snd o1 = inr r ->
    snd o2 = inl err
    /\ music_sheets (fst o2) = music_sheets (fst o1)
    /\ bucket (fst o2) = bucket (fst o1).

(** *** The claims in the words of the specification *)

(** Valid music notation if and only if at least two distinct categories
    match. *)
Definition two_categories_rule (text : list N) : Prop :=
  Detector.isMusicSheetOrTab text = true
  <-> 2 <= length (Detector.matched_categories text).

Definition supported_extensions : list string :=
  ["pdf"; "xml"; "musicxml"; "mxl"; "svg"; "png"; "jpg"; "jpeg"].

(** A file passes intake exactly when its extension is supported;
    otherwise it is rejected as of unsupported format. *)
Definition accepts_supported_set (pdf_page image : Upload.File -> Upload.recognition)
    (f : Upload.File) : Prop :=
  In (Upload.extension (Upload.name f)) supported_extensions
  <-> Upload.error (Upload.validateMusicFile pdf_page image f)
      <> Upload.unsupported_type.

(** A file above the limit is marked invalid and nothing is sent for it. *)
Definition oversized_is_rejected (outcome : Upload.State * list Upload.request) : Prop :=
  Upload.isValidFile (fst outcome) = Some false /\ snd outcome = [].

(** The batch trigger without pending file answers with an empty list of
    results. *)
Definition empty_results (answer : Response) : Prop :=
  field "results" (body answer) = Some (JArray []).

(** A record that has reached a terminal status is left as it is; a new
    submission would be another record. *)
Definition keeps_terminal (fileId : string) (w w' : World) : Prop :=
  forall r s,
    In r (music_sheets w) -> id r = fileId ->
    conversion_status r = Some s -> terminal s = true ->
    In r (music_sheets w').

(** The document produced has as many measures as the source. *)
Definition preserves_measures (source : string)
    (outcome : World * (JsError + converted)) : Prop :=
  exists mei, produces outcome mei
    /\ count_elements "measure" mei = count_elements "measure" source.

(** Two conversions of the same input give the same bytes. *)
Definition same_output (first second : World * (JsError + converted)) : Prop :=
  exists mei, produces first mei /\ produces second mei.

(** A failure of the cleanup leaves the job completed. *)
Definition cleanup_is_harmless (fileId : string) (w : World) : Prop :=
  Forall (fun s => s = Some completed) (statuses fileId w).

(** *** Inputs *)

Definition no_fault (bytes iso : string) : Env :=
  MkEnv None (inr bytes) None (fun _ => None) iso None
    (Some "https://cdn.example/music-sheets/u1/song.mei") None None None None.

Definition morning : string := "2025-03-04T10:11:12.000Z".
Definition next_day : string := "2025-03-05T00:00:01.000Z".

(** A score of two measures, each a whole note. *)
Definition two_measures : string :=
  lines
    ["<?xml version=" +:+ dq +:+ "1.0" +:+ dq +:+ " encoding=" +:+ dq +:+ "UTF-8" +:+ dq +:+ "?>";
     "<score-partwise version=" +:+ dq +:+ "3.1" +:+ dq +:+ ">";
     "  <part-list>";
     "    <score-part id=" +:+ dq +:+ "P1" +:+ dq +:+ "><part-name>Music</part-name></score-part>";
     "  </part-list>";
     "  <part id=" +:+ dq +:+ "P1" +:+ dq +:+ ">";
     "    <measure number=" +:+ dq +:+ "1" +:+ dq +:+ ">";
     "      <attributes><divisions>1</divisions></attributes>";
     "      <note><pitch><step>C</step><octave>4</octave></pitch><duration>4</duration><type>whole</type></note>";
     "    </measure>";
     "    <measure number=" +:+ dq +:+ "2" +:+ dq +:+ ">";
     "      <note><pitch><step>D</step><octave>4</octave></pitch><duration>4</duration><type>whole</type></note>";
     "    </measure>";
     "  </part>";
     "</score-partwise>"].

Definition song : Row :=
  MkRow "42" "u1/1741082000000-song.musicxml" "musicxml" (Some pending) None None None.

Definition song_done : Row :=
  MkRow "42" "u1/1741082000000-song.musicxml" "musicxml" (Some completed) None
    (Some "u1/1741082000000-song.mei") None.

Definition world_of (rows : list Row) : World := MkWorld rows ∅ ∅ [].

Definition convert_song : ConversionRequest :=
  MkRequest "42" "u1/1741082000000-song.musicxml" "musicxml".

(** Two chord names: two patterns of one category. *)
Definition two_chords : list N := units "Am Dm ".

Definition song_xml : Upload.File := Upload.MkFile "song.xml" "text/xml" 20480.

(** A PDF of six mebibytes whose first page reads as notation. *)
Definition big_pdf : Upload.File :=
  Upload.MkFile "sonata.pdf" "application/pdf" (6 * 1024 * 1024).

Definition reads_notation (_ : Upload.File) : Upload.recognition :=
  Upload.Recognised (units "Sonata  Allegro  4/4").

Definition page_world : Upload.world :=
  Upload.MkWorld reads_notation reads_notation
    (Upload.MkBackend (fun _ => None) None).

Definition filled_form : Upload.State :=
  Upload.MkState None None "Sonata" "Anon" "Piano" None "" "" false false false.

Definition choose_then_submit : list Upload.event :=
  [Upload.Select big_pdf; Upload.Commit; Upload.Validated big_pdf;
   Upload.Submit (Some "u1") "1741082000000" "1741082000431"].

(** Another file of the same name: another user, another content. *)
Definition one_note : string := "<score-partwise version=" +:+ dq +:+ "3.1" +:+ dq +:+ "/>".

Definition other_song : Row :=
  MkRow "77" "u2/1741082000000-song.musicxml" "musicxml" (Some pending) None None None.

Definition busy : JsError :=
  MkError true "EBUSY: resource busy or locked, rmdir 'temp/42'".

(** The services answer without error, except the removal of the work
    directory. *)
Definition cleanup_fails : Env :=
  with_remove_answer (Some busy) (no_fault two_measures morning).

(** Two pending files; the bucket refuses to give the first. *)
Definition lost : Row :=
  MkRow "13" "u1/1741081000000-lost.pdf" "pdf" (Some pending) None None None.

Definition not_found : Env :=
  MkEnv None (inl (MkError true "Object not found")) None (fun _ => None) morning
    None None None None None None.

Definition first_fails : Edge.Service :=
  Edge.MkService true None
    (fun fileId => if String.eqb fileId "13" then not_found
                   else no_fault two_measures morning).

Definition batch_request : Edge.Request :=
  Edge.MkHttp "POST" "/functions/v1/convert-to-mei/convert-all"
    (inl (MkError true "Unexpected end of JSON input")).

Definition quiet_service : Edge.Service :=
  Edge.MkService true None (fun _ => no_fault two_measures morning).

End Spec.

(** ** Notions of the properties

    What the properties of the upload page and of the services speak of
    beyond the words of the specification, and the inputs on which they are
    tried. *)

Module Form.

Definition is_select (e : Upload.event) : bool :=
  match e with Upload.Select _ => true | _ => false end.

(** The records among the requests sent. *)
Definition inserted (sent : list Upload.request) : list Upload.sheet_record :=
  omap (fun r => match r with Upload.InsertSheet row => Some row | _ => None end) sent.

(** A text of white space only. *)
Definition blank (s : list N) : Prop := Forall (fun c => Js.is_whitespace c = true) s.

(** A text that begins and ends with a visible code unit. *)
Definition trimmed (s : list N) : Prop :=
  (exists c u, s = c :: u /\ Js.is_whitespace c = false)
  /\ (exists u d, s = (u ++ [d])%list /\ Js.is_whitespace d = false).

(** A tag as [handleTagsChange] keeps it. *)
Definition kept (tag : list N) : Prop := trimmed tag /\ ~ In 44%N tag.

(** A PDF of two hundred kibibytes. *)
Definition small_pdf : Upload.File :=
  Upload.MkFile "valsa.pdf" "application/pdf" (200 * 1024).

(** The form filled, [small_pdf] chosen and accepted. *)
Definition ready_form : Upload.State :=
  Upload.MkState (Some small_pdf) None "Valsa" "Anon" "Piano" (Some true)
    "PDF aceito para upload." "" false false false.

Definition valsa_record : Upload.sheet_record :=
  Upload.MkSheet "Valsa" "Anon" "Piano" "u1/1741082000000-valsa.pdf" None "pdf" "u1".

End Form.

Module Outcome.
Import Js Backend.

(** A record marked failed with the text [msg]. *)
Definition failed_with (msg : string) (r : Row) : Prop :=
  conversion_status r = Some failed /\ conversion_error r = Some msg.

(** A record that is completed, or failed with a text. *)
Definition finished (r : Row) : Prop :=
  conversion_status r = Some completed
  \/ (conversion_status r = Some failed
      /\ exists msg, conversion_error r = Some msg /\ msg <> "").

(** [data.conversion_error || null] *)
Definition error_json (r : Row) : json :=
  match conversion_error r with
  | Some m => if String.eqb m "" then JNull else JString m
  | None => JNull
  end.

(** No record of the file. *)
Definition absent (fid : string) (rows : list Row) : Prop :=
  forall r, In r rows -> id r <> fid.

(** A record of none of the [files]. *)
Definition apart (files : list Row) (r : Row) : bool :=
  forallb (fun file => Spec.other (id file) r) files.

(** Since [w0] no record was created or deleted, and the records of the
    files that are not among [files] are as they were. *)
Definition only_touched (files : list Row) (w0 w : World) : Prop :=
  map id (music_sheets w) = map id (music_sheets w0)
  /\ List.filter (apart files) (music_sheets w)
     = List.filter (apart files) (music_sheets w0).

(** The records of the file are in progress or finished. *)
Definition settled (fid : string) (w : World) : Prop :=
  Forall Spec.started (statuses fid w).

(** *** The batch, file by file *)

(** The records of a file. *)
Definition records (fid : string) (w : World) : list Row :=
  List.filter (fun r => String.eqb (id r) fid) (music_sheets w).

(** A record completed with the result of a conversion. *)
Definition completed_with (result : converted) (r : Row) : Prop :=
  conversion_status r = Some completed
  /\ mei_url r = Some (res_mei_url result)
  /\ mei_public_url r = res_public_url result.

(** The items of the answer of the batch. *)
Definition success_item (file : Row) (result : converted) : json :=
  JObject [("fileId", JString (id file));
           ("success", JBool true);
           ("result", json_of_converted result)].

Definition failure_item (file : Row) (error : JsError) : json :=
  JObject [("fileId", JString (id file));
           ("success", JBool false);
           ("error", JString (Edge.error_text error))].

(** The hosted services answer the run of the edge function without error
    up to the removal of the work directory. *)
Definition edge_answers (e : Env) : Prop :=
  processing_answer e = None
  /\ (exists bytes, download_answer e = inr bytes)
  /\ (forall p, write_answer e p = None)
  /\ upload_answer e = None
  /\ completed_answer e = None.

(** The table accepts to record a failure of the run: the update of the
    batch itself, or those of [processFile]. *)
Definition records_failure (e : Env) : Prop :=
  refailed_answer e = None
  \/ (processing_answer e = None /\ failed_answer e = None).

(** What the batch has left of a file, as its item tells: converted, its
    records completed with the result and the document in the bucket; or
    failed, its records marked so with the text of the item when the table
    accepts it. *)
Definition ended (sv : Edge.Service) (w' : World) (file : Row) (item : json) : Prop :=
  (exists result,
     item = success_item file result
     /\ Forall (completed_with result) (records (id file) w')
     /\ is_Some (bucket w' !! res_mei_url result))
  \/ (exists error,
        item = failure_item file error
        /\ (records_failure (Edge.run sv (id file)) ->
            Forall (failed_with (Edge.error_text error)) (records (id file) w'))).

(** One turn of the loop of the batch: the state and the item that a file
    leaves. *)
Definition turn (sv : Edge.Service) (file : Row) (w : World) : World * json :=
  match Edge.processFile (Edge.run sv (id file)) (id file) (file_url file)
          (file_type file) w with
  | (w', inr result) => (w', success_item file result)
  | (w', inl error) =>
      (fst (update_eq_id (id file) (set_failed (Edge.error_text error))
              (refailed_answer (Edge.run sv (id file)))
              (fst (log ("Erro ao processar arquivo " +:+ id file +:+ ": "
                         +:+ message error) w'))),
       failure_item file error)
  end.

(** The bucket holds a document under [k]. *)
Definition stored (k : string) (w : World) : Prop := is_Some (bucket w !! k).

(** *** Inputs *)

Definition photo_path : string := "u1/1741082000000-photo.png".

Definition denied : JsError := MkError true "permission denied for table music_sheets".

(** The table refuses to put the records in progress. *)
Definition refuses_start : Env :=
  MkEnv (Some denied) (inr Spec.two_measures) None (fun _ => None) Spec.morning
    None None None None None None.

Definition convert_lost : ConversionRequest :=
  MkRequest "13" "u1/1741081000000-lost.pdf" "pdf".

Definition single_request (data : ConversionRequest) : Edge.Request :=
  Edge.MkHttp "POST" "/functions/v1/convert-to-mei" (inr data).

(** What a conversion of [Spec.song] returns. *)
Definition converted_song : converted :=
  MkConverted "u1/1741082000000-song.mei"
    (Some "https://cdn.example/music-sheets/u1/song.mei").

(** A record that failed once, with the text of that failure. *)
Definition song_failed : Row :=
  MkRow "42" "u1/1741082000000-song.musicxml" "musicxml" (Some failed)
    (Some "Erro ao baixar arquivo: Object not found") None None.

End Outcome.

(** * Properties *)

(** ** The notation detector *)

Lemma count_fold (A : Type) (f : A -> bool) (l : list A) (n : nat) :
  fold_left (fun m x => if f x then S m else m) l n = n + length (List.filter f l).
Proof.
  revert n. induction l as [|x l IH]; intros n; simpl.
  - lia.
  - rewrite IH. destruct (f x); simpl; lia.
Qed.

Lemma count_matches_filter (text : list N) :
  Detector.count_matches text
  = length (List.filter (fun p => Regex.test p text) Detector.patterns).
Proof. unfold Detector.count_matches. now rewrite count_fold. Qed.

(** A category that matches owns a pattern that matches: there are at least
    as many matching patterns as matching categories. *)
Lemma categories_le_patterns (text : list N) :
  length (Detector.matched_categories text) <= Detector.count_matches text.
Proof.
  rewrite count_matches_filter.
  unfold Detector.matched_categories, Detector.categories,
    Detector.category_matches, Detector.patterns_of, Detector.patterns.
  simpl.
  destruct (Regex.test Detector.p_time text),
    (Regex.test Detector.p_tempo text),
    (Regex.test Detector.p_dynamics text),
    (Regex.test Detector.p_symbols text); simpl;
  destruct (Regex.test Detector.p_tab_lines text),
    (Regex.test Detector.p_tuning text),
    (Regex.test Detector.p_frets text); simpl;
  destruct (Regex.test Detector.p_chord text),
    (Regex.test Detector.p_chord_bracket text),
    (Regex.test Detector.p_chord_sequence text); simpl;
  destruct (Regex.test Detector.p_vocabulary text); simpl; lia.
Qed.

(** C3, as the specification words it, fails on two chord names: the patterns
    for a chord and for a sequence of chords both match, so the text is
    accepted, and they belong to one category. *)
Lemma two_chords_one_category : ~ Spec.two_categories_rule Spec.two_chords.
Proof.
  unfold Spec.two_categories_rule. intros [H _].
  assert (E : Detector.isMusicSheetOrTab Spec.two_chords = true) by (vm_compute; reflexivity).
  specialize (H E).
  assert (L : length (Detector.matched_categories Spec.two_chords) = 1)
    by (vm_compute; reflexivity).
  lia.
Qed.

(** C3, amended: a text is classified as music notation if and only if at
    least two of the eleven patterns match it; two distinct categories that
    match are enough for that, and so are two patterns of one category. *)
Theorem isMusicSheetOrTab_two_patterns (text : list N) :
  (Detector.isMusicSheetOrTab text = true
   <-> 2 <= length (List.filter (fun p => Regex.test p text) Detector.patterns))
  /\ (2 <= length (Detector.matched_categories text)
      -> Detector.isMusicSheetOrTab text = true).
Proof.
  unfold Detector.isMusicSheetOrTab. split.
  - rewrite count_matches_filter. apply Nat.leb_le.
  - intros H. apply Nat.leb_le.
    pose proof (categories_le_patterns text). lia.
Qed.

(** ** Intake on the upload page *)

Lemma classify_not_unsupported (r : Upload.recognition) :
  Upload.classify r <> Upload.MkValidation false Upload.unsupported_type.
Proof.
  destruct r as [text|message]; simpl.
  - destruct (Detector.isMusicSheetOrTab text); discriminate.
  - discriminate.
Qed.

(** C5, as the specification words it, fails on a MusicXML file: its
    extension is in the supported set and the validator rejects it as of
    unsupported type, whatever recognition would read in it. *)
Lemma xml_file_is_refused :
  ~ Spec.accepts_supported_set Spec.reads_notation Spec.reads_notation Spec.song_xml.
Proof.
  unfold Spec.accepts_supported_set. intros [H _].
  apply H; [ vm_compute; tauto | vm_compute; reflexivity ].
Qed.

(** C5, amended: the validator decides on the MIME type and not on the
    extension.  It rejects a file as of unsupported type exactly when the
    type is neither [application/pdf] nor an [image/] type.  The extensions
    that the page lists are pdf, png, jpg, jpeg and svg, the ones that the
    file input accepts; all are in the set of the specification, which also
    has xml, musicxml and mxl, absent from the page. *)
Theorem validateMusicFile_by_type
    (pdf_page image : Upload.File -> Upload.recognition) (f : Upload.File) :
  (Upload.validateMusicFile pdf_page image f
     = Upload.MkValidation false Upload.unsupported_type
   <-> String.eqb (Upload.type f) "application/pdf"
       || Js.startsWith "image/" (Upload.type f) = false)
  /\ Upload.accept = map (String.append ".") Upload.validFileTypes
  /\ (forall x, In x Upload.validFileTypes -> In x Spec.supported_extensions)
  /\ (forall x, In x Spec.supported_extensions ->
        In x Upload.validFileTypes \/ In x ["xml"; "musicxml"; "mxl"])
  /\ (forall x, In x ["xml"; "musicxml"; "mxl"] -> ~ In x Upload.validFileTypes).
Proof.
  split; [|split; [reflexivity|split; [|split]]].
  - unfold Upload.validateMusicFile.
    destruct (String.eqb (Upload.type f) "application/pdf"); cbn [orb].
    + split; [intros H; now apply classify_not_unsupported in H | discriminate].
    + destruct (Js.startsWith "image/" (Upload.type f)).
      * split; [intros H; now apply classify_not_unsupported in H | discriminate].
      * split; reflexivity.
  - intros x H. simpl in *. intuition (subst; auto).
  - intros x H. simpl in *. intuition (subst; auto).
  - intros x H K. simpl in *. intuition (subst; discriminate).
Qed.

(** The size check does what the specification asks at the moment it runs:
    the file is marked invalid, and a submission made then sends nothing. *)
Lemma preview_effect_blocks_oversized (s : Upload.State) (f : Upload.File)
    (user : option string) (now later : string) (b : Upload.backend) :
  Upload.file s = Some f ->
  (Upload.MAX_FILE_SIZE < Upload.size f)%N ->
  Upload.isValidFile (Upload.preview_effect s) = Some false
  /\ snd (Upload.handleSubmit user now later b (Upload.preview_effect s)) = [].
Proof.
  intros Hf Hs. unfold Upload.preview_effect. rewrite Hf.
  apply N.ltb_lt in Hs. rewrite Hs. split; [reflexivity|].
  unfold Upload.handleSubmit. simpl. rewrite Hf.
  destruct user as [uid|]; [|reflexivity].
  destruct (String.eqb uid ""); [reflexivity|].
  destruct (String.eqb (Upload.title s) "" || String.eqb (Upload.composer s) ""
            || String.eqb (Upload.instrument s) ""); reflexivity.
Qed.

(** What comes later undoes it.  Whatever the size of the file, once the
    validator has answered that the file is a score, a submission by a
    signed-in user with the form filled uploads the file. *)
Lemma validated_file_is_uploaded (w : Upload.world) (s : Upload.State)
    (f : Upload.File) (uid now later : string) :
  Upload.isScore (Upload.validateMusicFile (Upload.pdf_page w) (Upload.image w) f) = true ->
  String.eqb uid "" = false ->
  String.eqb (Upload.title s) "" = false ->
  String.eqb (Upload.composer s) "" = false ->
  String.eqb (Upload.instrument s) "" = false ->
  In (Upload.StorageUpload (uid +:+ "/" +:+ now +:+ "-" +:+ Upload.name f) f)
     (snd (Upload.session w s
             [Upload.Select f; Upload.Commit; Upload.Validated f;
              Upload.Submit (Some uid) now later])).
Proof.
  intros Hv Hu Ht Hc Hi.
  unfold Upload.session. cbn [fold_left Upload.step].
  unfold Upload.handleFileChange_end. rewrite Hv.
  set (s1 := Upload.run_effects (Upload.handleFileChange_begin f s)).
  assert (F : Upload.file s1 = Some f /\ Upload.title s1 = Upload.title s
              /\ Upload.composer s1 = Upload.composer s
              /\ Upload.instrument s1 = Upload.instrument s).
  { unfold s1, Upload.run_effects, Upload.viewer_effect, Upload.preview_effect,
      Upload.handleFileChange_begin. cbn.
    destruct (Upload.MAX_FILE_SIZE <? Upload.size f)%N; cbn;
      destruct (Upload.osmdInstance s); cbn;
      repeat match goal with
        | |- context [if ?b then _ else _] => destruct b; cbn
        end; auto. }
  destruct F as (F1 & F2 & F3 & F4).
  unfold Upload.handleSubmit.
  cbn [Upload.setIsValidFile Upload.setValidationMessage Upload.setIsLoading
       Upload.setError Upload.file Upload.title Upload.composer Upload.instrument
       Upload.isValidFile Upload.midiFile].
  rewrite Hu, F1, F2, F3, F4, Ht, Hc, Hi. cbn [orb].
  destruct (Upload.upload_error (Upload.hosted w) _); [left; reflexivity|].
  destruct (Upload.midiFile s1 ≫= _); [left; reflexivity|].
  destruct (Upload.insert_error (Upload.hosted w)); left; reflexivity.
Qed.

(** C4 at the failing input: a PDF of 6 MiB whose first page reads as
    notation.  The size check marks it invalid; the answer of the validator,
    which comes later, marks it valid again; the submission then uploads the
    file and inserts its record. *)
Theorem oversized_pdf_is_uploaded :
  (Upload.MAX_FILE_SIZE < Upload.size Spec.big_pdf)%N
  /\ Upload.isValidFile
       (fst (Upload.session Spec.page_world Spec.filled_form
               [Upload.Select Spec.big_pdf; Upload.Commit])) = Some false
  /\ Upload.isValidFile
       (fst (Upload.session Spec.page_world Spec.filled_form
               [Upload.Select Spec.big_pdf; Upload.Commit;
                Upload.Validated Spec.big_pdf])) = Some true
  /\ snd (Upload.session Spec.page_world Spec.filled_form Spec.choose_then_submit)
     = [Upload.StorageUpload "u1/1741082000000-sonata.pdf" Spec.big_pdf;
        Upload.InsertSheet
          (Upload.MkSheet "Sonata" "Anon" "Piano" "u1/1741082000000-sonata.pdf"
             None "pdf" "u1")].
Proof. repeat split; vm_compute; reflexivity. Qed.

(** So the rejection that the specification asks does not hold there. *)
Lemma oversized_pdf_not_rejected :
  ~ Spec.oversized_is_rejected
      (Upload.session Spec.page_world Spec.filled_form Spec.choose_then_submit).
Proof. intros [_ H]. vm_compute in H. discriminate. Qed.

(** ** The batch trigger *)

Lemma filter_nil_when_none (A : Type) (f : A -> bool) (l : list A) :
  (forall x, In x l -> f x = false) -> List.filter f l = [].
Proof.
  induction l as [|x l IH]; intros H; simpl; [reflexivity|].
  rewrite (H x) by (left; reflexivity). apply IH. intros y Hy. apply H. now right.
Qed.

Lemma pending_page_nil (w : Backend.World) :
  (forall r, In r (Backend.music_sheets w) ->
     Backend.conversion_status r <> Some Backend.pending) ->
  Edge.pending_page w = [].
Proof.
  intros H. unfold Edge.pending_page.
  rewrite filter_nil_when_none; [reflexivity|].
  intros r Hr. apply bool_decide_eq_false. now apply H.
Qed.

(** C7, as the specification words it, fails on a table without pending
    file: the answer has no [results] field. *)
Lemma no_pending_no_results :
  ~ Spec.empty_results
      (snd (Edge.serve Spec.quiet_service Spec.batch_request (Spec.world_of [Spec.song_done]))).
Proof. unfold Spec.empty_results. vm_compute. discriminate. Qed.

(** C7, amended: when the batch trigger finds no pending file it answers
    200 with the single field [message], whose text is "Nenhum arquivo
    pendente para conversão"; the answer has no [results] field, and the
    table is left as it was. *)
Theorem convert_all_without_pending
    (sv : Edge.Service) (req : Edge.Request) (w : Backend.World) :
  Edge.method req = "POST" ->
  Edge.configured sv = true ->
  Js.includes_sub "/convert-all" (Edge.pathname req) = true ->
  Edge.query_answer sv = None ->
  (forall r, In r (Backend.music_sheets w) ->
     Backend.conversion_status r <> Some Backend.pending) ->
  let answer := snd (Edge.serve sv req w) in
  Backend.status answer = 200
  /\ Backend.body answer
     = Backend.JObject
         [("message", Backend.JString "Nenhum arquivo pendente para conversão")]
  /\ Backend.field "results" (Backend.body answer) = None
  /\ Backend.music_sheets (fst (Edge.serve sv req w)) = Backend.music_sheets w.
Proof.
  intros Hm Hc Hp Hq Hn. unfold Edge.serve.
  rewrite Hm, Hc, Hp, Hq. simpl.
  rewrite pending_page_nil by exact Hn. simpl. repeat split.
Qed.

Lemma convert_all_without_pending_example :
  let answer :=
    snd (Edge.serve Spec.quiet_service Spec.batch_request (Spec.world_of [Spec.song_done])) in
  Backend.status answer = 200
  /\ Backend.body answer
     = Backend.JObject
         [("message", Backend.JString "Nenhum arquivo pendente para conversão")]
  /\ Backend.field "results" (Backend.body answer) = None
  /\ Backend.music_sheets
       (fst (Edge.serve Spec.quiet_service Spec.batch_request (Spec.world_of [Spec.song_done])))
     = Backend.music_sheets (Spec.world_of [Spec.song_done]).
Proof.
  apply (convert_all_without_pending Spec.quiet_service Spec.batch_request
           (Spec.world_of [Spec.song_done])); try reflexivity.
  intros r [<-|[]]. discriminate.
Defined.

(** ** Runs of the conversion: what a returned result tells *)

Section Runs.
Import Js Backend.

Lemma bind_inr (A B : Type) (m : M A) (f : A -> M B) (w w' : World) (b : B) :
  (m ≫= f) w = (w', inr b) ->
  exists w1 a, m w = (w1, inr a) /\ f a w1 = (w', inr b).
Proof.
  unfold mbind, M_bind. destruct (m w) as [w1 [e|a]]; intros H.
  - discriminate.
  - eauto.
Qed.

Lemma try_catch_inr (A : Type) (m : M A) (h : JsError -> M A)
    (w w' : World) (a : A) :
  (forall e w1 w2 x, h e w1 <> (w2, inr x)) ->
  try_catch m h w = (w', inr a) -> m w = (w', inr a).
Proof.
  unfold try_catch. intros Hh. destruct (m w) as [w1 [e|x]]; intros H.
  - now apply Hh in H.
  - exact H.
Qed.

Lemma throw_if_inr (answer : option JsError) (w w' : World) (u : unit) :
  throw_if answer w = (w', inr u) -> answer = None /\ w' = w.
Proof. destruct answer; simpl; intros H; inversion H; auto. Qed.

Lemma writeFile_inr (path content : string) (answer : option JsError)
    (w w' : World) (u : unit) :
  writeFile path content answer w = (w', inr u) ->
  tmp w' = <[path := content]> (tmp w) /\ bucket w' = bucket w
  /\ music_sheets w' = music_sheets w.
Proof. unfold writeFile. destruct answer; intros H; inversion H; auto. Qed.

Lemma readFile_inr (path : string) (w w' : World) (content : string) :
  readFile path w = (w', inr content) -> w' = w /\ tmp w !! path = Some content.
Proof.
  unfold readFile. destruct (tmp w !! path); intros H; inversion H; auto.
Qed.

Lemma storage_upload_inr (path content : string) (answer : option JsError)
    (w w' : World) (x : option JsError) :
  storage_upload path content answer w = (w', inr x) ->
  x = answer
  /\ (answer = None -> bucket w' = <[path := content]> (bucket w)).
Proof.
  unfold storage_upload. destruct answer; intros H; inversion H; split; auto.
  discriminate.
Qed.

Lemma update_eq_id_inr (fid : string) (f : Row -> Row) (answer : option JsError)
    (w w' : World) (x : option JsError) :
  update_eq_id fid f answer w = (w', inr x) ->
  x = answer /\ bucket w' = bucket w.
Proof. unfold update_eq_id. destruct answer; intros H; inversion H; auto. Qed.

Lemma remove_inr (dir : string) (answer : option JsError)
    (w w' : World) (u : unit) :
  remove dir answer w = (w', inr u) -> bucket w' = bucket w.
Proof. unfold remove. destruct answer; intros H; inversion H; auto. Qed.

Lemma log_inr (line : string) (w w' : World) (u : unit) :
  log line w = (w', inr u) ->
  bucket w' = bucket w /\ tmp w' = tmp w /\ music_sheets w' = music_sheets w.
Proof. unfold log. intros H; inversion H; auto. Qed.

Lemma mret_inr (A : Type) (a b : A) (w w' : World) :
  (mret a : M A) w = (w', inr b) -> b = a /\ w' = w.
Proof. intros H; inversion H; auto. Qed.

(** Neither service returns a result from its [catch]. *)
Lemma render_catch_throws (e : Env) (fid : string) (error : JsError)
    (w1 w2 : World) (x : converted) :
  (_ ← log ("Erro no processamento do arquivo: " +:+ message error);
   _ ← update_eq_id fid (set_failed (or_else (message error) "Erro desconhecido"))
         (failed_answer e);
   throw error) w1 <> (w2, inr x).
Proof.
  unfold mbind, M_bind, log, update_eq_id, throw.
  destruct (failed_answer e); discriminate.
Qed.

Lemma edge_catch_throws (e : Env) (fid : string) (error : JsError)
    (w1 w2 : World) (x : converted) :
  (_ ← update_eq_id fid (set_failed (Edge.error_text error)) (failed_answer e);
   throw error) w1 <> (w2, inr x).
Proof.
  unfold mbind, M_bind, update_eq_id, throw.
  destruct (failed_answer e); discriminate.
Qed.

Lemma edge_cleanup_bucket (dir : string) (answer : option JsError)
    (w w' : World) (u : unit) :
  try_catch (remove dir answer)
    (fun err => log ("Erro ao limpar diretório temporário: " +:+ message err)) w
  = (w', inr u) ->
  bucket w' = bucket w.
Proof.
  unfold try_catch, remove, log. destruct answer; intros H; inversion H; auto.
Qed.

End Runs.

(** ** Runs of the conversion: when a result is returned *)

Section Returns.
Import Js Backend Spec.
Context {A : Type}.

Lemma returns_bind {B : Type} (m : M B) (f : B -> M A) (w : World)
    (Q : A -> World -> Prop) :
  returns m w (fun b w1 => returns (f b) w1 Q) -> returns (m ≫= f) w Q.
Proof.
  intros (b & w1 & Hm & a & w' & Hf & HQ).
  exists a, w'. split; [|exact HQ].
  unfold mbind, M_bind. now rewrite Hm.
Qed.

Lemma returns_try_catch (m : M A) (h : JsError -> M A) (w : World)
    (Q : A -> World -> Prop) :
  returns m w Q -> returns (try_catch m h) w Q.
Proof.
  intros (a & w' & Hm & HQ). exists a, w'. split; [|exact HQ].
  unfold try_catch. now rewrite Hm.
Qed.

Lemma returns_ret (a : A) (w : World) (Q : A -> World -> Prop) :
  Q a w -> returns (mret a) w Q.
Proof. intros HQ. now exists a, w. Qed.

End Returns.

Section ReturnsOfSteps.
Import Js Backend Spec.

Lemma returns_throw_if (answer : option JsError) (w : World)
    (Q : unit -> World -> Prop) :
  answer = None -> Q tt w -> returns (throw_if answer) w Q.
Proof. intros -> HQ. now exists tt, w. Qed.

Lemma returns_log (line : string) (w : World) (Q : unit -> World -> Prop) :
  Q tt (MkWorld (music_sheets w) (bucket w) (tmp w) (console w ++ [line])) ->
  returns (log line) w Q.
Proof. intros HQ. eexists _, _. split; [reflexivity | exact HQ]. Qed.

Lemma returns_download (answer : JsError + string) (bytes : string) (w : World)
    (Q : string -> World -> Prop) :
  answer = inr bytes -> Q bytes w -> returns (storage_download answer) w Q.
Proof. intros -> HQ. now exists bytes, w. Qed.

Lemma returns_writeFile (path content : string) (answer : option JsError)
    (w : World) (Q : unit -> World -> Prop) :
  answer = None ->
  Q tt (MkWorld (music_sheets w) (bucket w) (<[path := content]> (tmp w)) (console w)) ->
  returns (writeFile path content answer) w Q.
Proof. intros -> HQ. eexists _, _. split; [reflexivity | exact HQ]. Qed.

Lemma returns_readFile (path content : string) (w : World)
    (Q : string -> World -> Prop) :
  tmp w !! path = Some content -> Q content w -> returns (readFile path) w Q.
Proof.
  intros H HQ. exists content, w. split; [|exact HQ].
  unfold readFile. now rewrite H.
Qed.

Lemma returns_upload (path content : string) (answer : option JsError)
    (w : World) (Q : option JsError -> World -> Prop) :
  answer = None ->
  Q None (MkWorld (music_sheets w) (<[path := content]> (bucket w)) (tmp w) (console w)) ->
  returns (storage_upload path content answer) w Q.
Proof. intros -> HQ. eexists _, _. split; [reflexivity | exact HQ]. Qed.

Lemma returns_update (fid : string) (f : Row -> Row) (answer : option JsError)
    (w : World) (Q : option JsError -> World -> Prop) :
  answer = None ->
  Q None (MkWorld (update_rows fid f (music_sheets w)) (bucket w) (tmp w) (console w)) ->
  returns (update_eq_id fid f answer) w Q.
Proof. intros -> HQ. eexists _, _. split; [reflexivity | exact HQ]. Qed.

Lemma returns_remove (dir : string) (w : World) (Q : unit -> World -> Prop) :
  Q tt (MkWorld (music_sheets w) (bucket w)
          (filter (fun kv => ¬ under dir kv.1) (tmp w)) (console w)) ->
  returns (remove dir None) w Q.
Proof. intros HQ. eexists _, _. split; [reflexivity | exact HQ]. Qed.

(** The cleanup of the edge function returns whatever the removal answers,
    and leaves the table and the bucket as they are. *)
Lemma returns_edge_cleanup (dir : string) (answer : option JsError) (w : World)
    (Q : unit -> World -> Prop) :
  (forall w', music_sheets w' = music_sheets w -> bucket w' = bucket w -> Q tt w') ->
  returns
    (try_catch (remove dir answer)
       (fun err => log ("Erro ao limpar diretório temporário: " +:+ message err)))
    w Q.
Proof.
  intros HQ. unfold returns, try_catch, remove, log.
  destruct answer; eexists _, _; (split; [reflexivity|]); now apply HQ.
Qed.

End ReturnsOfSteps.

Ltac bind_inv H :=
  let w := fresh "w" in
  let a := fresh "a" in
  let K := fresh "K" in
  apply bind_inr in H; destruct H as (w & a & K & H).

(** The facts that the steps which publish the document leave behind. *)
Ltac publish_facts :=
  repeat match goal with
    | H : Backend.writeFile _ _ _ _ = (_, inr _) |- _ =>
        apply writeFile_inr in H; destruct H as (? & ? & ?)
    | H : Backend.readFile _ _ = (_, inr _) |- _ =>
        apply readFile_inr in H; destruct H as (? & ?)
    | H : Backend.storage_upload _ _ _ _ = (_, inr _) |- _ =>
        apply storage_upload_inr in H; destruct H as (? & ?)
    | H : Backend.throw_if _ _ = (_, inr _) |- _ =>
        apply throw_if_inr in H; destruct H as (? & ?)
    | H : Backend.update_eq_id _ _ _ _ = (_, inr _) |- _ =>
        apply update_eq_id_inr in H; destruct H as (? & ?)
    | H : Backend.remove _ _ _ = (_, inr _) |- _ =>
        apply remove_inr in H
    | H : Backend.try_catch (Backend.remove _ _) _ _ = (_, inr _) |- _ =>
        apply edge_cleanup_bucket in H
    | H : Backend.log _ _ = (_, inr _) |- _ =>
        apply log_inr in H; destruct H as (? & ? & ?)
    | H : mret _ _ = (_, inr _) |- _ =>
        apply mret_inr in H; destruct H as (? & ?)
    end.

(** The bucket at the end holds what was written to the local file. *)
Ltac published Hb :=
  repeat match goal with
    | H : Backend.bucket _ = Backend.bucket _ |- _ => rewrite H in Hb; clear H
    end;
  match goal with
  | H : Backend.upload_answer _ = None -> _ |- _ => rewrite H in Hb by congruence
  end;
  rewrite lookup_insert_eq in Hb;
  match goal with
  | H1 : Backend.tmp ?x = _, H2 : Backend.tmp ?x !! _ = Some _ |- _ =>
      rewrite H1, lookup_insert_eq in H2; congruence
  end.

(** The document that the web service has stored when it returns is the
    template filled with the name of the file and the date. *)
Lemma render_produces (e : Backend.Env) (fid path ft : string)
    (w : Backend.World) (mei : string) :
  Spec.produces (Render.processFile e fid path ft w) mei ->
  mei = Backend.meiTemplate (Render.basename path) (Backend.isodate e).
Proof.
  intros (r & Hr & Hb).
  destruct (Render.processFile e fid path ft w) as [w' o] eqn:E.
  simpl in Hr, Hb. subst o.
  unfold Render.processFile in E.
  apply try_catch_inr in E; [|intros; apply render_catch_throws].
  cbv zeta in E.
  do 3 bind_inv E. bind_inv E. clear K K0 K1 K2.
  repeat bind_inv E.
  unfold Render.mkdir in *. publish_facts. subst. simpl in Hb.
  published Hb.
Qed.

(** The same for the edge function, with the name as it computes it. *)
Lemma edge_produces (e : Backend.Env) (fid path ft : string)
    (w : Backend.World) (mei : string) :
  Spec.produces (Edge.processFile e fid path ft w) mei ->
  mei = Backend.meiTemplate (Edge.fileName path) (Backend.isodate e).
Proof.
  intros (r & Hr & Hb).
  destruct (Edge.processFile e fid path ft w) as [w' o] eqn:E.
  simpl in Hr, Hb. subst o.
  unfold Edge.processFile in E.
  do 3 bind_inv E. clear K K0 K1.
  apply try_catch_inr in E; [|intros; apply edge_catch_throws].
  cbv zeta in E.
  do 4 bind_inv E. clear K K0 K1 K2.
  repeat bind_inv E.
  repeat match goal with
    | H : (match ?x with Some err => @?f err | None => mret () end) _ = (_, inr _) |- _ =>
        destruct x; [bind_inv H; discriminate|]
    end.
  publish_facts. subst. simpl in Hb.
  published Hb.
Qed.

(** ** The document produced *)

Lemma count_elements_no_markup (tag x rest : string) :
  Spec.no_markup x = true ->
  Spec.count_elements tag (x +:+ rest) = Spec.count_elements tag rest.
Proof.
  induction x as [|c x IH]; intros H; [reflexivity|].
  simpl in H. apply andb_prop in H as [Hc Hx].
  change (String c x +:+ rest) with (String c (x +:+ rest)).
  cbn [Spec.count_elements Spec.opens].
  apply negb_true_iff in Hc. rewrite Hc. simpl. now apply IH.
Qed.

Lemma count_measures_head (rest : string) :
  Spec.count_elements "measure" (Backend.mei_head +:+ rest)
  = Spec.count_elements "measure" rest.
Proof. vm_compute. reflexivity. Qed.

Lemma count_measures_mid (rest : string) :
  Spec.count_elements "measure" (Backend.mei_mid +:+ rest)
  = Spec.count_elements "measure" rest.
Proof. vm_compute. reflexivity. Qed.

Lemma count_measures_tail : Spec.count_elements "measure" Backend.mei_tail = 1.
Proof. vm_compute. reflexivity. Qed.

(** The template has one measure, whatever fills it. *)
Lemma meiTemplate_one_measure (fileName isodate : string) :
  Spec.no_markup fileName = true ->
  Spec.no_markup isodate = true ->
  Spec.count_elements "measure" (Backend.meiTemplate fileName isodate) = 1.
Proof.
  intros Hn Hd. unfold Backend.meiTemplate.
  rewrite count_measures_head, (count_elements_no_markup _ _ _ Hn),
    count_measures_mid, (count_elements_no_markup _ _ _ Hd).
  apply count_measures_tail.
Qed.

Lemma length_append (a b : string) :
  String.length (a +:+ b) = String.length a + String.length b.
Proof. induction a as [|c a IH]; simpl; [reflexivity | now rewrite IH]. Qed.

Lemma append_inv_tail (a b t : string) : a +:+ t = b +:+ t -> a = b.
Proof.
  revert b. induction a as [|c a IH]; intros [|d b] H.
  - reflexivity.
  - apply (f_equal String.length) in H. rewrite !length_append in H. simpl in H. lia.
  - apply (f_equal String.length) in H. rewrite !length_append in H. simpl in H. lia.
  - simpl in H. injection H as -> H. f_equal. now apply IH.
Qed.

Lemma append_inv_head (s a b : string) : s +:+ a = s +:+ b -> a = b.
Proof.
  induction s as [|c s IH]; simpl; intros H; [exact H|].
  injection H as H. now apply IH.
Qed.

(** The date can be read back from the document. *)
Lemma meiTemplate_date_inj (fileName d1 d2 : string) :
  Backend.meiTemplate fileName d1 = Backend.meiTemplate fileName d2 -> d1 = d2.
Proof.
  unfold Backend.meiTemplate. intros H.
  do 3 apply append_inv_head in H.
  now apply append_inv_tail in H.
Qed.

(** C2, as the specification words it, fails on a score of two measures: the
    document that the web service stores for it has one. *)
Lemma two_measures_become_one :
  ~ Spec.preserves_measures Spec.two_measures
      (Render.processFile (Spec.no_fault Spec.two_measures Spec.morning)
         "42" "u1/1741082000000-song.musicxml" "musicxml"
         (Spec.world_of [Spec.song])).
Proof.
  intros (mei & Hp & Hc). apply render_produces in Hp. subst mei.
  vm_compute in Hc. discriminate.
Qed.

(** C2, amended: whenever a conversion returns, by the web service or by
    the edge function, the document it has stored has exactly one measure
    element, whatever the source holds (the name of the file and the date,
    which are copied into the document, being free of markup).  The number
    of measures of the source is kept only when it is one. *)
Theorem produced_mei_has_one_measure
    (e : Backend.Env) (fid path ft : string) (w : Backend.World) (mei : string) :
  Spec.no_markup (Backend.isodate e) = true ->
  (Spec.produces (Render.processFile e fid path ft w) mei ->
   Spec.no_markup (Render.basename path) = true ->
   Spec.count_elements "measure" mei = 1)
  /\ (Spec.produces (Edge.processFile e fid path ft w) mei ->
      Spec.no_markup (Edge.fileName path) = true ->
      Spec.count_elements "measure" mei = 1).
Proof.
  intros Hd. split; intros Hp Hn.
  - apply render_produces in Hp. subst mei. now apply meiTemplate_one_measure.
  - apply edge_produces in Hp. subst mei. now apply meiTemplate_one_measure.
Qed.

Lemma render_converts_song :
  Spec.produces
    (Render.processFile (Spec.no_fault Spec.two_measures Spec.morning)
       "42" "u1/1741082000000-song.musicxml" "musicxml" (Spec.world_of [Spec.song]))
    (Backend.meiTemplate "1741082000000-song.musicxml" "2025-03-04").
Proof. eexists. split; vm_compute; reflexivity. Qed.

Lemma edge_converts_song :
  Spec.produces
    (Edge.processFile (Spec.no_fault Spec.two_measures Spec.morning)
       "42" "u1/1741082000000-song.musicxml" "musicxml" (Spec.world_of [Spec.song]))
    (Backend.meiTemplate "1741082000000-song.musicxml" "2025-03-04").
Proof. eexists. split; vm_compute; reflexivity. Qed.

Lemma produced_mei_has_one_measure_example :
  Spec.count_elements "measure" Spec.two_measures = 2
  /\ Spec.count_elements "measure"
       (Backend.meiTemplate "1741082000000-song.musicxml" "2025-03-04") = 1.
Proof.
  split; [vm_compute; reflexivity|].
  apply (produced_mei_has_one_measure
           (Spec.no_fault Spec.two_measures Spec.morning)
           "42" "u1/1741082000000-song.musicxml" "musicxml"
           (Spec.world_of [Spec.song])); [reflexivity | | reflexivity].
  exact render_converts_song.
Defined.

(** C6, as the specification words it, fails when the two conversions of
    the same stored file fall on two days: the second document differs from
    the first in its date. *)
Lemma next_day_other_bytes :
  ~ Spec.same_output
      (Render.processFile (Spec.no_fault Spec.two_measures Spec.morning)
         "42" "u1/1741082000000-song.musicxml" "musicxml"
         (Spec.world_of [Spec.song]))
      (Render.processFile (Spec.no_fault Spec.two_measures Spec.next_day)
         "42" "u1/1741082000000-song.musicxml" "musicxml"
         (Spec.world_of [Spec.song])).
Proof.
  intros (mei & H1 & H2).
  apply render_produces in H1. apply render_produces in H2.
  rewrite H1 in H2. apply meiTemplate_date_inj in H2.
  vm_compute in H2. discriminate.
Qed.

(** C6, amended: two conversions of the same stored file that return, by
    the same service, store the same bytes if and only if they read the same
    date (the first ten characters of the ISO time) from the clock, whatever
    the state of the table, of the bucket and of the local files. *)
Theorem same_file_same_date_same_bytes
    (e1 e2 : Backend.Env) (fid path ft : string) (w1 w2 : Backend.World)
    (m1 m2 : string) :
  (Spec.produces (Render.processFile e1 fid path ft w1) m1 ->
   Spec.produces (Render.processFile e2 fid path ft w2) m2 ->
   (m1 = m2 <-> Backend.isodate e1 = Backend.isodate e2))
  /\ (Spec.produces (Edge.processFile e1 fid path ft w1) m1 ->
      Spec.produces (Edge.processFile e2 fid path ft w2) m2 ->
      (m1 = m2 <-> Backend.isodate e1 = Backend.isodate e2)).
Proof.
  split; intros H1 H2.
  - apply render_produces in H1. apply render_produces in H2. subst m1 m2.
    split; [apply meiTemplate_date_inj | now intros ->].
  - apply edge_produces in H1. apply edge_produces in H2. subst m1 m2.
    split; [apply meiTemplate_date_inj | now intros ->].
Qed.

Lemma same_file_same_date_same_bytes_example :
  Backend.meiTemplate "1741082000000-song.musicxml" "2025-03-04"
  = Backend.meiTemplate "1741082000000-song.musicxml" "2025-03-04"
  <-> Backend.isodate (Spec.no_fault Spec.two_measures Spec.morning)
      = Backend.isodate (Spec.no_fault Spec.two_measures Spec.morning).
Proof.
  apply (proj1 (same_file_same_date_same_bytes
                  (Spec.no_fault Spec.two_measures Spec.morning)
                  (Spec.no_fault Spec.two_measures Spec.morning)
                  "42" "u1/1741082000000-song.musicxml" "musicxml"
                  (Spec.world_of [Spec.song]) (Spec.world_of [Spec.song])
                  _ _)).
  - exact render_converts_song.
  - exact render_converts_song.
Defined.

(** One step of a run that returns. *)
Ltac run_step :=
  cbv beta iota zeta;
  cbn [Backend.music_sheets Backend.bucket Backend.tmp Backend.console];
  lazymatch goal with
  | |- Spec.returns (mbind _ _) _ _ => apply returns_bind
  | |- Spec.returns (mret _) _ _ => apply returns_ret
  | |- Spec.returns (Backend.log _) _ _ => apply returns_log
  | |- Spec.returns (Backend.throw_if _) _ _ =>
      apply returns_throw_if; [solve [assumption | reflexivity]|]
  | |- Spec.returns (Backend.storage_download _) _ _ =>
      eapply returns_download; [solve [eassumption | reflexivity]|]
  | |- Spec.returns (Backend.writeFile _ _ _) _ _ =>
      apply returns_writeFile; [solve [auto]|]
  | |- Spec.returns (Backend.readFile _) _ _ =>
      eapply returns_readFile; [cbn [Backend.tmp]; apply lookup_insert_eq|]
  | |- Spec.returns (Backend.storage_upload _ _ _) _ _ =>
      apply returns_upload; [assumption|]
  | |- Spec.returns (Backend.update_eq_id _ _ _) _ _ =>
      apply returns_update; [assumption|]
  | |- Spec.returns (Backend.remove _ None) _ _ => apply returns_remove
  | |- Spec.returns (Backend.try_catch (Backend.remove _ _) _) _ _ =>
      apply returns_edge_cleanup; intros
  end.

(** When the hosted services answer without error, the web service converts
    every file of an extension it knows, whatever the bytes, and stores the
    template filled with the name and the date. *)
Lemma render_returns (bytes : string) (e : Backend.Env) (fid path ft : string)
    (w : Backend.World) :
  Spec.answers bytes e ->
  Backend.remove_answer e = None ->
  Spec.render_converts path = true ->
  Spec.produces (Render.processFile e fid path ft w)
    (Backend.meiTemplate (Render.basename path) (Backend.isodate e)).
Proof.
  intros (Hp & Hd & Hm & Hw & Hu & Hc) Hr Hx.
  cut (Spec.returns (Render.processFile e fid path ft) w
         (fun r w' => Backend.bucket w' !! Backend.res_mei_url r
                      = Some (Backend.meiTemplate (Render.basename path)
                                (Backend.isodate e)))).
  { intros (r & w' & E & H). exists r. rewrite E. now split. }
  unfold Render.processFile, Render.mkdir.
  apply returns_try_catch. rewrite Hr.
  unfold Spec.render_converts in Hx. cbv zeta in Hx.
  do 6 run_step.
  destruct (String.eqb _ "pdf").
  - repeat run_step. cbn [Backend.bucket Backend.res_mei_url]. apply lookup_insert_eq.
  - cbn [orb] in Hx. rewrite Hx.
    repeat run_step. cbn [Backend.bucket Backend.res_mei_url]. apply lookup_insert_eq.
Qed.

(** The same for the edge function, which moreover returns whatever the
    creation and the removal of the work directory answer. *)
Lemma edge_returns (bytes : string) (e : Backend.Env) (fid path ft : string)
    (w : Backend.World) :
  Backend.processing_answer e = None ->
  Backend.download_answer e = inr bytes ->
  (forall p, Backend.write_answer e p = None) ->
  Backend.upload_answer e = None ->
  Backend.completed_answer e = None ->
  Spec.edge_converts path = true ->
  Spec.produces (Edge.processFile e fid path ft w)
    (Backend.meiTemplate (Edge.fileName path) (Backend.isodate e)).
Proof.
  intros Hp Hd Hw Hu Hc Hx.
  cut (Spec.returns (Edge.processFile e fid path ft) w
         (fun r w' => Backend.bucket w' !! Backend.res_mei_url r
                      = Some (Backend.meiTemplate (Edge.fileName path)
                                (Backend.isodate e)))).
  { intros (r & w' & E & H). exists r. rewrite E. now split. }
  unfold Edge.processFile.
  unfold Spec.edge_converts in Hx. cbv zeta in Hx.
  do 6 run_step.
  apply returns_try_catch. rewrite Hd.
  do 3 run_step.
  destruct (Backend.mkdir_answer e); run_step; do 3 run_step.
  all: destruct (String.eqb _ "pdf");
    [|cbn [orb] in Hx; destruct (Js.includes _ _);
      [|cbn [orb] in Hx; rewrite Hx]].
  all: repeat run_step.
  all: cbv beta; cbn [Backend.res_mei_url];
    match goal with H : Backend.bucket _ = _ |- _ => rewrite H end;
    cbn [Backend.bucket]; apply lookup_insert_eq.
Qed.

(** ** The document and the bytes of the file *)

(** C10: two files of the same name converted on the same date give the
    same document, whatever their bytes, their identifiers, their
    directories and the state of the service: the document is the template
    filled with that name and that date.  And when the hosted services
    answer without error, both conversions do return and store it, whatever
    the bytes. *)
Theorem mei_depends_on_name_and_date
    (e1 e2 : Backend.Env) (fid1 fid2 path1 path2 ft1 ft2 : string)
    (w1 w2 : Backend.World) :
  Backend.isodate e1 = Backend.isodate e2 ->
  (Render.basename path1 = Render.basename path2 ->
   (forall m1 m2,
      Spec.produces (Render.processFile e1 fid1 path1 ft1 w1) m1 ->
      Spec.produces (Render.processFile e2 fid2 path2 ft2 w2) m2 ->
      m1 = m2
      /\ m1 = Backend.meiTemplate (Render.basename path1) (Backend.isodate e1))
   /\ (forall bytes1 bytes2,
         Spec.answers bytes1 e1 -> Backend.remove_answer e1 = None ->
         Spec.answers bytes2 e2 -> Backend.remove_answer e2 = None ->
         Spec.render_converts path1 = true ->
         Spec.same_output (Render.processFile e1 fid1 path1 ft1 w1)
           (Render.processFile e2 fid2 path2 ft2 w2)))
  /\ (Edge.fileName path1 = Edge.fileName path2 ->
      (forall m1 m2,
         Spec.produces (Edge.processFile e1 fid1 path1 ft1 w1) m1 ->
         Spec.produces (Edge.processFile e2 fid2 path2 ft2 w2) m2 ->
         m1 = m2
         /\ m1 = Backend.meiTemplate (Edge.fileName path1) (Backend.isodate e1))
      /\ (forall bytes1 bytes2,
            Spec.answers bytes1 e1 -> Spec.answers bytes2 e2 ->
            Spec.edge_converts path1 = true ->
            Spec.same_output (Edge.processFile e1 fid1 path1 ft1 w1)
              (Edge.processFile e2 fid2 path2 ft2 w2))).
Proof.
  intros Hd. split; intros Hn; split.
  - intros m1 m2 H1 H2.
    apply render_produces in H1. apply render_produces in H2.
    subst m1 m2. now rewrite Hn, Hd.
  - intros bytes1 bytes2 A1 R1 A2 R2 Hx.
    exists (Backend.meiTemplate (Render.basename path1) (Backend.isodate e1)).
    split; [now apply (render_returns bytes1)|].
    rewrite Hn, Hd. apply (render_returns bytes2); try assumption.
    unfold Spec.render_converts in *. now rewrite <- Hn.
  - intros m1 m2 H1 H2.
    apply edge_produces in H1. apply edge_produces in H2.
    subst m1 m2. now rewrite Hn, Hd.
  - intros bytes1 bytes2 A1 A2 Hx.
    destruct A1 as (? & ? & ? & ? & ? & ?), A2 as (? & ? & ? & ? & ? & ?).
    exists (Backend.meiTemplate (Edge.fileName path1) (Backend.isodate e1)).
    split; [now apply (edge_returns bytes1)|].
    rewrite Hn, Hd. apply (edge_returns bytes2); try assumption.
    unfold Spec.edge_converts in *. now rewrite <- Hn.
Qed.

Lemma mei_depends_on_name_and_date_example :
  Spec.two_measures <> Spec.one_note
  /\ Spec.same_output
       (Edge.processFile (Spec.no_fault Spec.two_measures Spec.morning)
          "42" "u1/1741082000000-song.musicxml" "musicxml"
          (Spec.world_of [Spec.song]))
       (Edge.processFile (Spec.no_fault Spec.one_note "2025-03-04T23:59:59.999Z")
          "77" "u2/1741082000000-song.musicxml" "musicxml"
          (Spec.world_of [Spec.song; Spec.other_song])).
Proof.
  split; [vm_compute; discriminate|].
  apply (proj2 (proj2 (mei_depends_on_name_and_date
                  (Spec.no_fault Spec.two_measures Spec.morning)
                  (Spec.no_fault Spec.one_note "2025-03-04T23:59:59.999Z")
                  "42" "77" "u1/1741082000000-song.musicxml"
                  "u2/1741082000000-song.musicxml" "musicxml" "musicxml"
                  (Spec.world_of [Spec.song])
                  (Spec.world_of [Spec.song; Spec.other_song])
                  eq_refl) eq_refl) Spec.two_measures Spec.one_note).
  - repeat split.
  - repeat split.
  - reflexivity.
Defined.

(** ** Failure of the cleanup *)

Section SameOutcome.
Import Js Backend Spec.

Lemma same_outcome_refl (A : Type) (o : World * (JsError + A)) : same_outcome o o.
Proof. repeat split. Qed.

Lemma same_outcome_bind (A B : Type) (m : M A) (f g : A -> M B) (w : World) :
  (forall a w1, same_outcome (f a w1) (g a w1)) ->
  same_outcome ((m ≫= f) w) ((m ≫= g) w).
Proof.
  intros H. unfold mbind, M_bind. destruct (m w) as [w1 [e|a]].
  - apply same_outcome_refl.
  - apply H.
Qed.

(** The [catch] of the edge function writes the same to the table from two
    worlds that agree on it. *)
Lemma same_outcome_edge_catch (A : Type) (m1 m2 : M A) (e : Env) (fid : string)
    (w : World) :
  same_outcome (m1 w) (m2 w) ->
  same_outcome
    (try_catch m1
       (fun error =>
          _ ← update_eq_id fid (set_failed (Edge.error_text error)) (failed_answer e);
          throw error) w)
    (try_catch m2
       (fun error =>
          _ ← update_eq_id fid (set_failed (Edge.error_text error)) (failed_answer e);
          throw error) w).
Proof.
  unfold same_outcome, try_catch, mbind, M_bind, update_eq_id, throw.
  destruct (m1 w) as [w1 [e1|a1]], (m2 w) as [w2 [e2|a2]]; simpl;
    intros (Hs & Hb & Hr); try discriminate.
  - injection Hr as ->. destruct (failed_answer e); simpl; rewrite ?Hs; auto.
  - auto.
Qed.

(** The last step of the edge function: whatever the removal answers, the
    result is returned, and the table and the bucket are not touched. *)
Lemma same_outcome_edge_cleanup (dir : string) (a1 a2 : option JsError)
    (r : converted) (w : World) :
  same_outcome
    ((_ ← try_catch (remove dir a1)
            (fun err => log ("Erro ao limpar diretório temporário: " +:+ message err));
      mret r) w)
    ((_ ← try_catch (remove dir a2)
            (fun err => log ("Erro ao limpar diretório temporário: " +:+ message err));
      mret r) w).
Proof. destruct a1, a2; repeat split. Qed.

End SameOutcome.

(** In the edge function the answer to the removal of the work directory
    changes neither the table, nor the bucket, nor what the run returns or
    throws: an error there is logged and nothing else. *)
Lemma edge_cleanup_only_logged (a : option Backend.JsError) (e : Backend.Env)
    (fid path ft : string) (w : Backend.World) :
  Spec.same_outcome (Edge.processFile e fid path ft w)
    (Edge.processFile (Spec.with_remove_answer a e) fid path ft w).
Proof.
  unfold Edge.processFile, Spec.with_remove_answer, Backend.isodate.
  cbn [Backend.processing_answer Backend.download_answer Backend.mkdir_answer
       Backend.write_answer Backend.toISOString Backend.upload_answer
       Backend.publicUrl Backend.completed_answer Backend.remove_answer
       Backend.failed_answer].
  do 3 (apply same_outcome_bind; intros).
  apply same_outcome_edge_catch. cbv zeta.
  do 11 (apply same_outcome_bind; intros).
  apply same_outcome_edge_cleanup.
Qed.

Section CleanupOfTheWebService.
Import Js Backend Spec.

Lemma throws_instead_bind (A B : Type) (err : JsError) (m : M A) (f g : A -> M B)
    (w : World) :
  (forall a w1, throws_instead err (f a w1) (g a w1)) ->
  throws_instead err ((m ≫= f) w) ((m ≫= g) w).
Proof.
  intros H. unfold mbind, M_bind. destruct (m w) as [w1 [e|a]].
  - intros r Hr. discriminate Hr.
  - apply H.
Qed.

Lemma throws_instead_remove (A : Type) (err : JsError) (dir : string) (r : A)
    (w : World) :
  throws_instead err ((_ ← remove dir None; mret r) w)
    ((_ ← remove dir (Some err); mret r) w).
Proof. intros r' _. repeat split. Qed.

(** In the web service the removal of the work directory is inside the
    [try]: whenever a conversion returns, the same conversion in which the
    removal alone fails reaches the same table and the same bucket, then
    marks the records of the file as failed, with the error of the removal,
    and throws it. *)
Lemma render_cleanup_failure (err : JsError) (e : Env) (fid path ft : string)
    (w w1 : World) (r : converted) :
  remove_answer e = None ->
  failed_answer e = None ->
  Render.processFile e fid path ft w = (w1, inr r) ->
  snd (Render.processFile (with_remove_answer (Some err) e) fid path ft w) = inl err
  /\ music_sheets (fst (Render.processFile (with_remove_answer (Some err) e) fid path ft w))
     = update_rows fid (set_failed (or_else (message err) "Erro desconhecido"))
         (music_sheets w1)
  /\ bucket (fst (Render.processFile (with_remove_answer (Some err) e) fid path ft w))
     = bucket w1.
Proof.
  intros Hr Hf E.
  unfold Render.processFile, with_remove_answer, isodate in *.
  cbn [processing_answer download_answer mkdir_answer write_answer toISOString
       upload_answer publicUrl completed_answer remove_answer failed_answer].
  apply try_catch_inr in E; [|intros; apply render_catch_throws].
  rewrite Hr in E. rewrite Hf.
  match goal with
  | E : ?body w = (w1, inr r) |- context [try_catch ?body' _ w] =>
      assert (T : throws_instead err (body w) (body' w))
        by (cbv zeta; repeat (apply throws_instead_bind; intros);
            apply throws_instead_remove);
      rewrite E in T; destruct (T r eq_refl) as (T1 & T2 & T3);
      unfold try_catch; destruct (body' w) as [w2 o]
  end.
  cbn [fst snd] in *. subst o.
  unfold mbind, M_bind, log, update_eq_id, throw. cbn [fst snd music_sheets bucket].
  now rewrite T2, T3.
Qed.

End CleanupOfTheWebService.

(** C9 at the failing input: the web service converts a file, every hosted
    service answers without error, and the removal of the work directory
    fails.  The document is in the bucket and the record has received its
    address, yet the record ends as failed, with the error of the removal as
    its message.  The edge function, in the same conditions, leaves the
    record completed. *)
Theorem render_cleanup_failure_marks_failed :
  let after :=
    fst (Render.post_convert Spec.cleanup_fails Spec.convert_song
           (Spec.world_of [Spec.song])) in
  Backend.music_sheets after
  = [Backend.MkRow "42" "u1/1741082000000-song.musicxml" "musicxml"
       (Some Backend.failed)
       (Some "EBUSY: resource busy or locked, rmdir 'temp/42'")
       (Some "u1/1741082000000-song.mei")
       (Some "https://cdn.example/music-sheets/u1/song.mei")]
  /\ Backend.bucket after !! "u1/1741082000000-song.mei"
     = Some (Backend.meiTemplate "1741082000000-song.musicxml" "2025-03-04")
  /\ Backend.statuses "42"
       (fst (Edge.processFile Spec.cleanup_fails "42"
               "u1/1741082000000-song.musicxml" "musicxml"
               (Spec.world_of [Spec.song])))
     = [Some Backend.completed].
Proof. repeat split; vm_compute; reflexivity. Qed.

(** So the cleanup is not harmless in the web service. *)
Lemma render_cleanup_not_harmless :
  ~ Spec.cleanup_is_harmless "42"
      (fst (Render.post_convert Spec.cleanup_fails Spec.convert_song
              (Spec.world_of [Spec.song]))).
Proof.
  unfold Spec.cleanup_is_harmless. intros H.
  apply Forall_inv in H. vm_compute in H. discriminate.
Qed.

(** ** The status of a record through a conversion *)

Section Preservation.
Import Js Backend Spec.

Lemma preserves_bind (A B : Type) (P : World -> Prop) (m : M A) (f : A -> M B) :
  preserves P m -> (forall a, preserves P (f a)) -> preserves P (m ≫= f).
Proof.
  intros Hm Hf w Hw. specialize (Hm w Hw).
  unfold mbind, M_bind. destruct (m w) as [w1 [e|a]]; [exact Hm|].
  now apply Hf.
Qed.

Lemma preserves_try_catch (A : Type) (P : World -> Prop) (m : M A)
    (h : JsError -> M A) :
  preserves P m -> (forall e, preserves P (h e)) -> preserves P (try_catch m h).
Proof.
  intros Hm Hh w Hw. specialize (Hm w Hw).
  unfold try_catch. destruct (m w) as [w1 [e|a]]; [|exact Hm].
  now apply Hh.
Qed.

(** The steps that do not write to the table. *)
Lemma preserves_aside (A : Type) (P : World -> Prop) (m : M A) :
  table_only P ->
  (forall w, music_sheets (fst (m w)) = music_sheets w) ->
  preserves P m.
Proof. intros HP Hm w Hw. now apply (HP w). Qed.

Lemma aside_ret (A : Type) (a : A) (w : World) :
  music_sheets (fst ((mret a : M A) w)) = music_sheets w.
Proof. reflexivity. Qed.

Lemma aside_throw (A : Type) (e : JsError) (w : World) :
  music_sheets (fst ((throw e : M A) w)) = music_sheets w.
Proof. reflexivity. Qed.

Lemma aside_throw_if (a : option JsError) (w : World) :
  music_sheets (fst (throw_if a w)) = music_sheets w.
Proof. now destruct a. Qed.

Lemma aside_log (line : string) (w : World) :
  music_sheets (fst (log line w)) = music_sheets w.
Proof. reflexivity. Qed.

Lemma aside_download (a : JsError + string) (w : World) :
  music_sheets (fst (storage_download a w)) = music_sheets w.
Proof. now destruct a. Qed.

Lemma aside_upload (path content : string) (a : option JsError) (w : World) :
  music_sheets (fst (storage_upload path content a w)) = music_sheets w.
Proof. now destruct a. Qed.

Lemma aside_writeFile (path content : string) (a : option JsError) (w : World) :
  music_sheets (fst (writeFile path content a w)) = music_sheets w.
Proof. now destruct a. Qed.

Lemma aside_readFile (path : string) (w : World) :
  music_sheets (fst (readFile path w)) = music_sheets w.
Proof. unfold readFile. now destruct (tmp w !! path). Qed.

Lemma aside_remove (dir : string) (a : option JsError) (w : World) :
  music_sheets (fst (remove dir a w)) = music_sheets w.
Proof. now destruct a. Qed.

(** *** Updates of the records of one file *)

Lemma update_rows_ids (fid : string) (f : Row -> Row) (rows : list Row) :
  (forall r, id (f r) = id r) ->
  map id (update_rows fid f rows) = map id rows.
Proof.
  intros Hf. unfold update_rows. induction rows as [|r rows IH]; simpl; [reflexivity|].
  rewrite IH. destruct (String.eqb (id r) fid); now rewrite ?Hf.
Qed.

Lemma update_rows_others (fid : string) (f : Row -> Row) (rows : list Row) :
  (forall r, id (f r) = id r) ->
  List.filter (other fid) (update_rows fid f rows) = List.filter (other fid) rows.
Proof.
  intros Hf. unfold update_rows, other.
  induction rows as [|r rows IH]; simpl; [reflexivity|].
  destruct (String.eqb (id r) fid) eqn:E.
  - rewrite Hf, E. simpl. exact IH.
  - rewrite E. simpl. now rewrite IH.
Qed.

Lemma update_rows_statuses (fid : string) (f : Row -> Row) (rows : list Row)
    (Q : option Status -> Prop) :
  (forall r, id (f r) = id r) ->
  (forall r, Q (conversion_status (f r))) ->
  Forall Q (map conversion_status
              (List.filter (fun r => String.eqb (id r) fid) (update_rows fid f rows))).
Proof.
  intros Hf HQ. unfold update_rows.
  induction rows as [|r rows IH]; simpl; [constructor|].
  destruct (String.eqb (id r) fid) eqn:E.
  - rewrite Hf, E. simpl. constructor; [apply HQ | exact IH].
  - rewrite E. exact IH.
Qed.

Lemma table_only_untouched (fid : string) (w0 : World) : table_only (untouched fid w0).
Proof. intros w w' E. unfold untouched. now rewrite E. Qed.

Lemma table_only_tracked (fid : string) (w0 : World) : table_only (tracked fid w0).
Proof. intros w w' E. unfold tracked, untouched, statuses. now rewrite E. Qed.

(** An update of the file that keeps the identifier and sets a status
    among processing, completed and failed makes or keeps the file
    tracked; a refused update changes nothing. *)
Lemma update_tracks (fid : string) (f : Row -> Row) (a : option JsError)
    (w0 w : World) :
  (forall r, id (f r) = id r) ->
  (forall r, started (conversion_status (f r))) ->
  untouched fid w0 w ->
  a = None ->
  tracked fid w0 (fst (update_eq_id fid f a w)).
Proof.
  intros Hid Hst (Hi & Ho) ->. unfold update_eq_id, tracked, untouched, statuses. simpl.
  rewrite update_rows_ids, update_rows_others by exact Hid.
  repeat split; [exact Hi | exact Ho |].
  now apply update_rows_statuses.
Qed.

Lemma preserves_update (fid : string) (f : Row -> Row) (a : option JsError)
    (w0 : World) :
  (forall r, id (f r) = id r) ->
  (forall r, started (conversion_status (f r))) ->
  preserves (tracked fid w0) (update_eq_id fid f a).
Proof.
  intros Hid Hst w Hw. destruct a as [e|].
  - exact Hw.
  - apply update_tracks; auto. apply Hw.
Qed.

Lemma set_completed_started (url : string) (public : option string) (r : Row) :
  started (conversion_status (set_completed url public r)).
Proof. right; left; reflexivity. Qed.

Lemma set_failed_started (msg : string) (r : Row) :
  started (conversion_status (set_failed msg r)).
Proof. right; right; reflexivity. Qed.

Lemma set_processing_started (r : Row) :
  started (conversion_status (set_processing r)).
Proof. left; reflexivity. Qed.

End Preservation.

(** One step of a proof that a run keeps a property of the table. *)
Ltac keep_step :=
  cbv beta zeta;
  lazymatch goal with
  | |- Spec.preserves _ (mbind _ _) => apply preserves_bind; [|intros]
  | |- Spec.preserves _ (Backend.try_catch _ _) => apply preserves_try_catch; [|intros]
  | |- Spec.preserves _ (Backend.update_eq_id _ _ _) =>
      apply preserves_update;
      [ reflexivity
      | first [ apply set_completed_started | apply set_failed_started
              | apply set_processing_started ] ]
  | |- Spec.preserves _ (if ?b then _ else _) => destruct b
  | |- Spec.preserves _ (match ?x with _ => _ end) => destruct x
  | |- Spec.preserves _ _ =>
      apply preserves_aside;
      [ apply table_only_tracked
      | first [ apply aside_ret | apply aside_throw | apply aside_throw_if
              | apply aside_log | apply aside_download | apply aside_upload
              | apply aside_writeFile | apply aside_readFile | apply aside_remove ] ]
  end.

(** Once the records of a file are in progress, a conversion by the web
    service leaves them in progress, completed or failed, and touches no
    other record. *)
Lemma render_processFile_tracks (e : Backend.Env) (fid path ft : string)
    (w0 : Backend.World) :
  Spec.preserves (Spec.tracked fid w0) (Render.processFile e fid path ft).
Proof. unfold Render.processFile, Render.mkdir. repeat keep_step. Qed.

(** The edge function puts the records of the file in progress itself, then
    leaves them in progress, completed or failed. *)
Lemma edge_processFile_tracks (e : Backend.Env) (fid path ft : string)
    (w0 w : Backend.World) :
  Backend.processing_answer e = None ->
  Spec.untouched fid w0 w ->
  Spec.tracked fid w0 (fst (Edge.processFile e fid path ft w)).
Proof.
  intros Hp Hw. unfold Edge.processFile.
  unfold mbind at 1 2. unfold Backend.M_bind at 1 2.
  unfold Backend.log at 1. unfold Backend.update_eq_id at 1. rewrite Hp.
  match goal with
  | |- Spec.tracked _ _ (fst (?m ?w1)) =>
      cut (Spec.preserves (Spec.tracked fid w0) m);
      [ intros K; apply K | repeat keep_step ]
  end.
  change (Spec.tracked fid w0
            (fst (Backend.update_eq_id fid Backend.set_processing None
                    (fst (Backend.log
                            ("Iniciando conversão para MEI. ID: " +:+ fid
                             +:+ ", Caminho: " +:+ path +:+ ", Tipo: " +:+ ft) w))))).
  apply update_tracks; [reflexivity | apply set_processing_started | | reflexivity].
  exact Hw.
Qed.

(** C1, as the specification words it, fails on a record that is completed:
    a request to convert the same file puts that record back in progress,
    and creates no other. *)
Lemma completed_goes_back_to_processing :
  ~ Spec.keeps_terminal "42" (Spec.world_of [Spec.song_done])
      (fst (Render.post_convert_respond (Spec.no_fault Spec.two_measures Spec.morning)
              Spec.convert_song (Spec.world_of [Spec.song_done]))).
Proof.
  intros H.
  specialize (H Spec.song_done Backend.completed (or_introl eq_refl) eq_refl eq_refl eq_refl).
  vm_compute in H. destruct H as [H|[]]. discriminate H.
Qed.

(** C1, amended: a request to convert a file, when the table accepts the
    update, puts every record of that file in progress whatever its status
    was, completed and failed included; it creates no record and leaves the
    records of the other files as they were.  From there the conversion, by
    the web service or by the edge function, leaves the records of the file
    in progress, completed or failed, never pending again. *)
Theorem convert_restarts_any_status
    (e : Backend.Env) (req : Backend.ConversionRequest) (w : Backend.World) :
  String.eqb (Backend.fileId req) "" = false ->
  String.eqb (Backend.filePath req) "" = false ->
  Backend.processing_answer e = None ->
  Backend.status (snd (Render.post_convert_respond e req w)) = 200
  /\ Spec.untouched (Backend.fileId req) w (fst (Render.post_convert_respond e req w))
  /\ Forall (fun s => s = Some Backend.processing)
       (Backend.statuses (Backend.fileId req) (fst (Render.post_convert_respond e req w)))
  /\ Spec.tracked (Backend.fileId req) w (fst (Render.post_convert e req w))
  /\ Spec.tracked (Backend.fileId req) w
       (fst (Edge.processFile e (Backend.fileId req) (Backend.filePath req)
               (Backend.fileType req) w)).
Proof.
  intros Hi Hp Ha.
  assert (U : Spec.untouched (Backend.fileId req) w w) by (split; reflexivity).
  assert (R : Render.post_convert_respond e req w
              = (fst (Backend.update_eq_id (Backend.fileId req) Backend.set_processing None w),
                 Backend.MkResponse 200
                   (Backend.JObject
                      [("success", Backend.JBool true);
                       ("message", Backend.JString "Processo de conversão iniciado com sucesso");
                       ("fileId", Backend.JString (Backend.fileId req));
                       ("status", Backend.JString "processing")]))).
  { unfold Render.post_convert_respond. rewrite Hi, Hp, Ha. reflexivity. }
  assert (T : Spec.tracked (Backend.fileId req) w
                (fst (Backend.update_eq_id (Backend.fileId req) Backend.set_processing None w))).
  { apply update_tracks; [reflexivity | apply set_processing_started | exact U | reflexivity]. }
  split; [|split; [|split; [|split]]].
  - now rewrite R.
  - rewrite R. apply T.
  - rewrite R. unfold Backend.statuses. cbn [fst Backend.update_eq_id Backend.music_sheets].
    now apply update_rows_statuses.
  - unfold Render.post_convert. rewrite R. cbn [Backend.status Nat.eqb fst].
    unfold Render.post_convert_background.
    pose proof (render_processFile_tracks e (Backend.fileId req) (Backend.filePath req)
                  (Backend.fileType req) w _ T) as K.
    destruct (Render.processFile e (Backend.fileId req) (Backend.filePath req)
                (Backend.fileType req) _) as [w' [err|r]]; cbn [fst] in K.
    + pose proof (preserves_update (Backend.fileId req)
                    (Backend.set_failed
                       (Js.or_else (Backend.message err)
                          "Erro desconhecido durante a conversão"))
                    (Backend.refailed_answer e) w (fun _ => eq_refl)
                    (set_failed_started _)) as F.
      match goal with
      | |- context [Backend.log ?line w'] =>
          assert (K' : Spec.tracked (Backend.fileId req) w (fst (Backend.log line w')))
            by (apply (table_only_tracked _ _ w'); [reflexivity | exact K])
      end.
      apply F in K'. clear R T.
      destruct (Backend.update_eq_id _ _ _ _) as [w2 o]. cbn [fst] in K'.
      apply (table_only_tracked _ _ w2); [reflexivity | exact K'].
    + apply (table_only_tracked _ _ w'); [reflexivity | exact K].
  - now apply edge_processFile_tracks.
Qed.

Lemma convert_restarts_any_status_example :
  Backend.status
    (snd (Render.post_convert_respond (Spec.no_fault Spec.two_measures Spec.morning)
            Spec.convert_song (Spec.world_of [Spec.song_done]))) = 200
  /\ Spec.untouched "42" (Spec.world_of [Spec.song_done])
       (fst (Render.post_convert_respond (Spec.no_fault Spec.two_measures Spec.morning)
               Spec.convert_song (Spec.world_of [Spec.song_done])))
  /\ Forall (fun s => s = Some Backend.processing)
       (Backend.statuses "42"
          (fst (Render.post_convert_respond (Spec.no_fault Spec.two_measures Spec.morning)
                  Spec.convert_song (Spec.world_of [Spec.song_done]))))
  /\ Spec.tracked "42" (Spec.world_of [Spec.song_done])
       (fst (Render.post_convert (Spec.no_fault Spec.two_measures Spec.morning)
               Spec.convert_song (Spec.world_of [Spec.song_done])))
  /\ Spec.tracked "42" (Spec.world_of [Spec.song_done])
       (fst (Edge.processFile (Spec.no_fault Spec.two_measures Spec.morning)
               "42" "u1/1741082000000-song.musicxml" "musicxml"
               (Spec.world_of [Spec.song_done]))).
Proof.
  apply (convert_restarts_any_status (Spec.no_fault Spec.two_measures Spec.morning)
           Spec.convert_song (Spec.world_of [Spec.song_done])); reflexivity.
Defined.

(** ** What a run leaves behind

    The table, the bucket and the local files after a run that has
    returned, and the table after a run that has thrown. *)

Import Form Outcome.

Section RunsAndTable.
Import Js Backend.

Lemma try_catch_inl (A : Type) (m : M A) (h : JsError -> M A)
    (w w' : World) (err : JsError) :
  try_catch m h w = (w', inl err) ->
  exists w1 e1, m w = (w1, inl e1) /\ h e1 w1 = (w', inl err).
Proof.
  unfold try_catch. destruct (m w) as [w1 [e1|x]]; intros H.
  - eauto.
  - discriminate.
Qed.

Lemma bind_inl (A B : Type) (m : M A) (f : A -> M B) (w w' : World) (err : JsError) :
  (m ≫= f) w = (w', inl err) ->
  m w = (w', inl err) \/ exists w1 a, m w = (w1, inr a) /\ f a w1 = (w', inl err).
Proof.
  unfold mbind, M_bind. destruct (m w) as [w1 [e1|a]]; intros H.
  - left. injection H as -> ->. reflexivity.
  - right. eauto.
Qed.

Lemma storage_download_inr (answer : JsError + string) (w w' : World) (bytes : string) :
  storage_download answer w = (w', inr bytes) -> answer = inr bytes /\ w' = w.
Proof. destruct answer; intros H; inversion H; auto. Qed.

Lemma storage_upload_keeps (path content : string) (answer : option JsError)
    (w w' : World) (x : option JsError) :
  storage_upload path content answer w = (w', inr x) ->
  music_sheets w' = music_sheets w /\ tmp w' = tmp w.
Proof. unfold storage_upload. destruct answer; intros H; inversion H; auto. Qed.

Lemma update_eq_id_table (fid : string) (f : Row -> Row) (answer : option JsError)
    (w w' : World) (x : option JsError) :
  update_eq_id fid f answer w = (w', inr x) ->
  tmp w' = tmp w
  /\ (answer = None -> music_sheets w' = update_rows fid f (music_sheets w)).
Proof.
  unfold update_eq_id. destruct answer; intros H; inversion H; split; auto.
  discriminate.
Qed.

Lemma remove_table (dir : string) (answer : option JsError) (w w' : World) (u : unit) :
  remove dir answer w = (w', inr u) ->
  music_sheets w' = music_sheets w
  /\ tmp w' = filter (fun kv => ¬ under dir kv.1) (tmp w).
Proof. unfold remove. destruct answer; intros H; inversion H; auto. Qed.

Lemma edge_cleanup_table (dir : string) (answer : option JsError)
    (w w' : World) (u : unit) :
  try_catch (remove dir answer)
    (fun err => log ("Erro ao limpar diretório temporário: " +:+ message err)) w
  = (w', inr u) ->
  music_sheets w' = music_sheets w.
Proof.
  unfold try_catch, remove, log. destruct answer; intros H; inversion H; auto.
Qed.

Lemma update_rows_of_file (fid : string) (f : Row -> Row) (rows : list Row) :
  (forall r, id (f r) = id r) ->
  List.filter (fun r => String.eqb (id r) fid) (update_rows fid f rows)
  = map f (List.filter (fun r => String.eqb (id r) fid) rows).
Proof.
  intros Hf. unfold update_rows. induction rows as [|r rows IH]; [reflexivity|].
  cbn [map List.filter]. destruct (String.eqb (id r) fid) eqn:E.
  - rewrite Hf, E. cbn [map]. now rewrite IH.
  - rewrite E. exact IH.
Qed.

Lemma update_rows_twice (fid : string) (f g : Row -> Row) (rows : list Row) :
  (forall r, id (f r) = id r) ->
  update_rows fid g (update_rows fid f rows) = update_rows fid (fun r => g (f r)) rows.
Proof.
  intros Hf. unfold update_rows. rewrite map_map. apply map_ext. intros r.
  destruct (String.eqb (id r) fid) eqn:E; [now rewrite Hf, E | now rewrite E].
Qed.

End RunsAndTable.

(** The table and the local files after each step that has returned. *)
Ltac table_facts :=
  repeat match goal with
    | H : Backend.writeFile _ _ _ _ = (_, inr _) |- _ =>
        apply writeFile_inr in H; destruct H as (? & ? & ?)
    | H : Backend.readFile _ _ = (_, inr _) |- _ =>
        apply readFile_inr in H; destruct H as (? & ?)
    | H : Backend.storage_download _ _ = (_, inr _) |- _ =>
        apply storage_download_inr in H; destruct H as (? & ?)
    | H : Backend.storage_upload _ _ _ _ = (_, inr _) |- _ =>
        pose proof (storage_upload_keeps _ _ _ _ _ _ H) as (? & ?);
        apply storage_upload_inr in H; destruct H as (? & ?)
    | H : Backend.throw_if _ _ = (_, inr _) |- _ =>
        apply throw_if_inr in H; destruct H as (? & ?)
    | H : Backend.update_eq_id _ _ _ _ = (_, inr _) |- _ =>
        pose proof (update_eq_id_table _ _ _ _ _ _ H) as (? & ?);
        apply update_eq_id_inr in H; destruct H as (? & ?)
    | H : Backend.remove _ _ _ = (_, inr _) |- _ =>
        apply remove_table in H; destruct H as (? & ?)
    | H : Backend.try_catch (Backend.remove _ _) _ _ = (_, inr _) |- _ =>
        apply edge_cleanup_table in H
    | H : Backend.log _ _ = (_, inr _) |- _ =>
        apply log_inr in H; destruct H as (? & ? & ?)
    | H : mret _ _ = (_, inr _) |- _ =>
        apply mret_inr in H; destruct H as (? & ?)
    end.

Ltac table_chain :=
  repeat match goal with
    | H : Backend.music_sheets ?x = _ |- context [Backend.music_sheets ?x] =>
        rewrite H; clear H
    end.

(** The bucket at the end holds the document under the returned name. *)
Ltac stored :=
  repeat match goal with
    | H : Backend.bucket _ = Backend.bucket _ |- _ => rewrite H; clear H
    end;
  match goal with
  | H : Backend.upload_answer _ = None -> _ |- _ => rewrite H by congruence
  end;
  rewrite lookup_insert_eq;
  match goal with
  | H1 : Backend.tmp ?x = _, H2 : Backend.tmp ?x !! _ = Some _ |- _ =>
      rewrite H1, lookup_insert_eq in H2; congruence
  end.

Lemma render_returned_table (e : Backend.Env) (fid path ft : string)
    (w w' : Backend.World) (r : Backend.converted) :
  Render.processFile e fid path ft w = (w', inr r) ->
  Backend.music_sheets w'
  = Backend.update_rows fid
      (Backend.set_completed (Backend.res_mei_url r) (Backend.res_public_url r))
      (Backend.music_sheets w)
  /\ Backend.res_public_url r = Backend.publicUrl e
  /\ Spec.render_converts path = true.
Proof.
  intros E. unfold Render.processFile in E.
  apply try_catch_inr in E; [|intros; apply render_catch_throws].
  cbv zeta in E.
  do 4 bind_inv E.
  assert (X : Spec.render_converts path = true
              /\ Backend.music_sheets w3 = Backend.music_sheets w2).
  { unfold Spec.render_converts. cbv zeta.
    destruct (String.eqb _ "pdf").
    - split; [reflexivity|]. repeat bind_inv K2. table_facts. subst. congruence.
    - cbn [orb]. destruct (Js.includes _ _); [|discriminate K2].
      split; [reflexivity|]. table_facts. subst. reflexivity. }
  destruct X as [X T]. clear K2.
  repeat bind_inv E.
  unfold Render.mkdir in *. table_facts. subst.
  cbn [Backend.res_mei_url Backend.res_public_url].
  split; [|split; [reflexivity | exact X]].
  table_chain.
  match goal with
  | H : _ = None -> Backend.music_sheets _ = _ |- _ => rewrite H by congruence
  end.
  table_chain. reflexivity.
Qed.

Lemma render_returned_bucket (e : Backend.Env) (fid path ft : string)
    (w w' : Backend.World) (r : Backend.converted) :
  Render.processFile e fid path ft w = (w', inr r) ->
  Backend.bucket w' !! Backend.res_mei_url r
  = Some (Backend.meiTemplate (Render.basename path) (Backend.isodate e)).
Proof.
  intros E. unfold Render.processFile in E.
  apply try_catch_inr in E; [|intros; apply render_catch_throws].
  cbv zeta in E.
  do 3 bind_inv E. bind_inv E. clear K K0 K1 K2.
  repeat bind_inv E.
  unfold Render.mkdir in *. publish_facts. subst. cbn [Backend.res_mei_url].
  stored.
Qed.

Lemma render_returned_tmp (e : Backend.Env) (fid path ft : string)
    (w w' : Backend.World) (r : Backend.converted) (p : string) :
  Render.processFile e fid path ft w = (w', inr r) ->
  Backend.under ("temp/" +:+ fid) p = true ->
  Backend.tmp w' !! p = None.
Proof.
  intros E Hp. unfold Render.processFile in E.
  apply try_catch_inr in E; [|intros; apply render_catch_throws].
  cbv zeta in E.
  do 3 bind_inv E. bind_inv E. clear K K0 K1 K2.
  repeat bind_inv E.
  apply mret_inr in E. destruct E as [_ ->].
  match goal with
  | H : Backend.remove _ _ _ = (_, inr _) |- _ =>
      apply remove_table in H; destruct H as [_ T]
  end.
  rewrite T.
  apply map_lookup_filter_None. right. intros x _ H. apply H. cbn. rewrite Hp. exact I.
Qed.

Lemma edge_returned_table (e : Backend.Env) (fid path ft : string)
    (w w' : Backend.World) (r : Backend.converted) :
  Edge.processFile e fid path ft w = (w', inr r) ->
  Backend.music_sheets w'
  = Backend.update_rows fid
      (Backend.set_completed (Backend.res_mei_url r) (Backend.res_public_url r))
      (Backend.music_sheets w)
  /\ Backend.res_public_url r = Backend.publicUrl e
  /\ Spec.edge_converts path = true.
Proof.
  intros E. unfold Edge.processFile in E.
  do 3 bind_inv E.
  apply try_catch_inr in E; [|intros; apply edge_catch_throws].
  cbv zeta in E.
  do 4 bind_inv E.
  assert (X : Spec.edge_converts path = true
              /\ Backend.music_sheets w6 = Backend.music_sheets w5).
  { unfold Spec.edge_converts. cbv zeta.
    destruct (String.eqb _ "pdf").
    - split; [reflexivity|]. repeat bind_inv K5. table_facts. subst. congruence.
    - cbn [orb]. destruct (Js.includes _ _).
      + split; [reflexivity|]. table_facts. subst. reflexivity.
      + cbn [orb]. destruct (String.eqb _ "svg"); [|discriminate K5].
        split; [reflexivity|]. repeat bind_inv K5. table_facts. subst. congruence. }
  destruct X as [X T]. clear K5.
  repeat bind_inv E.
  repeat match goal with
    | H : (match ?x with Some err => @?f err | None => mret () end) _ = (_, inr _) |- _ =>
        destruct x eqn:?; [bind_inv H; discriminate|]
    end.
  assert (D : Backend.music_sheets w3 = Backend.music_sheets w2).
  { destruct (Backend.download_answer e); [bind_inv K2; discriminate|].
    table_facts. subst. reflexivity. }
  clear K2.
  assert (M : Backend.music_sheets w4 = Backend.music_sheets w3).
  { destruct (Backend.mkdir_answer e); table_facts; subst; congruence. }
  clear K3.
  table_facts. subst.
  cbn [Backend.res_mei_url Backend.res_public_url].
  split; [|split; [reflexivity | exact X]].
  table_chain.
  match goal with
  | H : _ = None
        -> Backend.music_sheets _ = Backend.update_rows _ (Backend.set_completed _ _) _ |- _ =>
      rewrite H by congruence
  end.
  table_chain.
  match goal with
  | H : _ = None -> Backend.music_sheets _ = _ |- _ => rewrite H by congruence
  end.
  table_chain.
  rewrite update_rows_twice by reflexivity. reflexivity.
Qed.

Lemma edge_returned_bucket (e : Backend.Env) (fid path ft : string)
    (w w' : Backend.World) (r : Backend.converted) :
  Edge.processFile e fid path ft w = (w', inr r) ->
  Backend.bucket w' !! Backend.res_mei_url r
  = Some (Backend.meiTemplate (Edge.fileName path) (Backend.isodate e)).
Proof.
  intros E. unfold Edge.processFile in E.
  do 3 bind_inv E. clear K K0 K1.
  apply try_catch_inr in E; [|intros; apply edge_catch_throws].
  cbv zeta in E.
  do 4 bind_inv E. clear K K0 K1 K2.
  repeat bind_inv E.
  repeat match goal with
    | H : (match ?x with Some err => @?f err | None => mret () end) _ = (_, inr _) |- _ =>
        destruct x; [bind_inv H; discriminate|]
    end.
  publish_facts. subst. cbn [Backend.res_mei_url].
  stored.
Qed.

Section Failures.
Import Js Backend.

Lemma update_rows_failed (fid msg : string) (rows : list Row) :
  Forall (failed_with msg)
    (List.filter (fun r => String.eqb (id r) fid)
       (update_rows fid (set_failed msg) rows)).
Proof.
  rewrite update_rows_of_file by reflexivity.
  apply Forall_forall. intros r H. apply list_elem_of_In, in_map_iff in H.
  destruct H as [r0 [<- _]]. split; reflexivity.
Qed.

Lemma render_thrown_table (e : Env) (fid path ft : string) (w w' : World)
    (err : JsError) :
  Render.processFile e fid path ft w = (w', inl err) ->
  failed_answer e = None ->
  Forall (failed_with (or_else (message err) "Erro desconhecido"))
    (List.filter (fun r => String.eqb (id r) fid) (music_sheets w')).
Proof.
  intros E Hf. unfold Render.processFile in E.
  apply try_catch_inl in E. destruct E as (w1 & e1 & _ & E).
  unfold mbind, M_bind, log, update_eq_id, throw in E. rewrite Hf in E.
  injection E as <- <-. cbn [music_sheets]. apply update_rows_failed.
Qed.

Lemma edge_thrown_table (e : Env) (fid path ft : string) (w w' : World)
    (err : JsError) :
  Edge.processFile e fid path ft w = (w', inl err) ->
  processing_answer e = None ->
  failed_answer e = None ->
  Forall (failed_with (Edge.error_text err))
    (List.filter (fun r => String.eqb (id r) fid) (music_sheets w')).
Proof.
  intros E Hp Hf. unfold Edge.processFile in E.
  apply bind_inl in E. destruct E as [E|(w1 & a & _ & E)]; [discriminate E|].
  apply bind_inl in E. destruct E as [E|(w2 & a2 & K & E)].
  { unfold update_eq_id in E. destruct (processing_answer e); discriminate E. }
  apply update_eq_id_inr in K. destruct K as [-> _]. rewrite Hp in E.
  apply bind_inl in E. destruct E as [E|(w3 & a3 & _ & E)]; [discriminate E|].
  apply try_catch_inl in E. destruct E as (w4 & e1 & _ & E).
  unfold mbind, M_bind, update_eq_id, throw in E. rewrite Hf in E.
  injection E as <- <-. cbn [music_sheets]. apply update_rows_failed.
Qed.

End Failures.

Section Untouched.
Import Js Backend Spec.

Lemma preserves_update_untouched (fid : string) (f : Row -> Row) (a : option JsError)
    (w0 : World) :
  (forall r, id (f r) = id r) ->
  preserves (untouched fid w0) (update_eq_id fid f a).
Proof.
  intros Hid w (Hi & Ho). destruct a as [e|]; [split; assumption|].
  unfold update_eq_id, untouched. cbn [fst music_sheets].
  rewrite update_rows_ids, update_rows_others by exact Hid. split; assumption.
Qed.

End Untouched.

(** One step of a proof that a run creates and deletes no record and
    leaves the records of the other files as they are. *)
Ltac keep_untouched :=
  cbv beta zeta;
  lazymatch goal with
  | |- Spec.preserves _ (mbind _ _) => apply preserves_bind; [|intros]
  | |- Spec.preserves _ (Backend.try_catch _ _) => apply preserves_try_catch; [|intros]
  | |- Spec.preserves _ (Backend.update_eq_id _ _ _) =>
      apply preserves_update_untouched; reflexivity
  | |- Spec.preserves _ (if ?b then _ else _) => destruct b
  | |- Spec.preserves _ (match ?x with _ => _ end) => destruct x
  | |- Spec.preserves _ _ =>
      apply preserves_aside;
      [ apply table_only_untouched
      | first [ apply aside_ret | apply aside_throw | apply aside_throw_if
              | apply aside_log | apply aside_download | apply aside_upload
              | apply aside_writeFile | apply aside_readFile | apply aside_remove ] ]
  end.

Lemma render_processFile_untouched (e : Backend.Env) (fid path ft : string)
    (w0 : Backend.World) :
  Spec.preserves (Spec.untouched fid w0) (Render.processFile e fid path ft).
Proof. unfold Render.processFile, Render.mkdir. repeat keep_untouched. Qed.

Lemma edge_processFile_untouched (e : Backend.Env) (fid path ft : string)
    (w0 : Backend.World) :
  Spec.preserves (Spec.untouched fid w0) (Edge.processFile e fid path ft).
Proof. unfold Edge.processFile. repeat keep_untouched. Qed.

(** ** The batch *)

Lemma pending_page_bounded (w : Backend.World) :
  length (Edge.pending_page w) <= 10
  /\ (forall r, In r (Edge.pending_page w) ->
        In r (Backend.music_sheets w)
        /\ Backend.conversion_status r = Some Backend.pending).
Proof.
  unfold Edge.pending_page. split.
  - rewrite length_take. lia.
  - intros r Hr. apply list_elem_of_In in Hr.
    apply subseteq_take in Hr. apply list_elem_of_In in Hr.
    apply filter_In in Hr as [Hin Hs]. split; [exact Hin|].
    now apply bool_decide_eq_true in Hs.
Qed.

(** The loop reports every file it is given, whatever happened to the files
    before it. *)
Lemma convert_each_reports (sv : Edge.Service) (files : list Backend.Row)
    (w : Backend.World) :
  Forall2 (Spec.reported sv) files (snd (Edge.convert_each sv files w)).
Proof.
  revert w. induction files as [|file files IH]; intros w; simpl; [constructor|].
  destruct (Edge.processFile _ _ _ _ w) as [w' [error|result]] eqn:E.
  - specialize (IH (fst (Backend.update_eq_id (Backend.id file)
                           (Backend.set_failed (Edge.error_text error))
                           (Backend.refailed_answer (Edge.run sv (Backend.id file)))
                           (fst (Backend.log
                                   ("Erro ao processar arquivo " +:+ Backend.id file
                                    +:+ ": " +:+ Backend.message error) w'))))).
    destruct (Edge.convert_each sv files _) as [w2 items]. simpl in *.
    constructor; [|exact IH]. exists w. now rewrite E.
  - specialize (IH w').
    destruct (Edge.convert_each sv files w') as [w2 items]. simpl in *.
    constructor; [|exact IH]. exists w. now rewrite E.
Qed.

Lemma filter_filter_implied (A : Type) (f g : A -> bool) (l : list A) :
  (forall x, g x = true -> f x = true) ->
  List.filter g (List.filter f l) = List.filter g l.
Proof.
  intros H. induction l as [|x l IH]; [reflexivity|].
  cbn [List.filter]. destruct (f x) eqn:F.
  - cbn [List.filter]. now rewrite IH.
  - destruct (g x) eqn:G; [apply H in G; congruence | exact IH].
Qed.

Lemma untouched_apart (file : Backend.Row) (files : list Backend.Row)
    (w0 w : Backend.World) :
  Spec.untouched (Backend.id file) w0 w -> only_touched (file :: files) w0 w.
Proof.
  intros (Hi & Ho). split; [exact Hi|].
  rewrite <- (filter_filter_implied _ (Spec.other (Backend.id file)) (apart (file :: files))
                (Backend.music_sheets w)).
  - rewrite Ho. apply filter_filter_implied.
    intros r H. cbn in H. now apply andb_true_iff in H.
  - intros r H. cbn in H. now apply andb_true_iff in H.
Qed.

Lemma only_touched_trans (file : Backend.Row) (files : list Backend.Row)
    (w0 w1 w2 : Backend.World) :
  only_touched (file :: files) w0 w1 -> only_touched files w1 w2 ->
  only_touched (file :: files) w0 w2.
Proof.
  intros (Hi1 & Ho1) (Hi2 & Ho2). split; [congruence|].
  rewrite <- Ho1.
  rewrite <- (filter_filter_implied _ (apart files) (apart (file :: files))
                (Backend.music_sheets w2)).
  - rewrite Ho2. apply filter_filter_implied.
    intros r H. cbn in H. now apply andb_true_iff in H.
  - intros r H. cbn in H. now apply andb_true_iff in H.
Qed.

Lemma convert_each_only_touches (sv : Edge.Service) (files : list Backend.Row)
    (w : Backend.World) :
  only_touched files w (fst (Edge.convert_each sv files w)).
Proof.
  revert w. induction files as [|file files IH]; intros w.
  - split; reflexivity.
  - cbn [Edge.convert_each].
    assert (U : Spec.untouched (Backend.id file) w w) by (split; reflexivity).
    pose proof (edge_processFile_untouched (Edge.run sv (Backend.id file)) (Backend.id file)
                  (Backend.file_url file) (Backend.file_type file) w w U) as P.
    destruct (Edge.processFile _ _ _ _ w) as [w' [error|result]]; cbn [fst] in P.
    + match goal with
      | |- context [Edge.convert_each sv files ?w1] =>
          specialize (IH w1);
          assert (U1 : Spec.untouched (Backend.id file) w w1)
      end.
      { apply preserves_update_untouched; [reflexivity|].
        eapply table_only_untouched; [|exact P]. reflexivity. }
      destruct (Edge.convert_each sv files _) as [w2 items]. cbn [fst] in *.
      eapply only_touched_trans; [apply untouched_apart; exact U1 | exact IH].
    + specialize (IH w').
      destruct (Edge.convert_each sv files w') as [w2 items]. cbn [fst] in *.
      eapply only_touched_trans; [apply untouched_apart; exact P | exact IH].
Qed.

Section Stored.
Import Js Backend Spec.

Variable k : string.

Lemma stored_aside (A : Type) (m : M A) :
  (forall w, bucket (fst (m w)) = bucket w) -> preserves (stored k) m.
Proof. intros Hm w Hw. unfold stored. now rewrite Hm. Qed.

Lemma stored_upload (path content : string) (a : option JsError) :
  preserves (stored k) (storage_upload path content a).
Proof.
  intros w Hw. unfold stored, storage_upload. destruct a as [e|]; [exact Hw|].
  cbn [fst bucket]. destruct (decide (path = k)) as [->|Hne].
  - rewrite lookup_insert_eq. eauto.
  - rewrite lookup_insert_ne by exact Hne. exact Hw.
Qed.

Lemma bucket_ret (A : Type) (a : A) (w : World) : bucket (fst ((mret a : M A) w)) = bucket w.
Proof. reflexivity. Qed.

Lemma bucket_throw (A : Type) (e : JsError) (w : World) :
  bucket (fst ((throw e : M A) w)) = bucket w.
Proof. reflexivity. Qed.

Lemma bucket_throw_if (a : option JsError) (w : World) :
  bucket (fst (throw_if a w)) = bucket w.
Proof. now destruct a. Qed.

Lemma bucket_log (line : string) (w : World) : bucket (fst (log line w)) = bucket w.
Proof. reflexivity. Qed.

Lemma bucket_download (a : JsError + string) (w : World) :
  bucket (fst (storage_download a w)) = bucket w.
Proof. now destruct a. Qed.

Lemma bucket_update (fid : string) (f : Row -> Row) (a : option JsError) (w : World) :
  bucket (fst (update_eq_id fid f a w)) = bucket w.
Proof. now destruct a. Qed.

Lemma bucket_writeFile (path content : string) (a : option JsError) (w : World) :
  bucket (fst (writeFile path content a w)) = bucket w.
Proof. now destruct a. Qed.

Lemma bucket_readFile (path : string) (w : World) : bucket (fst (readFile path w)) = bucket w.
Proof. unfold readFile. now destruct (tmp w !! path). Qed.

Lemma bucket_remove (dir : string) (a : option JsError) (w : World) :
  bucket (fst (remove dir a w)) = bucket w.
Proof. now destruct a. Qed.

End Stored.

(** One step of a proof that a run removes nothing from the bucket. *)
Ltac keep_stored :=
  cbv beta zeta;
  lazymatch goal with
  | |- Spec.preserves _ (mbind _ _) => apply preserves_bind; [|intros]
  | |- Spec.preserves _ (Backend.try_catch _ _) => apply preserves_try_catch; [|intros]
  | |- Spec.preserves _ (Backend.storage_upload _ _ _) => apply stored_upload
  | |- Spec.preserves _ (if ?b then _ else _) => destruct b
  | |- Spec.preserves _ (match ?x with _ => _ end) => destruct x
  | |- Spec.preserves _ _ =>
      apply stored_aside;
      first [ apply bucket_ret | apply bucket_throw | apply bucket_throw_if
            | apply bucket_log | apply bucket_download | apply bucket_update
            | apply bucket_writeFile | apply bucket_readFile | apply bucket_remove ]
  end.

Lemma edge_processFile_keeps_stored (k : string) (e : Backend.Env) (fid path ft : string) :
  Spec.preserves (stored k) (Edge.processFile e fid path ft).
Proof. unfold Edge.processFile. repeat keep_stored. Qed.

Section BatchFileByFile.
Import Js Backend Spec.

Variable sv : Edge.Service.

Lemma convert_each_turn (file : Row) (files : list Row) (w : World) :
  Edge.convert_each sv (file :: files) w
  = (fst (Edge.convert_each sv files (fst (turn sv file w))),
     snd (turn sv file w) :: snd (Edge.convert_each sv files (fst (turn sv file w)))).
Proof.
  cbn [Edge.convert_each]. unfold turn, success_item, failure_item.
  destruct (Edge.processFile _ _ _ _ w) as [w' [error|result]]; cbn [fst snd];
    now destruct (Edge.convert_each sv files _).
Qed.

Lemma turn_untouched (file : Row) (w : World) :
  untouched (id file) w (fst (turn sv file w)).
Proof.
  assert (U : untouched (id file) w w) by (split; reflexivity).
  pose proof (edge_processFile_untouched (Edge.run sv (id file)) (id file)
                (file_url file) (file_type file) w w U) as P.
  unfold turn. destruct (Edge.processFile _ _ _ _ w) as [w' [error|result]]; cbn [fst] in *.
  - apply preserves_update_untouched; [reflexivity|].
    eapply table_only_untouched; [|exact P]. reflexivity.
  - exact P.
Qed.

Lemma turn_keeps_stored (k : string) (file : Row) (w : World) :
  is_Some (bucket w !! k) -> is_Some (bucket (fst (turn sv file w)) !! k).
Proof.
  intros H.
  pose proof (edge_processFile_keeps_stored k (Edge.run sv (id file)) (id file)
                (file_url file) (file_type file) w H) as P.
  unfold turn. destruct (Edge.processFile _ _ _ _ w) as [w' [error|result]]; cbn [fst] in *.
  - rewrite bucket_update. exact P.
  - exact P.
Qed.

Lemma records_of_other (fid fid' : string) (w0 w : World) :
  untouched fid w0 w -> fid' <> fid -> records fid' w = records fid' w0.
Proof.
  intros (_ & Ho) Hne. unfold records.
  assert (I : forall r : Row, String.eqb (id r) fid' = true -> other fid r = true).
  { intros r H. apply String.eqb_eq in H. unfold other.
    destruct (String.eqb (id r) fid) eqn:E; [|reflexivity].
    apply String.eqb_eq in E. congruence. }
  rewrite <- (filter_filter_implied _ _ _ (music_sheets w) I).
  rewrite <- (filter_filter_implied _ _ _ (music_sheets w0) I).
  now rewrite Ho.
Qed.

(** What the turn of a file leaves is what its item tells. *)
Lemma turn_ended (file : Row) (w : World) :
  ended sv (fst (turn sv file w)) file (snd (turn sv file w)).
Proof.
  unfold turn.
  destruct (Edge.processFile _ _ _ _ w) as [w' [error|result]] eqn:E; cbn [fst snd].
  - right. exists error. split; [reflexivity|].
    unfold records, update_eq_id. intros [Hr|[Hp Hf]].
    + rewrite Hr. cbn [fst log music_sheets]. apply update_rows_failed.
    + destruct (refailed_answer _); [|cbn [fst log music_sheets]; apply update_rows_failed].
      cbn [fst log music_sheets]. exact (edge_thrown_table _ _ _ _ _ _ _ E Hp Hf).
  - left. exists result. split; [reflexivity|]. split.
    + destruct (edge_returned_table _ _ _ _ _ _ _ E) as (T & _).
      unfold records. rewrite T, update_rows_of_file by reflexivity.
      apply Forall_forall. intros r H. apply list_elem_of_In, in_map_iff in H.
      destruct H as [r0 [<- _]]. repeat split.
    + rewrite (edge_returned_bucket _ _ _ _ _ _ _ E). eauto.
Qed.

(** The files after it leave what a file has left. *)
Lemma convert_each_keeps_ended (files : list Row) (file : Row) (item : json) (w : World) :
  ~ In (id file) (map id files) ->
  ended sv w file item ->
  ended sv (fst (Edge.convert_each sv files w)) file item.
Proof.
  revert w. induction files as [|next files IH]; intros w Hn H; [exact H|].
  rewrite convert_each_turn. cbn [fst].
  apply IH; [intros Hin; apply Hn; right; exact Hin|].
  assert (Hne : id file <> id next) by (intros E; apply Hn; left; now rewrite E).
  pose proof (records_of_other _ _ _ _ (turn_untouched next w) Hne) as R.
  destruct H as [(result & Hi & Hc & Hb)|(error & Hi & Hf)].
  - left. exists result. split; [exact Hi|]. split; [now rewrite R|].
    now apply turn_keeps_stored.
  - right. exists error. split; [exact Hi|]. intros Ha. rewrite R. exact (Hf Ha).
Qed.

Lemma convert_each_ended (files : list Row) (w : World) :
  NoDup (map id files) ->
  Forall2 (ended sv (fst (Edge.convert_each sv files w))) files
    (snd (Edge.convert_each sv files w)).
Proof.
  revert w. induction files as [|file files IH]; intros w Hd; [constructor|].
  rewrite convert_each_turn. cbn [fst snd].
  apply NoDup_cons in Hd. destruct Hd as [Hn Hd].
  constructor; [|apply IH; exact Hd].
  apply convert_each_keeps_ended; [rewrite list_elem_of_In in Hn; exact Hn | apply turn_ended].
Qed.

(** A file whose run the hosted services answer is converted, whatever
    happened to the files before it. *)
Lemma convert_each_converts (files : list Row) (w : World) :
  Forall2 (fun file item =>
             edge_answers (Edge.run sv (id file)) ->
             edge_converts (file_url file) = true ->
             exists result, item = success_item file result)
    files (snd (Edge.convert_each sv files w)).
Proof.
  revert w. induction files as [|file files IH]; intros w; [constructor|].
  rewrite convert_each_turn. cbn [snd]. constructor; [|apply IH].
  intros (Hp & (bytes & Hd) & Hw & Hu & Hc) Hx.
  destruct (edge_returns bytes _ (id file) (file_url file) (file_type file) w
              Hp Hd Hw Hu Hc Hx) as (r & Hr & _).
  unfold turn. destruct (Edge.processFile _ _ _ _ w) as [w' [error|result]];
    cbn [snd] in *; [discriminate Hr|]. now exists result.
Qed.

End BatchFileByFile.

Lemma pending_page_first (w : Backend.World) :
  exists rest,
    List.filter (fun r => bool_decide (Backend.conversion_status r = Some Backend.pending))
      (Backend.music_sheets w)
    = (Edge.pending_page w ++ rest)%list
    /\ (rest <> [] -> length (Edge.pending_page w) = 10).
Proof.
  unfold Edge.pending_page.
  set (l := List.filter _ _).
  exists (drop 10 l). split; [symmetry; apply take_drop|].
  intros H. rewrite length_take.
  destruct (Nat.le_gt_cases (length l) 10) as [L|L]; [|lia].
  rewrite drop_ge in H by exact L. congruence.
Qed.

(** C8: one invocation of the batch takes at most ten files: the first
    pending records of the table, all of them unless there are more than
    ten.  It answers with one item per file taken, in order: each file is
    processed, a failure is reported in its item with [success] false and
    the message of the error, and the files after it are processed all the
    same: a file whose run the hosted services answer is converted
    whatever happened to the files before it.  The state that the batch
    leaves is what the items tell, the identifiers of the files taken being
    distinct: the records of a file reported as converted are completed
    with the result of the item and the bucket holds a document under its
    [mei_url]; those of a file reported as failed are failed with the text
    of the item, when the table accepts to record the failure. *)
Theorem convert_all_isolates_failures
    (sv : Edge.Service) (req : Edge.Request) (w : Backend.World) :
  Edge.method req = "POST" ->
  Edge.configured sv = true ->
  Js.includes_sub "/convert-all" (Edge.pathname req) = true ->
  Edge.query_answer sv = None ->
  length (Edge.pending_page w) <= 10
  /\ (forall r, In r (Edge.pending_page w) ->
        In r (Backend.music_sheets w)
        /\ Backend.conversion_status r = Some Backend.pending)
  /\ (exists rest,
        List.filter (fun r => bool_decide (Backend.conversion_status r = Some Backend.pending))
          (Backend.music_sheets w)
        = (Edge.pending_page w ++ rest)%list
        /\ (rest <> [] -> length (Edge.pending_page w) = 10))
  /\ (Edge.pending_page w <> [] ->
      exists results,
        snd (Edge.serve sv req w)
        = Backend.MkResponse 200
            (Backend.JObject
               [("message", Backend.JString "Processamento em lote concluído");
                ("results", Backend.JArray results)])
        /\ length results = length (Edge.pending_page w)
        /\ Forall2 (Spec.reported sv) (Edge.pending_page w) results
        /\ Forall2 (fun file item =>
                      edge_answers (Edge.run sv (Backend.id file)) ->
                      Spec.edge_converts (Backend.file_url file) = true ->
                      exists result, item = success_item file result)
             (Edge.pending_page w) results
        /\ (NoDup (map Backend.id (Edge.pending_page w)) ->
            Forall2 (ended sv (fst (Edge.serve sv req w))) (Edge.pending_page w) results)).
Proof.
  intros Hm Hc Hp Hq.
  destruct (pending_page_bounded w) as [Hl Hin].
  split; [exact Hl | split; [exact Hin | split; [apply pending_page_first|]]].
  intros Hne. unfold Edge.serve. rewrite Hm, Hc, Hp, Hq.
  cbn [negb String.eqb].
  change (Edge.pending_page
            (fst (Backend.log
                    "Iniciando processamento em lote de todos os arquivos pendentes" w)))
    with (Edge.pending_page w).
  set (w0 := fst (Backend.log
                    "Iniciando processamento em lote de todos os arquivos pendentes" w)).
  pose proof (convert_each_reports sv (Edge.pending_page w) w0) as R.
  pose proof (convert_each_converts sv (Edge.pending_page w) w0) as G.
  pose proof (convert_each_ended sv (Edge.pending_page w) w0) as F.
  destruct (Edge.pending_page w) as [|file files] eqn:E; [congruence|].
  destruct (Edge.convert_each sv (file :: files) w0) as [w' results].
  exists results. cbn [fst snd] in *.
  split; [reflexivity | split; [|split; [exact R | split; [exact G | exact F]]]].
  symmetry. exact (Forall2_length _ _ _ R).
Qed.

Lemma convert_all_isolates_failures_example :
  exists results,
    snd (Edge.serve Spec.first_fails Spec.batch_request (Spec.world_of [Spec.lost; Spec.song]))
    = Backend.MkResponse 200
        (Backend.JObject
           [("message", Backend.JString "Processamento em lote concluído");
            ("results", Backend.JArray results)])
    /\ length results = 2
    /\ Forall2 (ended Spec.first_fails
                  (fst (Edge.serve Spec.first_fails Spec.batch_request
                          (Spec.world_of [Spec.lost; Spec.song]))))
         [Spec.lost; Spec.song] results.
Proof.
  assert (Hne : Edge.pending_page (Spec.world_of [Spec.lost; Spec.song]) <> [])
    by (vm_compute; discriminate).
  assert (Hd : NoDup (map Backend.id (Edge.pending_page (Spec.world_of [Spec.lost; Spec.song])))).
  { apply NoDup_ListNoDup. vm_compute. repeat constructor; cbn; intuition discriminate. }
  assert (Hm : Edge.method Spec.batch_request = "POST") by reflexivity.
  assert (Hc : Edge.configured Spec.first_fails = true) by reflexivity.
  assert (Hp : Js.includes_sub "/convert-all" (Edge.pathname Spec.batch_request) = true)
    by reflexivity.
  assert (Hq : Edge.query_answer Spec.first_fails = None) by reflexivity.
  destruct (convert_all_isolates_failures Spec.first_fails Spec.batch_request
              (Spec.world_of [Spec.lost; Spec.song]) Hm Hc Hp Hq)
    as (_ & _ & _ & H).
  destruct (H Hne) as (results & Hr & Hlen & _ & _ & He).
  exists results. split; [exact Hr | split; [exact Hlen | exact (He Hd)]].
Defined.

(** The batch on two pending files of which the first cannot be fetched:
    the first is reported and marked as failed, the second is converted. *)
Lemma first_fails_second_converted :
  Backend.body
    (snd (Edge.serve Spec.first_fails Spec.batch_request
            (Spec.world_of [Spec.lost; Spec.song])))
  = Backend.JObject
      [("message", Backend.JString "Processamento em lote concluído");
       ("results",
        Backend.JArray
          [Backend.JObject
             [("fileId", Backend.JString "13");
              ("success", Backend.JBool false);
              ("error", Backend.JString "Erro ao baixar arquivo: Object not found")];
           Backend.JObject
             [("fileId", Backend.JString "42");
              ("success", Backend.JBool true);
              ("result",
               Backend.JObject
                 [("mei_url", Backend.JString "u1/1741082000000-song.mei");
                  ("public_url",
                   Backend.JString "https://cdn.example/music-sheets/u1/song.mei")])]])]
  /\ map Backend.conversion_status
       (Backend.music_sheets
          (fst (Edge.serve Spec.first_fails Spec.batch_request
                  (Spec.world_of [Spec.lost; Spec.song]))))
     = [Some Backend.failed; Some Backend.completed].
Proof. split; vm_compute; reflexivity. Qed.

(** ** The models on small inputs *)

Example patterns_on_two_chords :
  map (fun p => Regex.test p Spec.two_chords) Detector.patterns
  = [false; false; false; false; false; false; false; true; false; true; false].
Proof. vm_compute. reflexivity. Qed.

Example patterns_on_tempo_and_dynamics :
  map (fun p => Regex.test p (Js.units "Allegro p")) Detector.patterns
  = [false; true; true; false; false; false; false; false; false; false; false].
Proof. vm_compute. reflexivity. Qed.

Example tablature_of_four_lines :
  Regex.test Detector.p_tab_lines
    (Js.units (Js.lines ["e|--0--1--|"; "B|--0--1--|"; "G|--0--1--|"; "D|--0--1--|"]))
  = true
  /\ Regex.test Detector.p_tab_lines
       (Js.units (Js.lines ["e|--0--1--|"; "B|--0--1--|"; "G|--0--1--|"]))
     = false.
Proof. split; vm_compute; reflexivity. Qed.

Example vocabulary_is_case_insensitive :
  Regex.test Detector.p_vocabulary (Js.units "PARTITURA")
  = true
  /\ Regex.test Detector.p_vocabulary [99; 108; 201; 97]%N = true
  /\ Regex.test Detector.p_vocabulary (Js.units "notes") = false.
Proof. repeat split; vm_compute; reflexivity. Qed.

Example names_of_the_web_service :
  Render.basename "u1/1741082000000-song.musicxml" = "1741082000000-song.musicxml"
  /\ Render.extname "song.tar.PDF" = ".PDF"
  /\ Render.extname ".hidden" = ""
  /\ Render.basename_without "song.pdf" ".pdf" = "song"
  /\ Render.basename_without "song.PDF" ".pdf" = "song.PDF".
Proof. repeat split; vm_compute; reflexivity. Qed.

Example names_of_the_edge_function :
  Edge.fileName "u1/1741082000000-song.musicxml" = "1741082000000-song.musicxml"
  /\ Edge.fileName "u1/" = "file"
  /\ Js.replace ".pdf" ".musicxml" "/tmp/convert-7/a.pdf" = "/tmp/convert-7/a.musicxml"
  /\ Js.substring_to (Js.lastIndexOf "." "song") "song" = "".
Proof. repeat split; vm_compute; reflexivity. Qed.

Example measures_are_counted :
  Spec.count_elements "measure" Spec.two_measures = 2
  /\ Spec.count_elements "measure" Backend.sampleXml_render = 1
  /\ Spec.count_elements "measure" "<measure-style/><measure/></measure>" = 1.
Proof. repeat split; vm_compute; reflexivity. Qed.

Example sums_of_doubles :
  Js.round_double (2 ^ 53 + 1) = (2 ^ 53)%Z
  /\ Js.round_double (2 ^ 53 + 3) = (2 ^ 53 + 4)%Z
  /\ Js.round_double (- (2 ^ 53) - 1) = (- 2 ^ 53)%Z
  /\ Js.round_double (2 ^ 53 - 1) = (2 ^ 53 - 1)%Z.
Proof. repeat split; vm_compute; reflexivity. Qed.

Example routes_of_the_status :
  map Render.route_status ["42"; "Health"; ""; "42?x=1"; "a/b"]
  = [Some (Render.StatusOf "42"); Some Render.Health; Some Render.NoRoute; None; None].
Proof. vm_compute. reflexivity. Qed.

(** * Further properties of the code

    What the code shows beyond the claims of the specification: on the
    upload page, the submission, the other handlers of the form; in the
    services, what a run that returns and a run that throws leave behind,
    the status endpoint, the single conversion, the batch and the client. *)

(** ** Submission on the upload page *)

Ltac told Hs :=
  right; cbn; rewrite ?Hs; split; [reflexivity | split; [discriminate|]].

(** X1: a submission either succeeds, and then the record of the sheet was
    the last request sent and the table accepted it, or it leaves [success]
    unset and tells the user why in [error]; in the second case no record
    was inserted, unless it is the table that refused it. *)
Theorem handleSubmit_succeeds_or_tells
    (user : option string) (now later : string) (b : Upload.backend) (s : Upload.State) :
  Upload.success s = false ->
  (Upload.success (fst (Upload.handleSubmit user now later b s)) = true
   /\ Upload.insert_error b = None
   /\ exists row, last (snd (Upload.handleSubmit user now later b s))
                  = Some (Upload.InsertSheet row))
  \/ (Upload.success (fst (Upload.handleSubmit user now later b s)) = false
      /\ Upload.errorText (fst (Upload.handleSubmit user now later b s)) <> ""
      /\ (Upload.insert_error b = None ->
          forall row, ~ In (Upload.InsertSheet row)
                          (snd (Upload.handleSubmit user now later b s)))).
Proof.
  intros Hs. unfold Upload.handleSubmit.
  destruct user as [uid|]; [|told Hs; tauto].
  destruct (String.eqb uid ""); [told Hs; tauto|].
  destruct (String.eqb (Upload.title s) "" || String.eqb (Upload.composer s) ""
            || String.eqb (Upload.instrument s) ""); [told Hs; tauto|].
  destruct (Upload.file s) as [f|]; [|told Hs; tauto].
  destruct (Upload.isValidFile s) as [[|]|]; try (told Hs; tauto).
  all: cbv zeta;
    cbn [Upload.setError Upload.midiFile Upload.title Upload.composer Upload.instrument].
  all: destruct (Upload.upload_error b _) as [m|];
    [told Hs; intros _ row [H|[]]; discriminate H|].
  all: destruct (Upload.midiFile s) as [mf|]; cbn [mbind option_bind fmap option_fmap option_map].
  all: try (destruct (Upload.upload_error b _) as [m|];
    [told Hs; intros _ row [H|[H|[]]]; discriminate H|]).
  all: destruct (Upload.insert_error b) as [m|];
    [told Hs; discriminate
    | left; cbn; repeat split; eexists; reflexivity].
Qed.

Lemma handleSubmit_succeeds_or_tells_example :
  let out := Upload.handleSubmit (Some "u1") "1741082000000" "1741082000431"
               (Upload.hosted Spec.page_world) ready_form in
  Upload.success (fst out) = true \/ Upload.errorText (fst out) <> "".
Proof.
  assert (H0 : Upload.success ready_form = false) by reflexivity.
  destruct (handleSubmit_succeeds_or_tells (Some "u1") "1741082000000" "1741082000431"
              (Upload.hosted Spec.page_world) ready_form H0)
    as [(H & _)|(_ & H & _)]; [left | right]; exact H.
Defined.

(** X2: a record is inserted only for a signed-in user and a chosen file
    that was not refused; it carries the identifier of that user, the type
    read from the extension of the file and, as [file_url], the path
    [user/now-name] under which the file itself was sent first and accepted
    by the bucket; the record is the last request of the submission. *)
Theorem record_follows_accepted_upload
    (user : option string) (now later : string) (b : Upload.backend)
    (s : Upload.State) (row : Upload.sheet_record) :
  In (Upload.InsertSheet row) (snd (Upload.handleSubmit user now later b s)) ->
  exists uid f,
    user = Some uid /\ Upload.file s = Some f
    /\ Upload.isValidFile s <> Some false
    /\ Upload.file_url row = uid +:+ "/" +:+ now +:+ "-" +:+ Upload.name f
    /\ Upload.user_id row = uid
    /\ Upload.file_type row = Upload.fileType_of (Upload.extension (Upload.name f))
    /\ head (snd (Upload.handleSubmit user now later b s))
       = Some (Upload.StorageUpload (Upload.file_url row) f)
    /\ Upload.upload_error b (Upload.file_url row) = None
    /\ last (snd (Upload.handleSubmit user now later b s)) = Some (Upload.InsertSheet row).
Proof.
  unfold Upload.handleSubmit.
  destruct user as [uid|]; [|intros []].
  destruct (String.eqb uid ""); [intros []|].
  destruct (String.eqb (Upload.title s) "" || String.eqb (Upload.composer s) ""
            || String.eqb (Upload.instrument s) ""); [intros []|].
  destruct (Upload.file s) as [f|]; [|intros []].
  destruct (Upload.isValidFile s) as [[|]|] eqn:V; try (intros []).
  all: cbv zeta;
    cbn [Upload.setError Upload.midiFile Upload.title Upload.composer Upload.instrument].
  all: destruct (Upload.upload_error b _) as [m|] eqn:U;
    [intros [H|[]]; discriminate H|].
  all: destruct (Upload.midiFile s) as [mf|]; cbn [mbind option_bind fmap option_fmap option_map].
  all: try (destruct (Upload.upload_error b (_ +:+ _ +:+ later +:+ _)) as [m|];
    [intros [H|[H|[]]]; discriminate H|]).
  all: destruct (Upload.insert_error b) as [m|]; cbn [snd].
  all: intros H; cbn in H.
  all: repeat (destruct H as [H|H]; try discriminate H; try contradiction).
  all: injection H as <-; exists uid, f; cbn; repeat split; try exact U; discriminate.
Qed.

Lemma record_follows_accepted_upload_example :
  exists uid f,
    Some "u1" = Some uid /\ Upload.file ready_form = Some f
    /\ Upload.isValidFile ready_form <> Some false
    /\ Upload.file_url valsa_record = uid +:+ "/" +:+ "1741082000000" +:+ "-" +:+ Upload.name f
    /\ Upload.user_id valsa_record = uid
    /\ Upload.file_type valsa_record = Upload.fileType_of (Upload.extension (Upload.name f))
    /\ head (snd (Upload.handleSubmit (Some "u1") "1741082000000" "1741082000431"
                    (Upload.hosted Spec.page_world) ready_form))
       = Some (Upload.StorageUpload (Upload.file_url valsa_record) f)
    /\ Upload.upload_error (Upload.hosted Spec.page_world) (Upload.file_url valsa_record) = None
    /\ last (snd (Upload.handleSubmit (Some "u1") "1741082000000" "1741082000431"
                    (Upload.hosted Spec.page_world) ready_form))
       = Some (Upload.InsertSheet valsa_record).
Proof.
  apply (record_follows_accepted_upload (Some "u1") "1741082000000" "1741082000431"
           (Upload.hosted Spec.page_world) ready_form valsa_record).
  vm_compute. right. left. reflexivity.
Defined.

(** X3: the validator accepts a file exactly when it reports no error,
    and it accepts only a file whose first page, or whose image, was read
    and read as notation by [isMusicSheetOrTab]. *)
Theorem validation_verdict
    (pdf_page image : Upload.File -> Upload.recognition) (f : Upload.File) :
  let r := Upload.validateMusicFile pdf_page image f in
  (Upload.isScore r = true <-> Upload.error r = "")
  /\ (Upload.isScore r = true ->
      exists text,
        (pdf_page f = Upload.Recognised text \/ image f = Upload.Recognised text)
        /\ Detector.isMusicSheetOrTab text = true).
Proof.
  unfold Upload.validateMusicFile.
  assert (C : forall rec,
    (Upload.isScore (Upload.classify rec) = true <-> Upload.error (Upload.classify rec) = "")
    /\ (Upload.isScore (Upload.classify rec) = true ->
        exists text, rec = Upload.Recognised text /\ Detector.isMusicSheetOrTab text = true)).
  { intros [text|m]; unfold Upload.classify; cbv zeta.
    - destruct (Detector.isMusicSheetOrTab text) eqn:E; cbn [Upload.isScore Upload.error].
      + split; [split; reflexivity|]. intros _. now exists text.
      + split; [split; discriminate | discriminate].
    - cbn. split; [split; discriminate | discriminate]. }
  destruct (String.eqb (Upload.type f) "application/pdf").
  - destruct (C (pdf_page f)) as [C1 C2]. split; [exact C1|].
    intros H. destruct (C2 H) as (text & E & D). exists text. auto.
  - destruct (Js.startsWith "image/" (Upload.type f)).
    + destruct (C (image f)) as [C1 C2]. split; [exact C1|].
      intros H. destruct (C2 H) as (text & E & D). exists text. auto.
    + cbn. split; [split; discriminate | discriminate].
Qed.

Lemma no_file_step (w : Upload.world) (e : Upload.event) (s : Upload.State)
    (sent : list Upload.request) :
  is_select e = false -> Upload.file s = None ->
  Upload.file (fst (Upload.step w (s, sent) e)) = None
  /\ snd (Upload.step w (s, sent) e) = sent.
Proof.
  intros He Hf. destruct e as [f| |f|ok|user now later]; try discriminate He; cbn.
  - unfold Upload.run_effects, Upload.viewer_effect, Upload.preview_effect.
    rewrite Hf. cbn. rewrite Hf. cbn. auto.
  - unfold Upload.handleFileChange_end.
    destruct (Upload.isScore _); cbn; auto.
  - unfold Upload.viewer_loaded. destruct ok; cbn; auto.
  - unfold Upload.handleSubmit.
    destruct user as [uid|]; [|cbn; rewrite app_nil_r; auto].
    destruct (String.eqb uid ""); [cbn; rewrite app_nil_r; auto|].
    destruct (_ || _ || _); [cbn; rewrite app_nil_r; auto|].
    rewrite Hf. cbn. rewrite app_nil_r. auto.
Qed.

Lemma nothing_sent_from (w : Upload.world) (es : list Upload.event)
    (s : Upload.State) (sent : list Upload.request) :
  Upload.file s = None ->
  forallb (fun e => negb (is_select e)) es = true ->
  snd (fold_left (Upload.step w) es (s, sent)) = sent
  /\ Upload.file (fst (fold_left (Upload.step w) es (s, sent))) = None.
Proof.
  revert s. induction es as [|e es IH]; intros s Hf Hes; cbn [fold_left].
  - auto.
  - cbn in Hes. apply andb_prop in Hes as [He Hes]. apply negb_true_iff in He.
    destruct (no_file_step w e s sent He Hf) as [F S].
    destruct (Upload.step w (s, sent) e) as [s' sent'] eqn:E. cbn in F, S. subst sent'.
    now apply IH.
Qed.

(** X4: as long as no file is chosen nothing is sent, whatever the user
    commits, validates or submits, and whoever is signed in. *)
Theorem nothing_sent_without_file (w : Upload.world) (s : Upload.State)
    (es : list Upload.event) :
  Upload.file s = None ->
  forallb (fun e => negb (is_select e)) es = true ->
  snd (Upload.session w s es) = []
  /\ Upload.file (fst (Upload.session w s es)) = None.
Proof. intros Hf Hes. now apply nothing_sent_from. Qed.

Lemma nothing_sent_without_file_example :
  snd (Upload.session Spec.page_world Spec.filled_form
         [Upload.Commit; Upload.Validated Spec.big_pdf;
          Upload.Submit (Some "u1") "1741082000000" "1741082000431"]) = []
  /\ Upload.file (fst (Upload.session Spec.page_world Spec.filled_form
                         [Upload.Commit; Upload.Validated Spec.big_pdf;
                          Upload.Submit (Some "u1") "1741082000000" "1741082000431"])) = None.
Proof. apply nothing_sent_without_file; reflexivity. Defined.

Lemma midi_step (w : Upload.world) (e : Upload.event) (s : Upload.State)
    (sent : list Upload.request) :
  Upload.midiFile s = None ->
  Forall (fun row => Upload.midi_url row = None) (inserted sent) ->
  Upload.midiFile (fst (Upload.step w (s, sent) e)) = None
  /\ Forall (fun row => Upload.midi_url row = None)
       (inserted (snd (Upload.step w (s, sent) e))).
Proof.
  intros Hm Hs. destruct e as [f| |f|ok|user now later]; cbn [Upload.step fst snd].
  - cbn. auto.
  - unfold Upload.run_effects, Upload.viewer_effect, Upload.preview_effect.
    split; [|exact Hs]. cbn.
    repeat (match goal with
            | |- context [match ?x with _ => _ end] => destruct x eqn:?
            end; cbn);
      exact Hm.
  - unfold Upload.handleFileChange_end. destruct (Upload.isScore _); cbn; auto.
  - unfold Upload.viewer_loaded. destruct ok; cbn; auto.
  - unfold Upload.handleSubmit.
    destruct user as [uid|]; [|cbn; rewrite app_nil_r; auto].
    destruct (String.eqb uid ""); [cbn; rewrite app_nil_r; auto|].
    destruct (_ || _ || _); [cbn; rewrite app_nil_r; auto|].
    destruct (Upload.file s) as [g|]; [|cbn; rewrite app_nil_r; auto].
    destruct (Upload.isValidFile s) as [[|]|]; try (cbn; rewrite app_nil_r; now auto).
    all: cbv zeta;
    cbn [Upload.setError Upload.midiFile Upload.title Upload.composer Upload.instrument].
    all: rewrite Hm; cbn [mbind option_bind fmap option_fmap option_map].
    all: destruct (Upload.upload_error (Upload.hosted w) _);
      [cbn; unfold inserted; rewrite omap_app; cbn; rewrite app_nil_r; now auto|].
    all: destruct (Upload.insert_error (Upload.hosted w)); cbn;
      (split; [exact Hm || reflexivity|]);
      unfold inserted; rewrite omap_app; cbn;
      (apply Forall_app_2; [exact Hs | apply Forall_cons_2; [reflexivity | apply Forall_nil_2]]).
Qed.

(** X5: no handler of the page sets the MIDI file (the MIDI input calls
    [handleFileChange], which stores what is chosen as the sheet): from a
    form without MIDI file every record inserted has no [midi_url]. *)
Theorem midi_is_never_sent (w : Upload.world) (s : Upload.State)
    (es : list Upload.event) :
  Upload.midiFile s = None ->
  Upload.midiFile (fst (Upload.session w s es)) = None
  /\ Forall (fun row => Upload.midi_url row = None)
       (inserted (snd (Upload.session w s es))).
Proof.
  unfold Upload.session. intros Hm.
  assert (G : forall es s sent,
    Upload.midiFile s = None ->
    Forall (fun row => Upload.midi_url row = None) (inserted sent) ->
    Upload.midiFile (fst (fold_left (Upload.step w) es (s, sent))) = None
    /\ Forall (fun row => Upload.midi_url row = None)
         (inserted (snd (fold_left (Upload.step w) es (s, sent))))).
  { clear. induction es as [|e es IH]; intros s sent Hm Hs; cbn [fold_left]; [auto|].
    destruct (midi_step w e s sent Hm Hs) as [M S].
    destruct (Upload.step w (s, sent) e) as [s' sent']. now apply IH. }
  apply G; [exact Hm | constructor].
Qed.

Lemma midi_is_never_sent_example :
  Upload.midiFile (fst (Upload.session Spec.page_world Spec.filled_form
                          Spec.choose_then_submit)) = None
  /\ Forall (fun row => Upload.midi_url row = None)
       (inserted (snd (Upload.session Spec.page_world Spec.filled_form
                         Spec.choose_then_submit))).
Proof. apply midi_is_never_sent. reflexivity. Defined.

(** X6: a PDF within the size limit is marked valid by the effect that
    prepares the preview, before the validator has answered and whatever
    its first page reads; submitted then, it is sent to the bucket. *)
Theorem pdf_within_limit_needs_no_verdict (w : Upload.world) (s : Upload.State)
    (f : Upload.File) (uid now later : string) :
  Upload.type f = "application/pdf" ->
  (Upload.size f <= Upload.MAX_FILE_SIZE)%N ->
  Upload.osmdInstance s = false ->
  String.eqb uid "" = false ->
  String.eqb (Upload.title s) "" = false ->
  String.eqb (Upload.composer s) "" = false ->
  String.eqb (Upload.instrument s) "" = false ->
  Upload.isValidFile (fst (Upload.session w s [Upload.Select f; Upload.Commit])) = Some true
  /\ head (snd (Upload.session w s
                  [Upload.Select f; Upload.Commit; Upload.Submit (Some uid) now later]))
     = Some (Upload.StorageUpload (uid +:+ "/" +:+ now +:+ "-" +:+ Upload.name f) f).
Proof.
  intros Ht Hs Ho Hu H1 H2 H3.
  unfold Upload.session. cbn [fold_left Upload.step fst snd].
  assert (E : Upload.run_effects (Upload.handleFileChange_begin f s)
              = Upload.setIsLoading false
                  (Upload.setValidationMessage "PDF aceito para upload."
                     (Upload.setIsValidFile (Some true)
                        (Upload.setIsLoading true (Upload.handleFileChange_begin f s))))).
  { unfold Upload.run_effects.
    assert (P : Upload.preview_effect (Upload.handleFileChange_begin f s)
                = Upload.setIsLoading false
                    (Upload.setValidationMessage "PDF aceito para upload."
                       (Upload.setIsValidFile (Some true)
                          (Upload.setIsLoading true (Upload.handleFileChange_begin f s))))).
    { unfold Upload.preview_effect.
      cbn [Upload.handleFileChange_begin Upload.file Upload.set_file Upload.setError
           Upload.setIsValidFile Upload.setValidationMessage Upload.setIsLoading].
      apply N.ltb_ge in Hs. rewrite Hs, Ht. reflexivity. }
    rewrite P. unfold Upload.viewer_effect.
    cbn [Upload.handleFileChange_begin Upload.file Upload.set_file Upload.setError
         Upload.setIsValidFile Upload.setValidationMessage Upload.setIsLoading
         Upload.osmdInstance].
    rewrite Ho. reflexivity. }
  rewrite E. split; [reflexivity|].
  unfold Upload.handleSubmit.
  cbn [Upload.handleFileChange_begin Upload.file Upload.set_file Upload.setError
       Upload.setIsValidFile Upload.setValidationMessage Upload.setIsLoading
       Upload.title Upload.composer Upload.instrument Upload.isValidFile Upload.midiFile].
  rewrite Hu, H1, H2, H3. cbn [orb]. cbv zeta.
  destruct (Upload.upload_error (Upload.hosted w) _); [reflexivity|].
  destruct (Upload.midiFile s ≫= _); [reflexivity|].
  destruct (Upload.insert_error (Upload.hosted w)); reflexivity.
Qed.

Lemma pdf_within_limit_needs_no_verdict_example :
  Upload.isValidFile
    (fst (Upload.session Spec.page_world Spec.filled_form
            [Upload.Select small_pdf; Upload.Commit])) = Some true
  /\ head (snd (Upload.session Spec.page_world Spec.filled_form
                  [Upload.Select small_pdf; Upload.Commit;
                   Upload.Submit (Some "u1") "1741082000000" "1741082000431"]))
     = Some (Upload.StorageUpload
               ("u1" +:+ "/" +:+ "1741082000000" +:+ "-" +:+ Upload.name small_pdf)
               small_pdf).
Proof.
  apply pdf_within_limit_needs_no_verdict; try reflexivity.
  apply N.leb_le. reflexivity.
Defined.

(** X7: once the sheet is removed the verdict is forgotten and nothing is
    sent until another file is chosen. *)
Theorem removed_file_is_not_sent (w : Upload.world) (s : Upload.State)
    (es : list Upload.event) :
  forallb (fun e => negb (is_select e)) es = true ->
  Upload.isValidFile (Upload.run_effects (Upload.removeFile Upload.sheet s)) = None
  /\ snd (Upload.session w (Upload.removeFile Upload.sheet s) es) = []
  /\ Upload.file (fst (Upload.session w (Upload.removeFile Upload.sheet s) es)) = None.
Proof.
  intros Hes. split; [reflexivity|].
  apply nothing_sent_from; [reflexivity | exact Hes].
Qed.

Lemma removed_file_is_not_sent_example :
  Upload.isValidFile (Upload.run_effects (Upload.removeFile Upload.sheet ready_form)) = None
  /\ snd (Upload.session Spec.page_world (Upload.removeFile Upload.sheet ready_form)
            [Upload.Commit; Upload.Submit (Some "u1") "1741082000000" "1741082000431"]) = []
  /\ Upload.file
       (fst (Upload.session Spec.page_world (Upload.removeFile Upload.sheet ready_form)
               [Upload.Commit; Upload.Submit (Some "u1") "1741082000000" "1741082000431"]))
     = None.
Proof. apply removed_file_is_not_sent. reflexivity. Defined.

(** ** The other handlers of the page *)

Section Doubles.
Local Open Scope Z_scope.

(** An integer below 2^53 in magnitude is a double. *)
Lemma round_double_safe (s : Z) : Z.abs s < 2 ^ 53 -> Js.round_double s = s.
Proof.
  intros H. unfold Js.round_double. apply Z.ltb_lt in H. now rewrite H.
Qed.

(** Beyond, the nearest double is at least 2^53 in magnitude. *)
Lemma round_double_magnitude (a : Z) :
  2 ^ 53 <= a ->
  let ulp := 2 ^ (Z.log2 a - 52) in
  let q := a / ulp in
  let r := a mod ulp in
  2 ^ 53 <= (if 2 * r <? ulp then q
             else if ulp <? 2 * r then q + 1
             else if Z.even q then q else q + 1) * ulp.
Proof.
  intros Ha ulp q r.
  assert (Hpos : 0 < a) by (pose proof (Z.pow_pos_nonneg 2 53); lia).
  assert (HL : 53 <= Z.log2 a).
  { change 53 with (Z.log2 (2 ^ 53)). apply Z.log2_le_mono. exact Ha. }
  destruct (Z.log2_spec a Hpos) as [Hlo _].
  assert (Hulp : 2 <= ulp).
  { change 2 with (2 ^ 1) at 1. apply Z.pow_le_mono_r; lia. }
  assert (Hq : 2 ^ 52 <= q).
  { apply Z.div_le_lower_bound; [lia|].
    unfold ulp. rewrite Z.mul_comm, <- Z.pow_add_r by lia.
    replace (52 + (Z.log2 a - 52)) with (Z.log2 a) by lia. exact Hlo. }
  assert (Hq' : q <= (if 2 * r <? ulp then q
                      else if ulp <? 2 * r then q + 1
                      else if Z.even q then q else q + 1)).
  { destruct (2 * r <? ulp); [lia|]. destruct (ulp <? 2 * r); [lia|].
    destruct (Z.even q); lia. }
  change (2 ^ 53) with (2 ^ 52 * 2).
  apply Z.mul_le_mono_nonneg; [apply Z.pow_nonneg | | | ]; lia.
Qed.

Lemma round_double_large (s : Z) : 2 ^ 53 <= s -> 2 ^ 53 <= Js.round_double s.
Proof.
  intros H. unfold Js.round_double.
  assert (Hs : 0 < s) by (pose proof (Z.pow_pos_nonneg 2 53); lia).
  rewrite Z.abs_eq by lia.
  destruct (s <? 2 ^ 53) eqn:E; [apply Z.ltb_lt in E; lia|].
  rewrite Z.sgn_pos by exact Hs. rewrite Z.mul_1_l.
  exact (round_double_magnitude s H).
Qed.

Lemma round_double_small (s : Z) : s <= - 2 ^ 53 -> Js.round_double s <= - 2 ^ 53.
Proof.
  intros H. unfold Js.round_double.
  assert (Hs : s < 0) by (pose proof (Z.pow_pos_nonneg 2 53); lia).
  assert (Ha : 2 ^ 53 <= Z.abs s) by lia.
  destruct (Z.abs s <? 2 ^ 53) eqn:E; [apply Z.ltb_lt in E; lia|].
  rewrite Z.sgn_neg by exact Hs.
  pose proof (round_double_magnitude (Z.abs s) Ha) as M. cbv zeta in M. lia.
Qed.

End Doubles.

(** X8: when the number of pages is an integer from 1 to 2^53 - 1, the
    page shown after [changePage] lies between the first and the last,
    from whatever page and by whatever offset, the sum being that of two
    doubles: the page asked for when it exists, the first or the last
    otherwise. *)
Theorem changePage_stays_in_range (n offset p : Z) :
  (1 <= n)%Z ->
  (n < 2 ^ 53)%Z ->
  (1 <= Upload.changePage (Some n) offset p <= n)%Z
  /\ ((1 <= p + offset <= n)%Z -> Upload.changePage (Some n) offset p = (p + offset)%Z)
  /\ ((p + offset < 1)%Z -> Upload.changePage (Some n) offset p = 1%Z)
  /\ ((n < p + offset)%Z -> Upload.changePage (Some n) offset p = n).
Proof.
  intros Hn Hsafe. unfold Upload.changePage.
  destruct (n =? 0)%Z eqn:E; [apply Z.eqb_eq in E; lia|].
  assert (R : ((Z.abs (p + offset) < 2 ^ 53
               /\ Js.round_double (p + offset) = p + offset)
              \/ (2 ^ 53 <= p + offset /\ 2 ^ 53 <= Js.round_double (p + offset))
              \/ (p + offset <= - 2 ^ 53 /\ Js.round_double (p + offset) <= - 2 ^ 53))%Z).
  { destruct (Z_lt_le_dec (Z.abs (p + offset)) (2 ^ 53)) as [L|L].
    - left. split; [exact L | apply round_double_safe; exact L].
    - right. destruct (Z_le_gt_dec 0 (p + offset)).
      + left. assert (2 ^ 53 <= p + offset)%Z by lia.
        split; [assumption | now apply round_double_large].
      + right. assert (p + offset <= - 2 ^ 53)%Z by lia.
        split; [assumption | now apply round_double_small]. }
  pose proof (Z.pow_pos_nonneg 2 53) as P.
  repeat split; destruct R as [[? ?]|[[? ?]|[? ?]]]; lia.
Qed.

Lemma changePage_stays_in_range_example :
  (1 <= Upload.changePage (Some 3%Z) 1 3 <= 3)%Z
  /\ ((1 <= 3 + 1 <= 3)%Z -> Upload.changePage (Some 3%Z) 1 3 = (3 + 1)%Z)
  /\ ((3 + 1 < 1)%Z -> Upload.changePage (Some 3%Z) 1 3 = 1%Z)
  /\ ((3 < 3 + 1)%Z -> Upload.changePage (Some 3%Z) 1 3 = 3%Z).
Proof. apply changePage_stays_in_range; [lia | reflexivity]. Defined.

(** X9: the progress that [simulateProgress] shows after [n] ticks is
    [5 n] per cent up to 95, where it stays: the simulation never shows the
    upload as complete. *)
Theorem progress_after_ticks (n : nat) :
  Nat.iter n Upload.progress_tick 0%Z = Z.min (5 * Z.of_nat n) 95.
Proof.
  induction n as [|n IH]; [reflexivity|].
  rewrite Nat.iter_succ, IH. unfold Upload.progress_tick.
  destruct (95 <=? Z.min (5 * Z.of_nat n) 95)%Z eqn:E.
  - apply Z.leb_le in E. lia.
  - apply Z.leb_gt in E. lia.
Qed.

(** *** The field of the tags *)

Lemma trimStart_blank (pre s : list N) :
  blank pre -> Js.trimStart (pre ++ s)%list = Js.trimStart s.
Proof.
  induction 1 as [|c pre Hc _ IH]; [reflexivity|].
  cbn [Js.trimStart app]. rewrite Hc. exact IH.
Qed.

Lemma trimStart_visible (c : N) (s : list N) :
  Js.is_whitespace c = false -> Js.trimStart (c :: s) = c :: s.
Proof. intros H. cbn [Js.trimStart app]. rewrite H. reflexivity. Qed.

Lemma trimStart_head (s : list N) :
  Js.trimStart s = []
  \/ exists c u, Js.trimStart s = c :: u /\ Js.is_whitespace c = false.
Proof.
  induction s as [|c s IH]; [left; reflexivity|].
  cbn [Js.trimStart app]. destruct (Js.is_whitespace c) eqn:E; [exact IH|].
  right. exists c, s. split; [reflexivity | exact E].
Qed.

Lemma trimStart_suffix (s : list N) : exists pre, s = (pre ++ Js.trimStart s)%list /\ blank pre.
Proof.
  induction s as [|c s [pre [E B]]]; [exists []; split; [reflexivity | constructor]|].
  cbn [Js.trimStart app]. destruct (Js.is_whitespace c) eqn:W.
  - exists (c :: pre). split; [cbn [app]; f_equal; exact E | constructor; assumption].
  - exists []. split; [reflexivity | constructor].
Qed.

Lemma trimStart_keeps_end (s : list N) (d : N) :
  Js.is_whitespace d = false -> Js.trimStart (s ++ [d])%list = (Js.trimStart s ++ [d])%list.
Proof.
  intros H. induction s as [|c s IH]; [cbn [Js.trimStart app]; rewrite H; reflexivity|].
  cbn [Js.trimStart app]. destruct (Js.is_whitespace c); [exact IH | reflexivity].
Qed.

Lemma trimEnd_blank (s post : list N) :
  blank post -> Js.trimEnd (s ++ post)%list = Js.trimEnd s.
Proof.
  intros B. unfold Js.trimEnd. rewrite rev_app_distr, trimStart_blank; [reflexivity|].
  apply Forall_rev. exact B.
Qed.

Lemma trimEnd_visible (s : list N) (d : N) :
  Js.is_whitespace d = false -> Js.trimEnd (s ++ [d])%list = (s ++ [d])%list.
Proof.
  intros H. unfold Js.trimEnd. rewrite rev_app_distr. cbn [rev app].
  rewrite trimStart_visible by exact H.
  change (d :: rev s) with (rev [d] ++ rev s)%list.
  rewrite <- rev_app_distr, rev_involutive. reflexivity.
Qed.

Lemma trimEnd_keeps_start (c : N) (s : list N) :
  Js.is_whitespace c = false -> Js.trimEnd (c :: s) = c :: Js.trimEnd s.
Proof.
  intros H. unfold Js.trimEnd. cbn [rev].
  rewrite trimStart_keeps_end by exact H.
  rewrite rev_app_distr. reflexivity.
Qed.

Lemma trimEnd_end (s : list N) :
  Js.trimEnd s = []
  \/ exists u d, Js.trimEnd s = (u ++ [d])%list /\ Js.is_whitespace d = false.
Proof.
  unfold Js.trimEnd. destruct (trimStart_head (rev s)) as [E|[d [u [E W]]]]; rewrite E.
  - left. reflexivity.
  - right. exists (rev u), d. split; [reflexivity | exact W].
Qed.

(** What [trim] leaves is empty or begins and ends with a visible unit. *)
Lemma trim_trimmed (s : list N) : Js.trim s = [] \/ trimmed (Js.trim s).
Proof.
  unfold Js.trim.
  destruct (trimStart_head s) as [E|[c [u [E W]]]]; rewrite E; [left; reflexivity|].
  right. rewrite trimEnd_keeps_start by exact W. split.
  - exists c, (Js.trimEnd u). split; [reflexivity | exact W].
  - rewrite <- (trimEnd_keeps_start c u W).
    destruct (trimEnd_end (c :: u)) as [E'|H]; [|exact H].
    rewrite trimEnd_keeps_start in E' by exact W. discriminate E'.
Qed.

(** A trimmed text between blanks is what [trim] gives back. *)
Lemma trim_padded (pre s post : list N) :
  blank pre -> blank post -> trimmed s -> Js.trim (pre ++ s ++ post)%list = s.
Proof.
  intros Bpre Bpost [[c [u [E W]]] [u' [d [E' W']]]].
  unfold Js.trim. rewrite trimStart_blank by exact Bpre.
  rewrite E. cbn [app]. rewrite trimStart_visible by exact W.
  change (c :: (u ++ post)%list) with ((c :: u) ++ post)%list.
  rewrite trimEnd_blank by exact Bpost.
  rewrite <- E, E'. apply trimEnd_visible. exact W'.
Qed.

Lemma trim_of_trimmed (s : list N) : trimmed s -> Js.trim s = s.
Proof.
  intros H. rewrite <- (trim_padded [] s [] (Forall_nil_2 _) (Forall_nil_2 _) H) at 2.
  cbn [app]. rewrite app_nil_r. reflexivity.
Qed.

Lemma trimStart_In (s : list N) (c : N) : In c (Js.trimStart s) -> In c s.
Proof.
  destruct (trimStart_suffix s) as [pre [E _]]. intros H.
  rewrite E. apply in_or_app. right. exact H.
Qed.

Lemma trim_In (s : list N) (c : N) : In c (Js.trim s) -> In c s.
Proof.
  unfold Js.trim, Js.trimEnd. intros H.
  apply trimStart_In. apply in_rev. apply trimStart_In. apply in_rev in H. exact H.
Qed.

Lemma split_units_no_sep (sep : N) (s p : list N) :
  In p (Js.split_units sep s) -> ~ In sep p.
Proof.
  revert p. induction s as [|c s IH]; intros p.
  - cbn [Js.split_units app In]. intros [<-|[]] [].
  - cbn [Js.split_units app In]. destruct (c =? sep)%N eqn:E.
    + intros [<-|H]; [intros [] | apply IH; exact H].
    + apply N.eqb_neq in E.
      destruct (Js.split_units sep s) as [|q qs] eqn:S.
      * intros [<-|[]] [H|[]]. congruence.
      * intros [<-|H].
        -- intros [H|H]; [congruence|]. apply (IH q); [left; reflexivity | exact H].
        -- apply IH. right. exact H.
Qed.

Lemma split_units_piece (sep : N) (a : list N) :
  ~ In sep a -> Js.split_units sep a = [a].
Proof.
  induction a as [|c a IH]; [reflexivity|].
  intros H. cbn [Js.split_units app In]. destruct (c =? sep)%N eqn:E.
  - apply N.eqb_eq in E. exfalso. apply H. left. exact E.
  - rewrite IH; [reflexivity|]. intros H'. apply H. right. exact H'.
Qed.

Lemma split_units_at_sep (sep : N) (a rest : list N) :
  ~ In sep a ->
  Js.split_units sep (a ++ sep :: rest)%list = a :: Js.split_units sep rest.
Proof.
  induction a as [|c a IH]; intros H.
  - cbn [Js.split_units app In]. rewrite N.eqb_refl. reflexivity.
  - cbn [Js.split_units app In]. destruct (c =? sep)%N eqn:E.
    + apply N.eqb_eq in E. exfalso. apply H. left. exact E.
    + rewrite IH; [reflexivity|]. intros H'. apply H. right. exact H'.
Qed.

Lemma kept_not_empty (tag : list N) : kept tag -> tag <> [].
Proof. intros [[[c [u [E _]]] _] _]. rewrite E. discriminate. Qed.

Lemma handleTagsChange_kept (value : list N) :
  Forall kept (Upload.handleTagsChange value).
Proof.
  unfold Upload.handleTagsChange.
  apply Forall_forall. intros tag H.
  apply list_elem_of_In in H.
  apply filter_In in H. destruct H as [H Hn].
  apply in_map_iff in H. destruct H as [p [<- Hp]].
  split.
  - destruct (trim_trimmed p) as [E|T]; [rewrite E in Hn; discriminate Hn | exact T].
  - intros H. apply trim_In in H. exact (split_units_no_sep _ _ _ Hp H).
Qed.

Lemma space_not_comma : ~ In 44%N [32%N].
Proof. intros [H|[]]. discriminate H. Qed.

Lemma blank_space : blank [32%N].
Proof. constructor; [reflexivity | constructor]. Qed.

Lemma no_comma_app (a b : list N) : ~ In 44%N a -> ~ In 44%N b -> ~ In 44%N (a ++ b)%list.
Proof. intros Ha Hb H. apply in_app_or in H. tauto. Qed.

Lemma handle_one (pre tag post : list N) :
  blank pre -> ~ In 44%N pre -> blank post -> ~ In 44%N post -> kept tag ->
  Upload.handleTagsChange (pre ++ tag ++ post)%list = [tag].
Proof.
  intros Bp Cp Bq Cq [T C]. unfold Upload.handleTagsChange.
  rewrite split_units_piece by (repeat apply no_comma_app; assumption).
  cbn [map]. rewrite trim_padded by assumption.
  cbn [List.filter]. destruct tag; [destruct T as [[? [? [? _]]] _]; discriminate | reflexivity].
Qed.

Lemma handle_first (pre tag rest : list N) :
  blank pre -> ~ In 44%N pre -> kept tag ->
  Upload.handleTagsChange (pre ++ tag ++ 44%N :: rest)%list
  = tag :: Upload.handleTagsChange rest.
Proof.
  intros Bp Cp [T C]. unfold Upload.handleTagsChange.
  rewrite app_assoc, split_units_at_sep by (apply no_comma_app; assumption).
  cbn [map]. rewrite <- (app_nil_r (pre ++ tag)%list), <- app_assoc.
  rewrite trim_padded by (try assumption; constructor).
  cbn [List.filter]. destruct tag; [destruct T as [[? [? [? _]]] _]; discriminate | reflexivity].
Qed.

(** The text of the field, with blanks in front and a tail behind, read
    again. *)
Lemma handle_joined (tags : list (list N)) :
  Forall kept tags ->
  forall pre post : list N,
    blank pre -> ~ In 44%N pre ->
    (post = [] \/ post = [32%N] \/ post = [44%N]) ->
    Upload.handleTagsChange (pre ++ Upload.tags_value tags ++ post)%list = tags.
Proof.
  unfold Upload.tags_value.
  induction 1 as [|tag tags K _ IH]; intros pre post Bp Cp Hpost.
  - cbn [Js.join_units app].
    destruct Hpost as [->|[->| ->]].
    + rewrite app_nil_r. unfold Upload.handleTagsChange.
      rewrite split_units_piece by exact Cp. cbn [map].
      replace (Js.trim pre) with (@nil N); [reflexivity|].
      unfold Js.trim. rewrite <- (app_nil_r pre), trimStart_blank by exact Bp. reflexivity.
    + unfold Upload.handleTagsChange.
      rewrite split_units_piece by (apply no_comma_app; [exact Cp | exact space_not_comma]).
      cbn [map].
      replace (Js.trim (pre ++ [32%N])%list) with (@nil N); [reflexivity|].
      unfold Js.trim. rewrite <- (app_nil_r (pre ++ [32%N])%list), trimStart_blank; [reflexivity|].
      apply Forall_app_2; [exact Bp | exact blank_space].
    + unfold Upload.handleTagsChange.
      rewrite split_units_at_sep by exact Cp. cbn [Js.split_units map].
      replace (Js.trim pre) with (@nil N); [reflexivity|].
      unfold Js.trim. rewrite <- (app_nil_r pre), trimStart_blank by exact Bp. reflexivity.
  - destruct tags as [|tag' tags'].
    + cbn [Js.join_units].
      destruct Hpost as [->|[->| ->]].
      * apply handle_one; try assumption; [constructor | intros []].
      * apply handle_one; try assumption; [exact blank_space | exact space_not_comma].
      * rewrite handle_first by assumption. reflexivity.
    + change (Js.join_units [44%N; 32%N] (tag :: tag' :: tags'))
        with (tag ++ [44%N; 32%N] ++ Js.join_units [44%N; 32%N] (tag' :: tags'))%list.
      rewrite <- !app_assoc. cbn [app].
      rewrite handle_first by assumption. f_equal.
      exact (IH [32%N] post blank_space space_not_comma Hpost).
Qed.

(** X10: whatever is typed in the field, no tag is empty, none contains a
    comma and none begins or ends with white space. *)
Theorem tags_are_trimmed_and_not_empty (value : list N) :
  Forall (fun tag => tag <> [] /\ ~ In 44%N tag /\ Js.trim tag = tag)
         (Upload.handleTagsChange value).
Proof.
  eapply Forall_impl; [apply handleTagsChange_kept|].
  intros tag K. split; [exact (kept_not_empty _ K)|].
  destruct K as [T C]. split; [exact C | exact (trim_of_trimmed _ T)].
Qed.

(** X11: the field shows the tags joined by a comma and a space; read
    again, that text gives the same tags, and so does that text followed by
    a comma or by a space: a separator typed at the end of the field is
    dropped when the field is shown again. *)
Theorem typed_separator_is_dropped (value : list N) :
  let tags := Upload.handleTagsChange value in
  Upload.handleTagsChange (Upload.tags_value tags) = tags
  /\ Upload.handleTagsChange (Upload.tags_value tags ++ [44%N])%list = tags
  /\ Upload.handleTagsChange (Upload.tags_value tags ++ [32%N])%list = tags.
Proof.
  intros tags.
  assert (H : forall post, post = [] \/ post = [32%N] \/ post = [44%N] ->
              Upload.handleTagsChange (Upload.tags_value tags ++ post)%list = tags).
  { intros post Hp.
    exact (handle_joined tags (handleTagsChange_kept value) [] post
             (Forall_nil_2 _) (fun F => F) Hp). }
  repeat split.
  - rewrite <- (app_nil_r (Upload.tags_value tags)). apply H. tauto.
  - apply H. tauto.
  - apply H. tauto.
Qed.

(** ** Runs of the services *)

(** X12: when the web service returns from a conversion, every record of
    the file is completed with the returned [mei_url] and [public_url] and
    is otherwise as before, its earlier [conversion_error] included; no
    other record has changed; the bucket holds under [mei_url] the template
    filled with the name of the file and the date; the public address is
    the one that the storage gave; the extension is one that the service
    converts; and nothing is left of the work directory. *)
Theorem render_returned_run (e : Backend.Env) (fid path ft : string)
    (w w' : Backend.World) (r : Backend.converted) :
  Render.processFile e fid path ft w = (w', inr r) ->
  Backend.music_sheets w'
  = Backend.update_rows fid
      (Backend.set_completed (Backend.res_mei_url r) (Backend.res_public_url r))
      (Backend.music_sheets w)
  /\ Backend.bucket w' !! Backend.res_mei_url r
     = Some (Backend.meiTemplate (Render.basename path) (Backend.isodate e))
  /\ Backend.res_public_url r = Backend.publicUrl e
  /\ Spec.render_converts path = true
  /\ (forall p, Backend.under ("temp/" +:+ fid) p = true -> Backend.tmp w' !! p = None).
Proof.
  intros E. destruct (render_returned_table _ _ _ _ _ _ _ E) as (T & P & C).
  split; [exact T|]. split; [exact (render_returned_bucket _ _ _ _ _ _ _ E)|].
  split; [exact P|]. split; [exact C|].
  intros p. exact (render_returned_tmp _ _ _ _ _ _ _ p E).
Qed.

Lemma render_returned_run_example :
  Backend.music_sheets
    (fst (Render.processFile (Spec.no_fault Spec.two_measures Spec.morning)
            "42" "u1/1741082000000-song.musicxml" "musicxml"
            (Spec.world_of [song_failed; Spec.other_song])))
  = Backend.update_rows "42"
      (Backend.set_completed (Backend.res_mei_url converted_song)
         (Backend.res_public_url converted_song))
      [song_failed; Spec.other_song].
Proof.
  apply (render_returned_run (Spec.no_fault Spec.two_measures Spec.morning)
           "42" "u1/1741082000000-song.musicxml" "musicxml"
           (Spec.world_of [song_failed; Spec.other_song]) _ converted_song).
  vm_compute. reflexivity.
Defined.

(** X13: the same for the edge function, which puts the records in
    progress itself and may leave its work directory behind. *)
Theorem edge_returned_run (e : Backend.Env) (fid path ft : string)
    (w w' : Backend.World) (r : Backend.converted) :
  Edge.processFile e fid path ft w = (w', inr r) ->
  Backend.music_sheets w'
  = Backend.update_rows fid
      (Backend.set_completed (Backend.res_mei_url r) (Backend.res_public_url r))
      (Backend.music_sheets w)
  /\ Backend.bucket w' !! Backend.res_mei_url r
     = Some (Backend.meiTemplate (Edge.fileName path) (Backend.isodate e))
  /\ Backend.res_public_url r = Backend.publicUrl e
  /\ Spec.edge_converts path = true.
Proof.
  intros E. destruct (edge_returned_table _ _ _ _ _ _ _ E) as (T & P & C).
  split; [exact T|]. split; [exact (edge_returned_bucket _ _ _ _ _ _ _ E)|].
  split; [exact P | exact C].
Qed.

Lemma edge_returned_run_example :
  Backend.music_sheets
    (fst (Edge.processFile (Spec.no_fault Spec.two_measures Spec.morning)
            "42" "u1/1741082000000-song.musicxml" "musicxml"
            (Spec.world_of [song_failed; Spec.other_song])))
  = Backend.update_rows "42"
      (Backend.set_completed (Backend.res_mei_url converted_song)
         (Backend.res_public_url converted_song))
      [song_failed; Spec.other_song].
Proof.
  apply (edge_returned_run (Spec.no_fault Spec.two_measures Spec.morning)
           "42" "u1/1741082000000-song.musicxml" "musicxml"
           (Spec.world_of [song_failed; Spec.other_song]) _ converted_song).
  vm_compute. reflexivity.
Defined.

(** X14: when the table accepts the update, a conversion that throws has
    marked every record of the file failed, with the message of the error
    thrown as [conversion_error] (for the web service "Erro desconhecido"
    when the error has no message; for the edge function when what was
    thrown is not an [Error]); for the edge function, provided that the
    table had accepted to put the records in progress. *)
Theorem failed_run_is_recorded (e : Backend.Env) (fid path ft : string)
    (w : Backend.World) :
  Backend.failed_answer e = None ->
  (forall w' err,
     Render.processFile e fid path ft w = (w', inl err) ->
     Forall (failed_with (Js.or_else (Backend.message err) "Erro desconhecido"))
       (List.filter (fun r => String.eqb (Backend.id r) fid) (Backend.music_sheets w')))
  /\ (forall w' err,
        Edge.processFile e fid path ft w = (w', inl err) ->
        Backend.processing_answer e = None ->
        Forall (failed_with (Edge.error_text err))
          (List.filter (fun r => String.eqb (Backend.id r) fid) (Backend.music_sheets w'))).
Proof.
  intros Hf. split.
  - intros w' err E. exact (render_thrown_table _ _ _ _ _ _ _ E Hf).
  - intros w' err E Hp. exact (edge_thrown_table _ _ _ _ _ _ _ E Hp Hf).
Qed.

Lemma failed_run_is_recorded_example :
  Forall (failed_with "Erro ao baixar arquivo: Object not found")
    (List.filter (fun r => String.eqb (Backend.id r) "13")
       (Backend.music_sheets
          (fst (Render.processFile Spec.not_found "13" "u1/1741081000000-lost.pdf" "pdf"
                  (Spec.world_of [Spec.lost; Spec.song]))))).
Proof.
  assert (H0 : Backend.failed_answer Spec.not_found = None) by reflexivity.
  apply (proj1 (failed_run_is_recorded Spec.not_found "13" "u1/1741081000000-lost.pdf" "pdf"
                  (Spec.world_of [Spec.lost; Spec.song]) H0)
           _ (Backend.MkError true "Erro ao baixar arquivo: Object not found")).
  vm_compute. reflexivity.
Defined.

(** X15: when the table refuses to put the records in progress, the edge
    function throws that refusal and has done nothing else: the table, the
    bucket and the local files are as before, and the records are not
    marked failed. *)
Theorem edge_refused_start_changes_nothing
    (e : Backend.Env) (fid path ft : string) (w : Backend.World) (err : Backend.JsError) :
  Backend.processing_answer e = Some err ->
  snd (Edge.processFile e fid path ft w) = inl err
  /\ Backend.music_sheets (fst (Edge.processFile e fid path ft w)) = Backend.music_sheets w
  /\ Backend.bucket (fst (Edge.processFile e fid path ft w)) = Backend.bucket w
  /\ Backend.tmp (fst (Edge.processFile e fid path ft w)) = Backend.tmp w.
Proof.
  intros Hp. unfold Edge.processFile.
  unfold mbind, Backend.M_bind, Backend.log, Backend.update_eq_id, Backend.throw,
    Backend.try_catch.
  rewrite Hp. cbn. repeat split.
Qed.

Lemma edge_refused_start_changes_nothing_example :
  snd (Edge.processFile refuses_start "42" "u1/1741082000000-song.musicxml" "musicxml"
         (Spec.world_of [Spec.song])) = inl denied
  /\ Backend.music_sheets
       (fst (Edge.processFile refuses_start "42" "u1/1741082000000-song.musicxml" "musicxml"
               (Spec.world_of [Spec.song])))
     = Backend.music_sheets (Spec.world_of [Spec.song])
  /\ Backend.bucket
       (fst (Edge.processFile refuses_start "42" "u1/1741082000000-song.musicxml" "musicxml"
               (Spec.world_of [Spec.song])))
     = Backend.bucket (Spec.world_of [Spec.song])
  /\ Backend.tmp
       (fst (Edge.processFile refuses_start "42" "u1/1741082000000-song.musicxml" "musicxml"
               (Spec.world_of [Spec.song])))
     = Backend.tmp (Spec.world_of [Spec.song]).
Proof. apply edge_refused_start_changes_nothing. reflexivity. Defined.

(** *** Formats *)

(** X16: a file of an extension that the web service does not convert
    makes the conversion throw, whatever the hosted services answer, and
    nothing is stored in the bucket; when the file could be fetched and
    written and its extension is ASCII text, the error is "Formato não
    suportado: " followed by the extension in lower case. *)
Theorem render_refuses_other_formats
    (e : Backend.Env) (fid path ft : string) (w : Backend.World) :
  Spec.render_converts path = false ->
  exists err,
    snd (Render.processFile e fid path ft w) = inl err
    /\ Backend.bucket (fst (Render.processFile e fid path ft w)) = Backend.bucket w
    /\ (Backend.mkdir_answer e = None ->
        (exists bytes, Backend.download_answer e = inr bytes) ->
        Backend.write_answer e (("temp/" +:+ fid) +:+ "/" +:+ Render.basename path) = None ->
        Js.is_ascii (Render.extname (Render.basename path)) = true ->
        err = Backend.MkError true
                ("Formato não suportado: "
                 +:+ Js.drop_chars 1 (Js.toLowerCase (Render.extname (Render.basename path))))).
Proof.
  intros Hx. unfold Spec.render_converts in Hx. cbv zeta in Hx.
  apply orb_false_iff in Hx. destruct Hx as [Hpdf Hxml].
  unfold Render.processFile, Render.mkdir, Backend.try_catch.
  cbv zeta.
  unfold mbind at 1. unfold Backend.M_bind at 1. unfold Backend.throw_if.
  destruct (Backend.mkdir_answer e) as [m|].
  { cbn. destruct (Backend.failed_answer e); cbn;
      (eexists; split; [reflexivity | split; [reflexivity | intros H; discriminate H]]). }
  cbn [mret Backend.M_ret].
  unfold mbind at 1. unfold Backend.M_bind at 1. unfold Backend.storage_download.
  destruct (Backend.download_answer e) as [d|bytes].
  { cbn. destruct (Backend.failed_answer e); cbn;
      (eexists; split; [reflexivity | split; [reflexivity | intros _ [b H]; discriminate H]]). }
  cbn [mret Backend.M_ret].
  unfold mbind at 1. unfold Backend.M_bind at 1. unfold Backend.writeFile at 1.
  destruct (Backend.write_answer e _) as [x|].
  { cbn. destruct (Backend.failed_answer e); cbn;
      (eexists; split; [reflexivity | split; [reflexivity | intros _ _ H; discriminate H]]). }
  unfold mbind at 1. unfold Backend.M_bind at 1.
  rewrite Hpdf, Hxml. cbn.
  destruct (Backend.failed_answer e); cbn;
    (eexists; split; [reflexivity | split; [reflexivity | intros _ _ _ _; reflexivity]]).
Qed.

Lemma render_refuses_other_formats_example :
  exists err,
    snd (Render.processFile (Spec.no_fault Spec.two_measures Spec.morning)
           "42" photo_path "png" (Spec.world_of [Spec.song])) = inl err
    /\ Backend.bucket
         (fst (Render.processFile (Spec.no_fault Spec.two_measures Spec.morning)
                 "42" photo_path "png" (Spec.world_of [Spec.song])))
       = Backend.bucket (Spec.world_of [Spec.song])
    /\ (Backend.mkdir_answer (Spec.no_fault Spec.two_measures Spec.morning) = None ->
        (exists bytes,
           Backend.download_answer (Spec.no_fault Spec.two_measures Spec.morning) = inr bytes) ->
        Backend.write_answer (Spec.no_fault Spec.two_measures Spec.morning)
          (("temp/" +:+ "42") +:+ "/" +:+ Render.basename photo_path) = None ->
        Js.is_ascii (Render.extname (Render.basename photo_path)) = true ->
        err = Backend.MkError true
                ("Formato não suportado: "
                 +:+ Js.drop_chars 1
                       (Js.toLowerCase (Render.extname (Render.basename photo_path))))).
Proof. apply render_refuses_other_formats. vm_compute. reflexivity. Defined.

(** X17: the same for the edge function, which converts SVG as well:
    the error is then "Tipo de arquivo não suportado: " followed by the
    extension in lower case, when that extension is ASCII text. *)
Theorem edge_refuses_other_formats
    (e : Backend.Env) (fid path ft : string) (w : Backend.World) :
  Spec.edge_converts path = false ->
  exists err,
    snd (Edge.processFile e fid path ft w) = inl err
    /\ Backend.bucket (fst (Edge.processFile e fid path ft w)) = Backend.bucket w
    /\ (Backend.processing_answer e = None ->
        (exists bytes, Backend.download_answer e = inr bytes) ->
        Backend.write_answer e (("/tmp/convert-" +:+ fid) +:+ "/" +:+ Edge.fileName path) = None ->
        Js.is_ascii (default "" (Js.pop (Js.split_on "." (Edge.fileName path)))) = true ->
        err = Backend.MkError true
                ("Tipo de arquivo não suportado: "
                 +:+ Js.toLowerCase
                       (Js.or_else
                          (default "" (Js.pop (Js.split_on "." (Edge.fileName path))))
                          ""))).
Proof.
  intros Hx. unfold Spec.edge_converts in Hx. cbv zeta in Hx.
  apply orb_false_iff in Hx. destruct Hx as [Hx Hsvg].
  apply orb_false_iff in Hx. destruct Hx as [Hpdf Hxml].
  unfold Edge.processFile.
  unfold mbind at 1 2. unfold Backend.M_bind at 1 2.
  unfold Backend.log at 1. unfold Backend.update_eq_id at 1.
  destruct (Backend.processing_answer e) as [p|].
  { cbn. eexists; split; [reflexivity | split; [reflexivity | intros H; discriminate H]]. }
  unfold mbind at 1. unfold Backend.M_bind at 1. cbn [mret Backend.M_ret].
  unfold Backend.try_catch. cbv zeta.
  unfold mbind at 1. unfold Backend.M_bind at 1.
  destruct (Backend.download_answer e) as [d|bytes].
  { cbn. destruct (Backend.failed_answer e); cbn;
      (eexists; split; [reflexivity | split; [reflexivity | intros _ [b H]; discriminate H]]). }
  unfold Backend.storage_download. cbn [mret Backend.M_ret].
  unfold mbind at 1. unfold Backend.M_bind at 1.
  destruct (Backend.mkdir_answer e) as [m|].
  all: cbn [mret Backend.M_ret Backend.log].
  all: unfold mbind at 1; unfold Backend.M_bind at 1; unfold Backend.writeFile at 1.
  all: destruct (Backend.write_answer e _) as [x|];
    [cbn; destruct (Backend.failed_answer e); cbn;
     (eexists; split; [reflexivity | split; [reflexivity | intros _ _ H; discriminate H]])|].
  all: unfold mbind at 1; unfold Backend.M_bind at 1.
  all: rewrite Hpdf, Hxml, Hsvg; cbn.
  all: destruct (Backend.failed_answer e); cbn;
    (eexists; split; [reflexivity | split; [reflexivity | intros _ _ _ _; reflexivity]]).
Qed.

Lemma edge_refuses_other_formats_example :
  exists err,
    snd (Edge.processFile (Spec.no_fault Spec.two_measures Spec.morning)
           "42" photo_path "png" (Spec.world_of [Spec.song])) = inl err
    /\ Backend.bucket
         (fst (Edge.processFile (Spec.no_fault Spec.two_measures Spec.morning)
                 "42" photo_path "png" (Spec.world_of [Spec.song])))
       = Backend.bucket (Spec.world_of [Spec.song])
    /\ (Backend.processing_answer (Spec.no_fault Spec.two_measures Spec.morning) = None ->
        (exists bytes,
           Backend.download_answer (Spec.no_fault Spec.two_measures Spec.morning) = inr bytes) ->
        Backend.write_answer (Spec.no_fault Spec.two_measures Spec.morning)
          (("/tmp/convert-" +:+ "42") +:+ "/" +:+ Edge.fileName photo_path) = None ->
        Js.is_ascii (default "" (Js.pop (Js.split_on "." (Edge.fileName photo_path)))) = true ->
        err = Backend.MkError true
                ("Tipo de arquivo não suportado: "
                 +:+ Js.toLowerCase
                       (Js.or_else
                          (default "" (Js.pop (Js.split_on "." (Edge.fileName photo_path))))
                          ""))).
Proof. apply edge_refuses_other_formats. vm_compute. reflexivity. Defined.

(** ** The web service: start, end and status *)

Section WebService.
Import Js Backend Spec.

Lemma or_else_not_empty (x d : string) : d <> "" -> or_else x d <> "".
Proof.
  intros Hd. unfold or_else. destruct (String.eqb x "") eqn:E; [exact Hd|].
  now apply String.eqb_neq in E.
Qed.

Lemma failed_with_finished (msg : string) (rows : list Row) :
  msg <> "" -> Forall (failed_with msg) rows -> Forall finished rows.
Proof.
  intros Hm H. eapply Forall_impl; [exact H|].
  intros r [Hs He]. right. split; [exact Hs|]. exists msg. now split.
Qed.

Lemma ids_of_file (fid : string) (rows : list Row) :
  map id (List.filter (fun r => String.eqb (id r) fid) rows)
  = List.filter (fun i => String.eqb i fid) (map id rows).
Proof.
  induction rows as [|r rows IH]; [reflexivity|].
  cbn [map List.filter]. destruct (String.eqb (id r) fid); cbn [map]; now rewrite IH.
Qed.

Lemma get_status_of_one (fid : string) (w : World) (r : Row) :
  String.eqb fid "" = false ->
  List.filter (fun r => String.eqb (id r) fid) (music_sheets w) = [r] ->
  Render.get_status (inr None) fid w
  = MkResponse 200
      (JObject [("status", Render.json_of_status (conversion_status r));
                ("error", error_json r)]).
Proof. intros Hf H. unfold Render.get_status. rewrite Hf, H. reflexivity. Qed.

Lemma update_rows_absent (fid : string) (f : Row -> Row) (rows : list Row) :
  absent fid rows -> update_rows fid f rows = rows.
Proof.
  intros H. unfold update_rows. rewrite <- (map_id rows) at 2.
  apply map_ext_in. intros r Hr.
  destruct (String.eqb (id r) fid) eqn:E; [|reflexivity].
  apply String.eqb_eq in E. now apply H in Hr.
Qed.

Lemma filter_other_absent (fid : string) (rows : list Row) :
  absent fid rows -> List.filter (other fid) rows = rows.
Proof.
  intros H. induction rows as [|r rows IH]; [reflexivity|].
  cbn [List.filter]. unfold other at 1.
  destruct (String.eqb (id r) fid) eqn:E.
  - apply String.eqb_eq in E. exfalso. apply (H r); [left; reflexivity | exact E].
  - cbn [negb]. rewrite IH; [reflexivity|]. intros r' Hr'. apply H. right. exact Hr'.
Qed.

Lemma absent_by_ids (fid : string) (rows rows' : list Row) :
  map id rows' = map id rows -> absent fid rows -> absent fid rows'.
Proof.
  intros Hi H r Hr E.
  apply (in_map id) in Hr. rewrite Hi in Hr. apply in_map_iff in Hr.
  destruct Hr as [r0 [E0 Hr0]]. apply (H r0 Hr0). congruence.
Qed.

Lemma untouched_absent (fid : string) (w0 w : World) :
  untouched fid w0 w -> absent fid (music_sheets w0) ->
  music_sheets w = music_sheets w0.
Proof.
  intros (Hi & Ho) H.
  rewrite <- (filter_other_absent fid (music_sheets w)) by exact (absent_by_ids _ _ _ Hi H).
  rewrite Ho. apply filter_other_absent. exact H.
Qed.

Lemma filter_of_absent (fid : string) (rows : list Row) :
  absent fid rows -> List.filter (fun r => String.eqb (id r) fid) rows = [].
Proof.
  intros H. induction rows as [|r rows IH]; [reflexivity|].
  cbn [List.filter]. destruct (String.eqb (id r) fid) eqn:E.
  - apply String.eqb_eq in E. exfalso. apply (H r); [left; reflexivity | exact E].
  - apply IH. intros r' Hr'. apply H. right. exact Hr'.
Qed.

Lemma call_refused (prefix statusText msg : string) (status : nat) (body : json) :
  Client.ok status = false ->
  field "error" body = Some (JString msg) ->
  msg <> "" ->
  Client.call prefix (Client.Answered status statusText (inr body))
  = inl (MkError true (prefix +:+ msg)).
Proof.
  intros Hok Hf Hm. unfold Client.call. rewrite Hok.
  destruct body as [| | | |fields]; try discriminate Hf.
  unfold Client.error_or_statusText. rewrite Hf.
  cbn [Client.truthy Client.text_of].
  apply String.eqb_neq in Hm. rewrite Hm. reflexivity.
Qed.

End WebService.

(** X18: when [POST /convert] has answered 200 and the conversion it left
    running has ended, every record of the file is completed, or failed
    with a text that is not empty, provided that the table accepted one of
    the two updates that mark a failure: no record is left in progress. *)
Theorem post_convert_settles
    (e : Backend.Env) (req : Backend.ConversionRequest) (w : Backend.World) :
  Backend.status (snd (Render.post_convert e req w)) = 200 ->
  Backend.failed_answer e = None \/ Backend.refailed_answer e = None ->
  Forall finished
    (List.filter (fun r => String.eqb (Backend.id r) (Backend.fileId req))
       (Backend.music_sheets (fst (Render.post_convert e req w)))).
Proof.
  intros H200 Ha. unfold Render.post_convert in *.
  destruct (Render.post_convert_respond e req w) as [w1 answer] eqn:R.
  destruct (Nat.eqb (Backend.status answer) 200) eqn:S;
    [|cbn [snd] in H200; rewrite H200 in S; discriminate S].
  cbn [fst]. unfold Render.post_convert_background.
  destruct (Render.processFile e _ _ _ w1) as [w' [error|result]] eqn:E.
  - unfold Backend.update_eq_id.
    destruct (Backend.refailed_answer e) as [refused|] eqn:Rf.
    + destruct Ha as [Hf|Hr]; [|discriminate Hr].
      cbn [fst Backend.log Backend.music_sheets].
      eapply failed_with_finished;
        [|exact (render_thrown_table _ _ _ _ _ _ _ E Hf)].
      apply or_else_not_empty. discriminate.
    + cbn [fst Backend.log Backend.music_sheets].
      eapply failed_with_finished; [|apply update_rows_failed].
      apply or_else_not_empty. discriminate.
  - apply render_returned_table in E. destruct E as (E & _).
    cbn [fst Backend.log Backend.music_sheets]. rewrite E.
    rewrite update_rows_of_file by reflexivity.
    apply Forall_forall. intros r H. apply list_elem_of_In, in_map_iff in H.
    destruct H as [r0 [<- _]]. left. reflexivity.
Qed.

Lemma post_convert_settles_example :
  Forall finished
    (List.filter (fun r => String.eqb (Backend.id r) (Backend.fileId convert_lost))
       (Backend.music_sheets
          (fst (Render.post_convert Spec.not_found convert_lost
                  (Spec.world_of [Spec.lost; Spec.song]))))).
Proof.
  apply post_convert_settles; [vm_compute; reflexivity | left; reflexivity].
Defined.

(** X19: for a file with one record, when the query of the status
    endpoint is answered without error and the table accepts the update
    with which [processFile] marks a failure, the endpoint after a
    conversion by the web service answers 200 and tells how it ended:
    "completed" with, as [error], the text that an earlier failure had left
    in the record (or null), or "failed" with the message of the error
    thrown. *)
Theorem status_follows_the_run
    (e : Backend.Env) (fid path ft : string) (w : Backend.World) (r0 : Backend.Row) :
  String.eqb fid "" = false ->
  List.filter (fun r => String.eqb (Backend.id r) fid) (Backend.music_sheets w) = [r0] ->
  Backend.failed_answer e = None ->
  match Render.processFile e fid path ft w with
  | (w', inr _) =>
      Render.get_status (inr None) fid w'
      = Backend.MkResponse 200
          (Backend.JObject [("status", Backend.JString "completed");
                            ("error", error_json r0)])
  | (w', inl err) =>
      Render.get_status (inr None) fid w'
      = Backend.MkResponse 200
          (Backend.JObject
             [("status", Backend.JString "failed");
              ("error", Backend.JString (Js.or_else (Backend.message err) "Erro desconhecido"))])
  end.
Proof.
  intros Hf H1 Ha.
  destruct (Render.processFile e fid path ft w) as [w' [err|r]] eqn:E.
  - pose proof (render_thrown_table _ _ _ _ _ _ _ E Ha) as F.
    assert (U : Spec.untouched fid w w').
    { pose proof (render_processFile_untouched e fid path ft w w) as P.
      rewrite E in P. apply P. split; reflexivity. }
    destruct U as (Hi & _).
    assert (L : length (List.filter (fun r => String.eqb (Backend.id r) fid)
                          (Backend.music_sheets w')) = 1).
    { rewrite <- (length_map Backend.id), ids_of_file, Hi, <- ids_of_file, length_map, H1.
      reflexivity. }
    destruct (List.filter _ (Backend.music_sheets w')) as [|r1 [|]] eqn:F1; try discriminate L.
    apply Forall_cons in F. destruct F as [[Hs He] _].
    rewrite (get_status_of_one fid w' r1 Hf F1).
    unfold error_json. rewrite Hs, He.
    destruct (String.eqb (Js.or_else _ _) "") eqn:X; [|reflexivity].
    apply String.eqb_eq in X. exfalso. revert X. apply or_else_not_empty. discriminate.
  - apply render_returned_table in E. destruct E as (E & _).
    rewrite (get_status_of_one fid w'
               (Backend.set_completed (Backend.res_mei_url r) (Backend.res_public_url r) r0) Hf).
    + reflexivity.
    + rewrite E, update_rows_of_file by reflexivity. rewrite H1. reflexivity.
Qed.

Lemma status_follows_the_run_example :
  Render.get_status (inr None) "42"
    (fst (Render.processFile (Spec.no_fault Spec.two_measures Spec.morning)
            "42" "u1/1741082000000-song.musicxml" "musicxml"
            (Spec.world_of [song_failed; Spec.other_song])))
  = Backend.MkResponse 200
      (Backend.JObject
         [("status", Backend.JString "completed");
          ("error", Backend.JString "Erro ao baixar arquivo: Object not found")]).
Proof.
  assert (H1 : String.eqb "42" "" = false) by reflexivity.
  assert (H2 : List.filter (fun r => String.eqb (Backend.id r) "42")
                 (Backend.music_sheets (Spec.world_of [song_failed; Spec.other_song]))
               = [song_failed]) by reflexivity.
  assert (H3 : Backend.failed_answer (Spec.no_fault Spec.two_measures Spec.morning) = None)
    by reflexivity.
  generalize (status_follows_the_run (Spec.no_fault Spec.two_measures Spec.morning)
                "42" "u1/1741082000000-song.musicxml" "musicxml"
                (Spec.world_of [song_failed; Spec.other_song]) song_failed H1 H2 H3).
  vm_compute. intros H. exact H.
Defined.

(** X20: [POST /convert] for an identifier that no record has answers 200
    all the same, as for a conversion that has started; the table is left
    as it was, also by the conversion that follows, and the status endpoint
    then answers 404 for that identifier. *)
Theorem unknown_file_is_started
    (e : Backend.Env) (req : Backend.ConversionRequest) (w : Backend.World) :
  String.eqb (Backend.fileId req) "" = false ->
  String.eqb (Backend.filePath req) "" = false ->
  Backend.processing_answer e = None ->
  (forall r, In r (Backend.music_sheets w) -> Backend.id r <> Backend.fileId req) ->
  Backend.status (snd (Render.post_convert e req w)) = 200
  /\ Backend.music_sheets (fst (Render.post_convert e req w)) = Backend.music_sheets w
  /\ Backend.status
       (Render.get_status (inr None) (Backend.fileId req) (fst (Render.post_convert e req w)))
     = 404.
Proof.
  intros Hi Hp Ha Hn.
  assert (T : Backend.music_sheets (fst (Render.post_convert e req w))
              = Backend.music_sheets w).
  { apply (untouched_absent (Backend.fileId req)); [|exact Hn].
    unfold Render.post_convert, Render.post_convert_respond.
    rewrite Hi, Hp, Ha. cbn [orb Backend.update_eq_id Nat.eqb Backend.status fst].
    unfold Render.post_convert_background.
    match goal with
    | |- context [Render.processFile e ?a ?b ?c ?w1] =>
        assert (U1 : Spec.untouched (Backend.fileId req) w w1);
        [|pose proof (render_processFile_untouched e a b c w w1 U1) as P;
          destruct (Render.processFile e a b c w1) as [w' [error|result]]; cbn [fst] in P]
    end.
    - cbn [Backend.music_sheets]. unfold Spec.untouched. cbn [Backend.music_sheets].
      rewrite update_rows_absent by exact Hn. split; reflexivity.
    - cbv zeta.
      match goal with
      | |- context [Backend.update_eq_id ?i ?f ?a ?w1] =>
          pose proof (preserves_update_untouched i f a w (fun _ => eq_refl) w1) as Q;
          destruct (Backend.update_eq_id i f a w1) as [w2 x]
      end.
      cbn [fst] in Q |- *.
      eapply table_only_untouched; [apply aside_log|]. apply Q.
      eapply table_only_untouched; [apply aside_log | exact P].
    - eapply table_only_untouched; [apply aside_log | exact P]. }
  split; [|split; [exact T|]].
  - unfold Render.post_convert, Render.post_convert_respond.
    rewrite Hi, Hp, Ha. reflexivity.
  - unfold Render.get_status. rewrite Hi, T, filter_of_absent by exact Hn. reflexivity.
Qed.

Lemma unknown_file_is_started_example :
  Backend.status
    (snd (Render.post_convert (Spec.no_fault Spec.two_measures Spec.morning)
            Spec.convert_song (Spec.world_of [Spec.other_song]))) = 200
  /\ Backend.music_sheets
       (fst (Render.post_convert (Spec.no_fault Spec.two_measures Spec.morning)
               Spec.convert_song (Spec.world_of [Spec.other_song])))
     = Backend.music_sheets (Spec.world_of [Spec.other_song])
  /\ Backend.status
       (Render.get_status (inr None) (Backend.fileId Spec.convert_song)
          (fst (Render.post_convert (Spec.no_fault Spec.two_measures Spec.morning)
                  Spec.convert_song (Spec.world_of [Spec.other_song]))))
     = 404.
Proof.
  apply unknown_file_is_started; try reflexivity.
  intros r [<-|[]]. discriminate.
Defined.

(** ** The edge function: single conversion and batch *)

(** X21: outside the batch, an answer 200 of the edge function means that
    the request had a body, that its [result] is what the conversion
    returned, that the bucket holds the document under [result.mei_url] and
    that the records of the file are completed with it. *)
Theorem single_conversion_answer
    (sv : Edge.Service) (req : Edge.Request) (w : Backend.World) :
  Js.includes_sub "/convert-all" (Edge.pathname req) = false ->
  Backend.status (snd (Edge.serve sv req w)) = 200 ->
  exists data r,
    Edge.payload req = inr data
    /\ Backend.body (snd (Edge.serve sv req w))
       = Backend.JObject
           [("success", Backend.JBool true);
            ("message", Backend.JString "Conversão concluída com sucesso");
            ("result", Backend.json_of_converted r)]
    /\ Backend.bucket (fst (Edge.serve sv req w)) !! Backend.res_mei_url r
       = Some (Backend.meiTemplate (Edge.fileName (Backend.filePath data))
                 (Backend.isodate (Edge.run sv (Backend.fileId data))))
    /\ Backend.music_sheets (fst (Edge.serve sv req w))
       = Backend.update_rows (Backend.fileId data)
           (Backend.set_completed (Backend.res_mei_url r) (Backend.res_public_url r))
           (Backend.music_sheets w).
Proof.
  intros Hp. unfold Edge.serve, Edge.internal_error. rewrite Hp.
  destruct (negb (String.eqb (Edge.method req) "POST")); [discriminate|].
  destruct (negb (Edge.configured sv)); [discriminate|].
  destruct (Edge.payload req) as [error|data]; [discriminate|].
  destruct (String.eqb (Backend.fileId data) "" || String.eqb (Backend.filePath data) "");
    [discriminate|].
  destruct (Edge.processFile _ _ _ _ w) as [w' [error|r]] eqn:E; [discriminate|].
  intros _. exists data, r. cbn [fst snd Backend.body].
  split; [reflexivity | split; [reflexivity|]]. split.
  - exact (edge_returned_bucket _ _ _ _ _ _ _ E).
  - apply edge_returned_table in E. exact (proj1 E).
Qed.

Lemma single_conversion_answer_example :
  exists data r,
    Edge.payload (single_request Spec.convert_song) = inr data
    /\ Backend.body
         (snd (Edge.serve Spec.quiet_service (single_request Spec.convert_song)
                 (Spec.world_of [Spec.song])))
       = Backend.JObject
           [("success", Backend.JBool true);
            ("message", Backend.JString "Conversão concluída com sucesso");
            ("result", Backend.json_of_converted r)]
    /\ Backend.bucket
         (fst (Edge.serve Spec.quiet_service (single_request Spec.convert_song)
                 (Spec.world_of [Spec.song]))) !! Backend.res_mei_url r
       = Some (Backend.meiTemplate (Edge.fileName (Backend.filePath data))
                 (Backend.isodate (Edge.run Spec.quiet_service (Backend.fileId data))))
    /\ Backend.music_sheets
         (fst (Edge.serve Spec.quiet_service (single_request Spec.convert_song)
                 (Spec.world_of [Spec.song])))
       = Backend.update_rows (Backend.fileId data)
           (Backend.set_completed (Backend.res_mei_url r) (Backend.res_public_url r))
           (Backend.music_sheets (Spec.world_of [Spec.song])).
Proof.
  apply single_conversion_answer; [reflexivity | vm_compute; reflexivity].
Defined.

(** X22: outside the batch, when the conversion of a configured service
    throws and the table accepts the updates, the answer 500 carries in
    [error] the very text that the records of the file now hold as
    [conversion_error], and these records are failed. *)
Theorem single_conversion_failure
    (sv : Edge.Service) (req : Edge.Request) (w : Backend.World)
    (data : Backend.ConversionRequest) :
  Js.includes_sub "/convert-all" (Edge.pathname req) = false ->
  Edge.configured sv = true ->
  Edge.payload req = inr data ->
  Backend.processing_answer (Edge.run sv (Backend.fileId data)) = None ->
  Backend.failed_answer (Edge.run sv (Backend.fileId data)) = None ->
  Backend.status (snd (Edge.serve sv req w)) = 500 ->
  exists msg,
    Backend.body (snd (Edge.serve sv req w))
    = Backend.JObject [("success", Backend.JBool false); ("error", Backend.JString msg)]
    /\ Forall (failed_with msg)
         (List.filter (fun r => String.eqb (Backend.id r) (Backend.fileId data))
            (Backend.music_sheets (fst (Edge.serve sv req w)))).
Proof.
  intros Hp Hc Hd Ha Hf. unfold Edge.serve, Edge.internal_error. rewrite Hp, Hc, Hd.
  cbn [negb].
  destruct (negb (String.eqb (Edge.method req) "POST")); [discriminate|].
  destruct (String.eqb (Backend.fileId data) "" || String.eqb (Backend.filePath data) "");
    [discriminate|].
  destruct (Edge.processFile _ _ _ _ w) as [w' [error|r]] eqn:E; [|discriminate].
  intros _. exists (Edge.error_text error). split; [reflexivity|].
  cbn [fst Backend.log Backend.music_sheets].
  exact (edge_thrown_table _ _ _ _ _ _ _ E Ha Hf).
Qed.

Lemma single_conversion_failure_example :
  exists msg,
    Backend.body
      (snd (Edge.serve Spec.first_fails (single_request convert_lost)
              (Spec.world_of [Spec.lost; Spec.song])))
    = Backend.JObject [("success", Backend.JBool false); ("error", Backend.JString msg)]
    /\ Forall (failed_with msg)
         (List.filter (fun r => String.eqb (Backend.id r) (Backend.fileId convert_lost))
            (Backend.music_sheets
               (fst (Edge.serve Spec.first_fails (single_request convert_lost)
                       (Spec.world_of [Spec.lost; Spec.song]))))).
Proof.
  apply single_conversion_failure; reflexivity.
Defined.

(** X23: the batch creates and deletes no record, and changes no record
    of a file that is not among the files it takes: the records that are
    not pending, and the pending ones beyond the first ten, are as
    before, whatever happens to the files taken. *)
Theorem batch_touches_only_its_page
    (sv : Edge.Service) (req : Edge.Request) (w : Backend.World) :
  Js.includes_sub "/convert-all" (Edge.pathname req) = true ->
  only_touched (Edge.pending_page w) w (fst (Edge.serve sv req w)).
Proof.
  intros Hp. unfold Edge.serve, Edge.internal_error.
  destruct (negb (String.eqb (Edge.method req) "POST")); [split; reflexivity|].
  destruct (negb (Edge.configured sv)); [split; reflexivity|].
  rewrite Hp.
  destruct (Edge.query_answer sv); [split; reflexivity|].
  change (Edge.pending_page
            (fst (Backend.log
                    "Iniciando processamento em lote de todos os arquivos pendentes" w)))
    with (Edge.pending_page w).
  pose proof (convert_each_only_touches sv (Edge.pending_page w)
                (fst (Backend.log
                        "Iniciando processamento em lote de todos os arquivos pendentes" w)))
    as H.
  destruct (Edge.pending_page w) as [|file files]; [split; reflexivity|].
  destruct (Edge.convert_each sv (file :: files) _) as [w' results].
  exact H.
Qed.

Lemma batch_touches_only_its_page_example :
  only_touched (Edge.pending_page (Spec.world_of [Spec.lost; song_failed; Spec.other_song]))
    (Spec.world_of [Spec.lost; song_failed; Spec.other_song])
    (fst (Edge.serve Spec.first_fails Spec.batch_request
            (Spec.world_of [Spec.lost; song_failed; Spec.other_song]))).
Proof. apply batch_touches_only_its_page. reflexivity. Defined.

Section BatchProgress.
Import Js Backend Spec.

Lemma statuses_of_other (fid fid' : string) (w0 w : World) :
  untouched fid w0 w -> fid' <> fid -> statuses fid' w = statuses fid' w0.
Proof.
  intros (_ & Ho) Hne. unfold statuses.
  assert (I : forall r : Row, String.eqb (id r) fid' = true -> other fid r = true).
  { intros r H. apply String.eqb_eq in H. unfold other.
    destruct (String.eqb (id r) fid) eqn:E; [|reflexivity].
    apply String.eqb_eq in E. congruence. }
  rewrite <- (filter_filter_implied _ _ _ (music_sheets w) I).
  rewrite <- (filter_filter_implied _ _ _ (music_sheets w0) I).
  now rewrite Ho.
Qed.

Variable sv : Edge.Service.
Hypothesis accepted : forall fid,
  processing_answer (Edge.run sv fid) = None \/ refailed_answer (Edge.run sv fid) = None.

Lemma convert_each_settles (files : list Row) (fid : string) (w : World) :
  In fid (map id files) \/ settled fid w ->
  settled fid (fst (Edge.convert_each sv files w)).
Proof.
  revert w. induction files as [|file files IH]; intros w H.
  - destruct H as [[]|H]. exact H.
  - cbn [Edge.convert_each].
    assert (U : untouched (id file) w w) by (split; reflexivity).
    pose proof (edge_processFile_untouched (Edge.run sv (id file)) (id file)
                  (file_url file) (file_type file) w w U) as P.
    pose proof (fun Hp => edge_processFile_tracks (Edge.run sv (id file)) (id file)
                  (file_url file) (file_type file) w w Hp U) as T.
    destruct (Edge.processFile _ _ _ _ w) as [w' [error|result]] eqn:E; cbn [fst] in P, T.
    + match goal with
      | |- context [Edge.convert_each sv files ?w1] =>
          specialize (IH w1);
          assert (U1 : untouched (id file) w w1);
          [|assert (S1 : settled (id file) w1)]
      end.
      { apply preserves_update_untouched; [reflexivity|].
        eapply table_only_untouched; [|exact P]. reflexivity. }
      { unfold settled, statuses, update_eq_id.
        destruct (refailed_answer (Edge.run sv (id file))) as [refused|] eqn:R.
        - destruct (accepted (id file)) as [Hp|Hr]; [|congruence].
          cbn [fst log music_sheets]. apply (T Hp).
        - cbn [fst log music_sheets].
          apply update_rows_statuses; [reflexivity | apply set_failed_started]. }
      destruct (Edge.convert_each sv files _) as [w2 items]. cbn [fst] in *.
      apply IH. destruct (String.eq_dec fid (id file)) as [->|Hne].
      * right. exact S1.
      * destruct H as [[H|H]|H]; [congruence | left; exact H | right].
        unfold settled. rewrite (statuses_of_other _ _ _ _ U1 Hne). exact H.
    + specialize (IH w').
      assert (S1 : settled (id file) w').
      { apply edge_returned_table in E. destruct E as (E & _).
        unfold settled, statuses. rewrite E.
        apply update_rows_statuses; [reflexivity | apply set_completed_started]. }
      destruct (Edge.convert_each sv files w') as [w2 items]. cbn [fst] in *.
      apply IH. destruct (String.eq_dec fid (id file)) as [->|Hne].
      * right. exact S1.
      * destruct H as [[H|H]|H]; [congruence | left; exact H | right].
        unfold settled. rewrite (statuses_of_other _ _ _ _ P Hne). exact H.
Qed.

End BatchProgress.

(** X24: provided that, for each file, the table accepts to put its
    records in progress or to mark them failed, no record of a file that
    the batch has taken is pending afterwards, whether its conversion has
    returned or thrown: the next batch takes other files. *)
Theorem batch_leaves_no_taken_file_pending
    (sv : Edge.Service) (req : Edge.Request) (w : Backend.World) (file : Backend.Row) :
  (forall fid, Backend.processing_answer (Edge.run sv fid) = None
               \/ Backend.refailed_answer (Edge.run sv fid) = None) ->
  Edge.method req = "POST" ->
  Edge.configured sv = true ->
  Js.includes_sub "/convert-all" (Edge.pathname req) = true ->
  Edge.query_answer sv = None ->
  In file (Edge.pending_page w) ->
  Forall (fun s => s <> Some Backend.pending)
    (Backend.statuses (Backend.id file) (fst (Edge.serve sv req w))).
Proof.
  intros Ha Hm Hc Hp Hq Hin.
  cut (settled (Backend.id file) (fst (Edge.serve sv req w))).
  { intros S. eapply Forall_impl; [exact S|]. intros s [->|[->| ->]]; discriminate. }
  unfold Edge.serve. rewrite Hm, Hc, Hp, Hq. cbn [negb String.eqb].
  change (Edge.pending_page
            (fst (Backend.log
                    "Iniciando processamento em lote de todos os arquivos pendentes" w)))
    with (Edge.pending_page w).
  pose proof (convert_each_settles sv Ha (Edge.pending_page w) (Backend.id file)
                (fst (Backend.log
                        "Iniciando processamento em lote de todos os arquivos pendentes" w))
                (or_introl (in_map Backend.id _ _ Hin)))
    as H.
  destruct (Edge.pending_page w) as [|f files]; [destruct Hin|].
  destruct (Edge.convert_each sv (f :: files) _) as [w' results].
  exact H.
Qed.

Lemma batch_leaves_no_taken_file_pending_example :
  Forall (fun s => s <> Some Backend.pending)
    (Backend.statuses (Backend.id Spec.lost)
       (fst (Edge.serve Spec.first_fails Spec.batch_request
               (Spec.world_of [Spec.lost; song_failed; Spec.other_song])))).
Proof.
  apply batch_leaves_no_taken_file_pending; try reflexivity.
  - intros fid. left. unfold Spec.first_fails. cbn [Edge.run].
    destruct (String.eqb fid "13"); reflexivity.
  - vm_compute. left. reflexivity.
Defined.

(** ** The client and the web service *)

(** X25: [startConversion] returns exactly when [POST /convert] has put
    the records of the file in progress, and then gives the answer with
    the identifier and the status "processing"; otherwise it throws "Erro
    na conversão: " followed by the text that the service sent in [error],
    never by the status text of the response, and the table is as it
    was. *)
Theorem startConversion_over_post_convert
    (e : Backend.Env) (req : Backend.ConversionRequest) (w : Backend.World)
    (statusText : string) :
  match Client.startConversion
          (Client.over_http statusText (snd (Render.post_convert_respond e req w))) with
  | inr data =>
      Backend.field "status" data = Some (Backend.JString "processing")
      /\ Backend.field "fileId" data = Some (Backend.JString (Backend.fileId req))
      /\ Backend.music_sheets (fst (Render.post_convert_respond e req w))
         = Backend.update_rows (Backend.fileId req) Backend.set_processing
             (Backend.music_sheets w)
  | inl err =>
      exists msg,
        Backend.field "error" (Backend.body (snd (Render.post_convert_respond e req w)))
        = Some (Backend.JString msg)
        /\ err = Backend.MkError true ("Erro na conversão: " +:+ msg)
        /\ Backend.music_sheets (fst (Render.post_convert_respond e req w))
           = Backend.music_sheets w
  end.
Proof.
  unfold Client.startConversion, Client.over_http, Render.post_convert_respond.
  destruct (String.eqb (Backend.fileId req) "" || String.eqb (Backend.filePath req) "").
  { cbn [snd fst Backend.status Backend.body].
    rewrite (call_refused _ _ "Dados obrigatórios ausentes") by (reflexivity || discriminate).
    eexists. repeat split. }
  unfold Backend.update_eq_id.
  destruct (Backend.processing_answer e) as [error|].
  - cbn [snd fst Backend.status Backend.body Backend.log Backend.music_sheets].
    rewrite (call_refused _ _
               (Js.or_else (Backend.message error) "Erro desconhecido ao iniciar a conversão")).
    + eexists. repeat split.
    + reflexivity.
    + reflexivity.
    + apply or_else_not_empty. discriminate.
  - cbn. repeat split.
Qed.

Section StatusThroughTheRoute.
Import Js Backend Spec.


End StatusThroughTheRoute.

